(** * Agent Guardrails SDK (TypeScript): the authorization decision engine

    A shallow embedding of [js/src/policies.ts], [js/src/types.ts],
    [js/src/storage.ts], [js/src/agent.ts] and the session of
    [examples/js_basic_usage.ts], and the properties of the decision engine
    proved (or refuted) over it.

    Conventions of the embedding.
    - A JavaScript [number] is an IEEE-754 binary64 value, modelled by
      [spec_float] with precision 53 and exponent bound 1024; there is a
      single NaN.
    - A JavaScript string is a [string]: a sequence of 8-bit code units.
    - The values that a caller passes in a parameter bag and that a JSON
      document holds under a key are [JSValue]s, the primitive values
      [undefined], [null], a boolean, a number or a string.
    - A [Record<string, any>] is a plain object: a finite map of its own
      properties, which inherits the properties of [Object.prototype].
      Reading a property goes through the prototype, so it gives an [Any]:
      a primitive value or a member of [Object.prototype].  An assignment
      under the key [__proto__] changes the prototype where the object has
      no own property of that name.
    - The string form of a built-in function and the messages of a
      [TypeError] are those of Node.js (V8), the platform of the SDK.
    - A function that may throw returns a [Result]; code that reads or writes
      the storage driver, the agent object or the clock runs in the monad [M]. *)

From Stdlib Require Import ZArith QArith Lia Ascii String SpecFloat.
From stdpp Require Import gmap strings list.

Close Scope Q_scope.
Open Scope string_scope.
Open Scope Z_scope.

(* ===================================================================== *)
(** ** Strings *)
(* ===================================================================== *)

Module Str.

Definition is_digit (c : ascii) : bool :=
  let n := Z.of_nat (Ascii.nat_of_ascii c) in (48 <=? n) && (n <=? 57).

Definition digit_val (c : ascii) : Z := Z.of_nat (Ascii.nat_of_ascii c) - 48.

Definition digit_char (d : Z) : ascii := Ascii.ascii_of_nat (Z.to_nat (48 + d)).

(** The longest prefix of decimal digits, and what follows it. *)
Fixpoint span_digits (s : string) : string * string :=
  match s with
  | String c r =>
      if is_digit c then let '(ds, rest) := span_digits r in (String c ds, rest)
      else (EmptyString, s)
  | EmptyString => (EmptyString, EmptyString)
  end.

(** The mathematical value of a string of decimal digits. *)
Fixpoint digits_value_from (acc : Z) (s : string) : Z :=
  match s with
  | String c r => digits_value_from (10 * acc + digit_val c) r
  | EmptyString => acc
  end.

Definition digits_value (s : string) : Z := digits_value_from 0 s.

Fixpoint all_digits (s : string) : bool :=
  match s with
  | String c r => is_digit c && all_digits r
  | EmptyString => true
  end.

Definition len (s : string) : Z := Z.of_nat (String.length s).

Fixpoint decimal_go (fuel : nat) (z : Z) (acc : string) : string :=
  match fuel with
  | O => acc
  | S f =>
      let acc' := String (digit_char (z mod 10)) acc in
      if z <? 10 then acc' else decimal_go f (z / 10) acc'
  end.

(** The decimal digits of a non-negative integer. *)
Definition decimal (z : Z) : string :=
  decimal_go (S (Z.to_nat (Z.log2 z))) z EmptyString.

Fixpoint zeros (n : nat) : string :=
  match n with O => EmptyString | S k => String "0" (zeros k) end.

(** [decimal] padded on the left with zeros to at least [w] characters. *)
Definition pad (w : nat) (z : Z) : string :=
  let d := decimal z in zeros (w - String.length d) +:+ d.

Definition take (n : nat) (s : string) : string := String.substring 0 n s.
Definition drop (n : nat) (s : string) : string :=
  String.substring n (String.length s - n) s.

(** JavaScript [WhiteSpace] and [LineTerminator] code units below 256. *)
Definition is_space (c : ascii) : bool :=
  let n := Ascii.nat_of_ascii c in
  match n with
  | 9%nat | 10%nat | 11%nat | 12%nat | 13%nat | 32%nat | 160%nat => true
  | _ => false
  end.

Fixpoint trim_start (s : string) : string :=
  match s with
  | String c r => if is_space c then trim_start r else s
  | EmptyString => EmptyString
  end.

(** [String.prototype.toLowerCase] on the two letters a window unit can be. *)
Definition lower (c : ascii) : ascii :=
  let n := Ascii.nat_of_ascii c in
  if ((65 <=? n) && (n <=? 90))%nat then Ascii.ascii_of_nat (n + 32) else c.

End Str.

(* ===================================================================== *)
(** ** Numbers: IEEE-754 binary64 *)
(* ===================================================================== *)

Module Num.

Definition prec : Z := 53.
Definition emax : Z := 1024.

Definition t : Type := spec_float.

Definition NaN : t := S754_nan.
Definition zero : t := S754_zero false.
Definition add : t -> t -> t := SFadd prec emax.
Definition sub : t -> t -> t := SFsub prec emax.
Definition mul : t -> t -> t := SFmul prec emax.

(** [x <= y], [x < y] and [x == y] on numbers; false as soon as one side is NaN. *)
Definition leb : t -> t -> bool := SFleb.
Definition ltb : t -> t -> bool := SFltb.
Definition eqb : t -> t -> bool := SFeqb.

(** The number nearest to an integer (ties to even). *)
Definition of_Z (z : Z) : t := binary_normalize prec emax z 0 false.

(** The number nearest to [m * 10^k], for [m >= 0]: what reading the decimal
    literal with digits [m] and exponent [k] gives. *)
Definition of_decimal (m k : Z) : t :=
  match m with
  | Zpos p =>
      if 0 <=? k then of_Z (m * 10 ^ k)
      else SFdiv prec emax (S754_finite false p 0)
                 (S754_finite false (Z.to_pos (10 ^ (- k))) 0)
  | _ => zero
  end.

Definition is_nan (x : t) : bool :=
  match x with S754_nan => true | _ => false end.

Definition is_zero (x : t) : bool :=
  match x with S754_zero _ => true | _ => false end.

(** The number of binary digits of a positive integer. *)
Definition digits (z : Z) : Z := Z.log2 z + 1.

(** The number of sign [s] and magnitude [z], for [0 < z < 2^53]: [z] itself,
    written with a mantissa of 53 digits. *)
Definition canon (s : bool) (z : Z) : t :=
  S754_finite s (Z.to_pos (z * 2 ^ (53 - digits z))) (digits z - 53).

(** The integer part of a finite number (truncation toward zero). *)
Definition trunc (x : t) : option Z :=
  match x with
  | S754_zero _ => Some 0
  | S754_finite s m (Zneg e) =>
      let q := Z.shiftr (Zpos m) (Zpos e) in Some (if s then - q else q)
  | S754_finite s m e =>
      let q := Z.shiftl (Zpos m) e in Some (if s then - q else q)
  | _ => None
  end.

(** *** Number::toString, radix 10 *)

(** A positive finite number as an exact fraction [(num, den)]. *)
Definition fraction (m : positive) (e : Z) : Z * Z :=
  match e with
  | Zneg p => (Zpos m, 2 ^ Zpos p)
  | _ => (Zpos m * 2 ^ e, 1)
  end.

Fixpoint count_digits (fuel : nat) (q : Z) : Z :=
  match fuel with
  | O => 1
  | S f => if q <? 10 then 1 else 1 + count_digits f (q / 10)
  end.

Fixpoint leading_zeros (fuel : nat) (num den j : Z) : Z :=
  match fuel with
  | O => j
  | S f => if num * 10 <? den then leading_zeros f (num * 10) den (j + 1) else j
  end.

(** The [n] with [10^(n-1) <= num/den < 10^n]. *)
Definition decimal_exponent (num den : Z) : Z :=
  if den <=? num then
    let q := num / den in count_digits (S (Z.to_nat (Z.log2 q))) q
  else - leading_zeros 400 num den 0.

(** [num/den * 10^j] as a fraction. *)
Definition scale10 (num den j : Z) : Z * Z :=
  if 0 <=? j then (num * 10 ^ j, den) else (num, den * 10 ^ (- j)).

(** The digits [s] and the exponent [n] of the [k]-digit decimal that reads
    back as [x] and is nearest to it, if there is one. *)
Definition shortest_at (x : t) (num den n0 k : Z) : option (Z * Z) :=
  let '(a, b) := scale10 num den (k - n0) in
  let lo := a / b in
  let r := a mod b in
  let hi := lo + 1 in
  let '(his, hin) := if hi <? 10 ^ k then (hi, n0) else (10 ^ (k - 1), n0 + 1) in
  let lo_ok := eqb (of_decimal lo (n0 - k)) x in
  let hi_ok := eqb (of_decimal his (hin - k)) x in
  let prefer_lo := (2 * r <? b) || ((2 * r =? b) && Z.even lo) in
  if lo_ok && (prefer_lo || negb hi_ok) then Some (lo, n0)
  else if hi_ok then Some (his, hin)
  else None.

Fixpoint shortest_from (fuel : nat) (x : t) (num den n0 k : Z) : Z * Z * Z :=
  match fuel with
  | O => (num / den, k, n0)
  | S f =>
      match shortest_at x num den n0 k with
      | Some (s, n) => (s, k, n)
      | None => shortest_from f x num den n0 (k + 1)
      end
  end.

Definition toString_pos (m : positive) (e : Z) : string :=
  let x := S754_finite false m e in
  let '(num, den) := fraction m e in
  let n0 := decimal_exponent num den in
  let '(s, k, n) := shortest_from 17 x num den n0 1 in
  let ds := Str.decimal s in
  let exp_part (ex : Z) :=
    (if 0 <=? ex then "e+" else "e-") +:+ Str.decimal (Z.abs ex) in
  if (k <=? n) && (n <=? 21) then ds +:+ Str.zeros (Z.to_nat (n - k))
  else if (0 <? n) && (n <=? 21) then
    Str.take (Z.to_nat n) ds +:+ "." +:+ Str.drop (Z.to_nat n) ds
  else if (-6 <? n) && (n <=? 0) then "0." +:+ Str.zeros (Z.to_nat (- n)) +:+ ds
  else if k =? 1 then ds +:+ exp_part (n - 1)
  else Str.take 1 ds +:+ "." +:+ Str.drop 1 ds +:+ exp_part (n - 1).

Definition toString (x : t) : string :=
  match x with
  | S754_nan => "NaN"
  | S754_zero _ => "0"
  | S754_infinity s => if s then "-Infinity" else "Infinity"
  | S754_finite s m e => (if s then "-" else "") +:+ toString_pos m e
  end.

(** *** Decimal literals: [parseFloat] and [parseInt] *)

(** What a string starts with, read as a [StrDecimalLiteral]. *)
Inductive literal : Type :=
| LitNone
| LitInfinity (negative : bool)
| LitDecimal (negative : bool) (digits : Z) (exponent : Z).

Definition read_sign (s : string) : bool * string :=
  match s with
  | String "-" r => (true, r)
  | String "+" r => (false, r)
  | _ => (false, s)
  end.

Definition read_exponent (s : string) : Z :=
  match s with
  | String c r =>
      if (Ascii.eqb c "e" || Ascii.eqb c "E")%bool then
        let '(neg, r') := read_sign r in
        let '(ds, _) := Str.span_digits r' in
        match ds with
        | EmptyString => 0
        | _ => if neg then - Str.digits_value ds else Str.digits_value ds
        end
      else 0
  | EmptyString => 0
  end.

Definition read_literal (s : string) : literal :=
  let '(neg, u) := read_sign (Str.trim_start s) in
  if String.prefix "Infinity" u then LitInfinity neg
  else
    let '(ip, r1) := Str.span_digits u in
    let '(fp, r2) :=
      match r1 with
      | String "." r => Str.span_digits r
      | _ => (EmptyString, r1)
      end in
    match ip, fp with
    | EmptyString, EmptyString => LitNone
    | _, _ =>
        LitDecimal neg (Str.digits_value (ip +:+ fp))
                   (read_exponent r2 - Str.len fp)
    end.

(** [parseFloat(s)] *)
Definition parseFloat (s : string) : t :=
  match read_literal s with
  | LitNone => NaN
  | LitInfinity neg => S754_infinity neg
  | LitDecimal neg m k =>
      let x := of_decimal m k in if neg then SFopp x else x
  end.

(** [parseInt(s, 10)] *)
Definition parseInt (s : string) : t :=
  let '(neg, u) := read_sign (Str.trim_start s) in
  let '(ds, _) := Str.span_digits u in
  match ds with
  | EmptyString => NaN
  | _ => let x := of_Z (Str.digits_value ds) in if neg then SFopp x else x
  end.

(** The exact value of the decimal literal a string starts with. *)
Definition exact_decimal (s : string) : option Q :=
  match read_literal s with
  | LitDecimal neg m k =>
      let v := if 0 <=? k then inject_Z (m * 10 ^ k)
               else Qmake m (Z.to_pos (10 ^ (- k))) in
      Some (if neg then Qopp v else v)
  | _ => None
  end.

End Num.

(* ===================================================================== *)
(** ** Values of type [any] *)
(* ===================================================================== *)

(** The primitive values. *)
Inductive JSValue : Type :=
| JUndefined
| JNull
| JBool (b : bool)
| JNum (n : Num.t)
| JStr (s : string).

(** The properties of [Object.prototype], which every object literal and
    every object that [JSON.parse] builds inherits: eleven functions and the
    accessor [__proto__]. *)
Module ObjectPrototype.

Inductive member : Type :=
| constructor
| __defineGetter__
| __defineSetter__
| hasOwnProperty
| __lookupGetter__
| __lookupSetter__
| isPrototypeOf
| propertyIsEnumerable
| toString
| valueOf
| __proto__
| toLocaleString.

Definition key (m : member) : string :=
  match m with
  | constructor => "constructor"
  | __defineGetter__ => "__defineGetter__"
  | __defineSetter__ => "__defineSetter__"
  | hasOwnProperty => "hasOwnProperty"
  | __lookupGetter__ => "__lookupGetter__"
  | __lookupSetter__ => "__lookupSetter__"
  | isPrototypeOf => "isPrototypeOf"
  | propertyIsEnumerable => "propertyIsEnumerable"
  | toString => "toString"
  | valueOf => "valueOf"
  | __proto__ => "__proto__"
  | toLocaleString => "toLocaleString"
  end.

Definition members : list member :=
  [constructor; __defineGetter__; __defineSetter__; hasOwnProperty; __lookupGetter__;
   __lookupSetter__; isPrototypeOf; propertyIsEnumerable; toString; valueOf; __proto__;
   toLocaleString].

(** The member that a property key names, if any. *)
Definition of_key (s : string) : option member :=
  List.find (fun m => String.eqb (key m) s) members.

(** The [name] of a function member; [constructor] is the function [Object]. *)
Definition function_name (m : member) : string :=
  match m with
  | constructor => "Object"
  | _ => key m
  end.

End ObjectPrototype.

(** What reading a property of a plain object gives: a primitive value, or
    the value of a member of [Object.prototype] that the object inherits,
    which is one of the eleven functions or, for [__proto__], the prototype
    of the object: [Object.prototype] itself. *)
Inductive Any : Type :=
| Prim (v : JSValue)
| Inherited (m : ObjectPrototype.member).

Coercion Prim : JSValue >-> Any.

(** The messages of the [TypeError] that reading or setting a property of
    [undefined] or [null] throws. *)
Module TypeError.

Definition read (value name : string) : string :=
  "Cannot read properties of " +:+ value +:+ " (reading '" +:+ name +:+ "')".

Definition set (value name : string) : string :=
  "Cannot set properties of " +:+ value +:+ " (setting '" +:+ name +:+ "')".

End TypeError.

Module JS.

(** ToBoolean: what [if (v)], [!v], [a && b] and [a || b] test. *)
Definition truthy (v : Any) : bool :=
  match v with
  | Prim (JUndefined | JNull) => false
  | Prim (JBool b) => b
  | Prim (JNum n) => negb (Num.is_zero n || Num.is_nan n)
  | Prim (JStr s) => negb (String.eqb s "")
  | Inherited _ => true
  end.

(** [a || b] *)
Definition or (a b : Any) : Any := if truthy a then a else b.

(** [String(v)], which is also the conversion of [v] to a property key. *)
Definition String (v : Any) : string :=
  match v with
  | Prim JUndefined => "undefined"
  | Prim JNull => "null"
  | Prim (JBool b) => if b then "true" else "false"
  | Prim (JNum n) => Num.toString n
  | Prim (JStr s) => s
  | Inherited ObjectPrototype.__proto__ => "[object Object]"
  | Inherited m =>
      "function " +:+ ObjectPrototype.function_name m +:+ "() { [native code] }"
  end.

(** [a === b]; two built-in objects are equal when they are the same object. *)
Definition strict_eq (a b : Any) : bool :=
  match a, b with
  | Prim JUndefined, Prim JUndefined => true
  | Prim JNull, Prim JNull => true
  | Prim (JBool x), Prim (JBool y) => Bool.eqb x y
  | Prim (JNum x), Prim (JNum y) => Num.eqb x y
  | Prim (JStr x), Prim (JStr y) => String.eqb x y
  | Inherited m, Inherited m' =>
      String.eqb (ObjectPrototype.key m) (ObjectPrototype.key m')
  | _, _ => false
  end.

Definition is_nullish (v : Any) : bool :=
  match v with Prim (JUndefined | JNull) => true | _ => false end.

(** What a property key reads as on an object that has no own property of
    that name: the member of [Object.prototype], or [undefined]. *)
Definition inherited (key : string) : Any :=
  match ObjectPrototype.of_key key with
  | Some m => Inherited m
  | None => JUndefined
  end.

(** [o[key]]: the own property, or else what the object inherits. *)
Definition get (o : gmap string JSValue) (key : string) : Any :=
  match o !! key with
  | Some v => Prim v
  | None => inherited key
  end.

(** Whether [o[key] = value], for a value that is an object, changes the
    prototype of the object in place of its properties: under the key
    [__proto__] the assignment reaches the setter of [Object.prototype],
    unless the object has an own property of that name. *)
Definition sets_prototype {A} (o : gmap string A) (key : string) : bool :=
  String.eqb key "__proto__" && match o !! key with Some _ => false | None => true end.

(** The own properties after [o[key] = value]. *)
Definition assign {A} (o : gmap string A) (key : string) (value : A) : gmap string A :=
  if sets_prototype o key then o else <[key := value]> o.

(** What [JSON.parse(JSON.stringify(v))] gives for a property value: a
    property holding [undefined] is dropped, a number that is not finite
    becomes [null], and the sign of zero is lost. *)
Definition json_value (v : JSValue) : option JSValue :=
  match v with
  | JUndefined => None
  | JNum (S754_nan | S754_infinity _) => Some JNull
  | JNum (S754_zero _) => Some (JNum Num.zero)
  | _ => Some v
  end.

Definition json (o : gmap string JSValue) : gmap string JSValue :=
  omap json_value o.

End JS.

(* ===================================================================== *)
(** ** Dates *)
(* ===================================================================== *)

(** How [new Date(s)] reads a string: the time value in milliseconds since the
    epoch, or [None] for an Invalid Date (time value NaN).  ECMAScript fixes
    the result for the ISO format only and lets an engine accept more
    formats, so the parser is a parameter of the development. *)
Class DateParser : Type := Date_parse : string -> option Z.

Module Date.

(** A [Date] object: its time value, [None] when the date is invalid. *)
Definition t : Type := option Z.

(** [new Date(value)] for a number: TimeClip. *)
Definition of_number (x : Num.t) : t :=
  match Num.trunc x with
  | Some z => if Z.abs z <=? 8640000000000000 then Some z else None
  | None => None
  end.

(** [d.getTime()] *)
Definition getTime (d : t) : Num.t :=
  match d with
  | Some z => Num.of_Z z
  | None => Num.NaN
  end.

(** [a < b] on two dates: the comparison of their time values, false when
    one of them is NaN. *)
Definition lt (a b : t) : bool :=
  match a, b with
  | Some x, Some y => x <? y
  | _, _ => false
  end.

(** The civil date of a day number (days since 1970-01-01). *)
Definition civil_from_days (z : Z) : Z * Z * Z :=
  let z := z + 719468 in
  let era := z / 146097 in
  let doe := z - era * 146097 in
  let yoe := (doe - doe / 1460 + doe / 36524 - doe / 146096) / 365 in
  let doy := doe - (365 * yoe + yoe / 4 - yoe / 100) in
  let mp := (5 * doy + 2) / 153 in
  let d := doy - (153 * mp + 2) / 5 + 1 in
  let m := if mp <? 10 then mp + 3 else mp - 9 in
  let y := yoe + era * 400 in
  (if m <=? 2 then y + 1 else y, m, d).

Definition days_from_civil (y m d : Z) : Z :=
  let y := if m <=? 2 then y - 1 else y in
  let era := y / 400 in
  let yoe := y - era * 400 in
  let doy := (153 * (if 2 <? m then m - 3 else m + 9) + 2) / 5 + d - 1 in
  let doe := yoe * 365 + yoe / 4 - yoe / 100 + doy in
  era * 146097 + doe - 719468.

(** [d.toISOString()] of a valid date. *)
Definition toISOString (tv : Z) : string :=
  let day := tv / 86400000 in
  let ms := tv mod 86400000 in
  let '(y, m, d) := civil_from_days day in
  let year :=
    if (0 <=? y) && (y <=? 9999) then Str.pad 4 y
    else (if 0 <=? y then "+" else "-") +:+ Str.pad 6 (Z.abs y) in
  year +:+ "-" +:+ Str.pad 2 m +:+ "-" +:+ Str.pad 2 d +:+ "T"
    +:+ Str.pad 2 (ms / 3600000) +:+ ":" +:+ Str.pad 2 (ms / 60000 mod 60) +:+ ":"
    +:+ Str.pad 2 (ms / 1000 mod 60) +:+ "." +:+ Str.pad 3 (ms mod 1000) +:+ "Z".

(** [s.replace(/\.\d{3}Z$/, 'Z')] *)
Definition strip_millis (s : string) : string :=
  let n := String.length s in
  let tail := Str.drop (n - 5) s in
  match tail with
  | String "." (String a (String b (String c (String "Z" EmptyString)))) =>
      if Str.is_digit a && Str.is_digit b && Str.is_digit c
      then Str.take (n - 5) s +:+ "Z" else s
  | _ => s
  end.

(** The ISO format with second precision, as the decision log writes it:
    [YYYY-MM-DDTHH:mm:ssZ]. *)
Definition parse_iso (s : string) : option Z :=
  match s with
  | String y1 (String y2 (String y3 (String y4 (String "-" (String m1 (String m2
    (String "-" (String d1 (String d2 (String "T" (String h1 (String h2
    (String ":" (String n1 (String n2 (String ":" (String s1 (String s2
    (String "Z" EmptyString))))))))))))))))))) =>
      let num := String y1 (String y2 (String y3 (String y4 (String m1 (String m2
                 (String d1 (String d2 (String h1 (String h2 (String n1 (String n2
                 (String s1 (String s2 EmptyString))))))))))))) in
      let two a b := Str.digits_value (String a (String b EmptyString)) in
      let y := Str.digits_value (String y1 (String y2 (String y3 (String y4 EmptyString)))) in
      let m := two m1 m2 in
      let d := two d1 d2 in
      let h := two h1 h2 in
      let n := two n1 n2 in
      let sec := two s1 s2 in
      let days := days_from_civil y m d in
      if Str.all_digits num && (h <=? 23) && (n <=? 59) && (sec <=? 59)
         && bool_decide (civil_from_days days = (y, m, d))
      then Some (days * 86400000 + h * 3600000 + n * 60000 + sec * 1000)
      else None
  | _ => None
  end.

End Date.

(* ===================================================================== *)
(** ** types.ts *)
(* ===================================================================== *)

Module LimitConfig.

(** [window_seconds] is a number in every limit that [setLimit] builds.  In
    a limit read back from the state file it is [null], here [None], when
    the number written was not finite. *)
Record t : Type := mk {
  asset : string;
  amount : string;
  window_seconds : option Num.t;
}.

End LimitConfig.

(** What [config.limits[asset]] can be, and so the value that
    [isWithinLimits] gets as [limitCfg]: a limit, or a value that is no
    limit, found on the prototype chain of [config.limits]. *)
Module LimitValue.

Inductive t : Type :=
| Limit (limitCfg : LimitConfig.t)
| NotLimit (v : Any).

Definition truthy (x : t) : bool :=
  match x with
  | Limit _ => true
  | NotLimit v => JS.truthy v
  end.

(** [limitCfg.asset], [limitCfg.amount] and [limitCfg.window_seconds], for
    a value that is neither [undefined] nor [null]: a string, a number, a
    function and [Object.prototype] have no property of these names. *)
Definition asset (x : t) : Any :=
  match x with
  | Limit l => JStr (LimitConfig.asset l)
  | NotLimit _ => JUndefined
  end.

Definition amount (x : t) : Any :=
  match x with
  | Limit l => JStr (LimitConfig.amount l)
  | NotLimit _ => JUndefined
  end.

Definition window_seconds (x : t) : Any :=
  match x with
  | Limit l =>
      match LimitConfig.window_seconds l with
      | Some n => JNum n
      | None => JNull
      end
  | NotLimit _ => JUndefined
  end.

End LimitValue.

Coercion LimitValue.Limit : LimitConfig.t >-> LimitValue.t.

(** [config.limits]: a plain object that holds a limit under the name of an
    asset.  An assignment [limits['__proto__'] = limitCfg] makes the limit
    the prototype of the object, and the object then inherits the three
    properties of the limit. *)
Module Limits.

Record t : Type := mk {
  own : gmap string LimitConfig.t;
  prototype : option LimitConfig.t;
}.

(** [{}] *)
Definition empty : t := mk ∅ None.

(** [limits[key]] *)
Definition get (limits : t) (key : string) : LimitValue.t :=
  match own limits !! key with
  | Some l => LimitValue.Limit l
  | None =>
      match prototype limits with
      | Some p =>
          if String.eqb key "asset" then LimitValue.NotLimit (LimitValue.asset p)
          else if String.eqb key "amount" then LimitValue.NotLimit (LimitValue.amount p)
          else if String.eqb key "window_seconds"
               then LimitValue.NotLimit (LimitValue.window_seconds p)
          else if String.eqb key "__proto__" then LimitValue.Limit p
          else LimitValue.NotLimit (JS.inherited key)
      | None => LimitValue.NotLimit (JS.inherited key)
      end
  end.

(** [limits[key] = limitCfg] *)
Definition set (limits : t) (key : string) (limitCfg : LimitConfig.t) : t :=
  if JS.sets_prototype (own limits) key then mk (own limits) (Some limitCfg)
  else mk (<[key := limitCfg]> (own limits)) (prototype limits).

End Limits.

Module AllowRule.
Record t : Type := mk {
  action_type : string;
  constraints : gmap string JSValue;
}.
End AllowRule.

Module AgentConfig.
Record t : Type := mk {
  agent_id : string;
  wallet : string;
  name : option string;
  metadata : gmap string JSValue;
  limits : Limits.t;
  allow_rules : list AllowRule.t;
}.
End AgentConfig.

(** What [data.agents[agentId]] can be when it is not absent, and so the
    value that [this.config] can hold: a configuration, or a member of
    [Object.prototype] that the object [data.agents] inherits. *)
Module ConfigValue.

Inductive t : Type :=
| Config (config : AgentConfig.t)
| NotConfig (m : ObjectPrototype.member).

End ConfigValue.

Coercion ConfigValue.Config : AgentConfig.t >-> ConfigValue.t.

(** [Some x] is read at the type expected of it, so that a configuration
    stands for the value [Config] of it where a [ConfigValue.t] is held, and
    a limit for the value [Limit] of it. *)
Arguments Some {A} & a.

Module LogEntry.
Record t : Type := mk {
  timestamp : string;
  agent_id : string;
  action_type : string;
  params : gmap string JSValue;
  allowed : bool;
  reason : option string;
}.
End LogEntry.

Module StorageData.
Record t : Type := mk {
  agents : gmap string AgentConfig.t;
  logs : list LogEntry.t;
}.
End StorageData.

(* ===================================================================== *)
(** ** Exceptions and state *)
(* ===================================================================== *)

(** The outcome of a call: the value returned, or the message of the error
    thrown. *)
Inductive Result (A : Type) : Type :=
| Ok (a : A)
| Throw (message : string).

Arguments Ok {A} a.
Arguments Throw {A} message.

(** A computation over a mutable state [St] that may throw. *)
Definition M (St A : Type) : Type := St -> Result A * St.

Definition ret {St A} (a : A) : M St A := fun st => (Ok a, st).

Definition throw {St A} (message : string) : M St A := fun st => (Throw message, st).

Definition bind {St A B} (c : M St A) (k : A -> M St B) : M St B :=
  fun st =>
    match c st with
    | (Ok a, st') => k a st'
    | (Throw message, st') => (Throw message, st')
    end.

(** [try { body } catch (error) { handler(message of error) }] *)
Definition try_catch {St A} (body : M St A) (handler : string -> M St A) : M St A :=
  fun st =>
    match body st with
    | (Ok a, st') => (Ok a, st')
    | (Throw message, st') => handler message st'
    end.

Notation "'let*' x ':=' c 'in' k" := (bind c (fun x => k))
  (at level 10, x name, c at level 100, k at level 200, only parsing).

(* ===================================================================== *)
(** ** storage.ts *)
(* ===================================================================== *)

(** [interface StorageDriver], over the state [St] of the store behind it. *)
Class StorageDriver (St : Type) : Type := {
  saveAgent : AgentConfig.t -> M St unit;
  loadAgent : string -> M St (option ConfigValue.t);
  appendLog : LogEntry.t -> M St unit;
  getLogs : option string -> option Num.t -> M St (list LogEntry.t);
}.

Module JsonFileStorage.

(** The state file, as [fs.readFileSync] followed by [JSON.parse] finds it:
    the document it holds, or the error thrown when it cannot be read or is
    not JSON. *)
Definition t : Type := Result StorageData.t.

Definition readData : M t StorageData.t := fun file => (file, file).

(** Writing is taken to succeed; the file then holds the document written. *)
Definition writeData (data : StorageData.t) : M t unit :=
  fun _ => (Ok tt, Ok data).

(** What [JSON.stringify] keeps of a value written to the file.  The
    document read was JSON already, so only what a call adds to it changes.
    Of [config.limits] the own properties are written, and of a window
    length that is not finite, [null]. *)
Definition json_rule (r : AllowRule.t) : AllowRule.t :=
  AllowRule.mk (AllowRule.action_type r) (JS.json (AllowRule.constraints r)).

Definition json_seconds (w : option Num.t) : option Num.t :=
  match w with
  | Some (S754_finite s m e) => Some (S754_finite s m e)
  | Some (S754_zero _) => Some Num.zero
  | Some (S754_nan | S754_infinity _) => None
  | None => None
  end.

Definition json_limit (l : LimitConfig.t) : LimitConfig.t :=
  LimitConfig.mk (LimitConfig.asset l) (LimitConfig.amount l)
                 (json_seconds (LimitConfig.window_seconds l)).

Definition json_limits (limits : Limits.t) : Limits.t :=
  Limits.mk (json_limit <$> Limits.own limits) None.

Definition json_config (c : AgentConfig.t) : AgentConfig.t :=
  AgentConfig.mk (AgentConfig.agent_id c) (AgentConfig.wallet c) (AgentConfig.name c)
    (JS.json (AgentConfig.metadata c)) (json_limits (AgentConfig.limits c))
    (map json_rule (AgentConfig.allow_rules c)).

Definition json_entry (e : LogEntry.t) : LogEntry.t :=
  LogEntry.mk (LogEntry.timestamp e) (LogEntry.agent_id e) (LogEntry.action_type e)
    (JS.json (LogEntry.params e)) (LogEntry.allowed e) (LogEntry.reason e).

(** [data.agents[config.agent_id] = config]: under the key [__proto__] the
    assignment changes the prototype of [data.agents], which
    [JSON.stringify] does not write, unless the document holds an agent of
    that name already. *)
Definition saveAgent (config : AgentConfig.t) : M t unit :=
  let* data := readData in
  writeData (StorageData.mk
               (JS.assign (StorageData.agents data) (AgentConfig.agent_id config)
                          (json_config config))
               (StorageData.logs data)).

(** [data.agents[agentId] || null]: every member of [Object.prototype] is
    truthy. *)
Definition loadAgent (agentId : string) : M t (option ConfigValue.t) :=
  let* data := readData in
  ret (match StorageData.agents data !! agentId with
       | Some config => Some (ConfigValue.Config config)
       | None =>
           match ObjectPrototype.of_key agentId with
           | Some m => Some (ConfigValue.NotConfig m)
           | None => None
           end
       end).

Definition appendLog (logEntry : LogEntry.t) : M t unit :=
  let* data := readData in
  writeData (StorageData.mk (StorageData.agents data)
                            (StorageData.logs data ++ [json_entry logEntry])).

(** [logs.slice(-limit)] for [limit > 0] *)
Definition slice_last (limit : Num.t) (logs : list LogEntry.t) : list LogEntry.t :=
  match Num.trunc limit with
  | Some n => if n =? 0 then logs else drop (Z.to_nat (Z.of_nat (length logs) - n)) logs
  | None => logs
  end.

Definition getLogs (agentId : option string) (limit : option Num.t)
  : M t (list LogEntry.t) :=
  let* data := readData in
  let logs := StorageData.logs data in
  let logs :=
    match agentId with
    | Some id =>
        if JS.truthy (JStr id)
        then List.filter (fun log => String.eqb (LogEntry.agent_id log) id) logs
        else logs
    | None => logs
    end in
  let logs :=
    match limit with
    | Some n => if JS.truthy (JNum n) && Num.ltb Num.zero n then slice_last n logs else logs
    | None => logs
    end in
  ret logs.

#[global] Instance driver : StorageDriver t := {
  saveAgent := saveAgent;
  loadAgent := loadAgent;
  appendLog := appendLog;
  getLogs := getLogs;
}.

End JsonFileStorage.

(* ===================================================================== *)
(** ** policies.ts *)
(* ===================================================================== *)

Module Policies.

(** What [[hd]] matches under the flag [i]. *)
Definition is_unit (c : ascii) : bool :=
  Ascii.eqb c "h" || Ascii.eqb c "d" || Ascii.eqb c "H" || Ascii.eqb c "D".

(** A match of [/^(\d+)([hd])$/i]: the two groups.  [\d+] can only stop at
    the first character that is not a digit, which must be the unit and the
    last character. *)
Definition match_window (window : string) : option (string * ascii) :=
  let '(digits, rest) := Str.span_digits window in
  match digits, rest with
  | String _ _, String u EmptyString => if is_unit u then Some (digits, u) else None
  | _, _ => None
  end.

Definition invalid_window_message (window : string) : string :=
  "Invalid time window format: '" +:+ window
    +:+ "'. Expected format: <number><h|d> (e.g., '24h', '7d')".

Definition parseTimeWindow (window : string) : Result Num.t :=
  match match_window window with
  | None => Throw (invalid_window_message window)
  | Some (digits, u) =>
      let amount := Num.parseInt digits in
      let unit := Str.lower u in
      if Ascii.eqb unit "h" then Ok (Num.mul amount (Num.of_Z 3600))
      else if Ascii.eqb unit "d" then Ok (Num.mul amount (Num.of_Z 86400))
      else Throw ("Unknown time unit: " +:+ String unit EmptyString)
  end.

(** [constraints] is never absent in an [AllowRule], so the first test of
    the source, [!rule.constraints], is false. *)
Definition ruleMatches (rule : AllowRule.t) (params : gmap string JSValue) : bool :=
  if bool_decide (size (AllowRule.constraints rule) = 0%nat) then true
  else
    forallb (fun '((key, expectedValue) : string * JSValue) =>
               let actualValue := JS.get params key in
               String.eqb (JS.String actualValue) (JS.String expectedValue))
            (map_to_list (AllowRule.constraints rule)).

Definition isActionAllowedByRules (actionType : string) (params : gmap string JSValue)
           (rules : list AllowRule.t) : bool :=
  let relevantRules :=
    List.filter (fun r => String.eqb (AllowRule.action_type r) actionType) rules in
  if bool_decide (length relevantRules = 0%nat) then false
  else existsb (fun rule => ruleMatches rule params) relevantRules.

Section Limits.
Context `{DateParser} {St : Type} `{StorageDriver St}.

(** One turn of the loop over the log: the new value of [totalSpent].
    Neither [new Date(string)] nor [parseFloat] throws, so the two
    [catch] blocks of the loop are never entered; [params] is never absent
    in a [LogEntry], so [log.params || {}] is [log.params]. *)
Definition spend_step (asset : Any) (windowStart : Date.t)
           (totalSpent : Num.t) (log : LogEntry.t) : Num.t :=
  if negb (LogEntry.allowed log) then totalSpent
  else
    let logTime : Date.t := Date_parse (LogEntry.timestamp log) in
    if Date.lt logTime windowStart then totalSpent
    else
      let logParams := LogEntry.params log in
      let logAsset := JS.or (JS.get logParams "asset") (JS.get logParams "token") in
      if JS.strict_eq logAsset asset then
        let logAmount := JS.get logParams "amount" in
        if negb (JS.is_nullish logAmount)
        then Num.add totalSpent (Num.parseFloat (JS.String logAmount))
        else totalSpent
      else totalSpent.

(** [new Date(now.getTime() - limitCfg.window_seconds * 1000)]; in the
    product [null] is the number 0. *)
Definition windowStart (limitCfg : LimitConfig.t) (now : Date.t) : Date.t :=
  Date.of_number
    (Num.sub (Date.getTime now)
             (Num.mul (default Num.zero (LimitConfig.window_seconds limitCfg))
                      (Num.of_Z 1000))).

(** [totalSpent] when the loop ends. *)
Definition totalSpent (asset : Any) (limitCfg : LimitConfig.t) (now : Date.t)
           (allLogs : list LogEntry.t) : Num.t :=
  fold_left (spend_step asset (windowStart limitCfg now)) allLogs Num.zero.

(** The arguments [asset] and [limitCfg] are declared a string and a
    [LimitConfig]; [authorize] passes them a value of type [any] and what it
    has found in [config.limits].  Of a value that is no limit the property
    [asset] is [undefined], or reading it throws; where the first test lets
    such a value through, the maximum is [parseFloat(undefined)], which is
    NaN, and the comparison that ends the function is false. *)
Definition isWithinLimits (asset : Any) (amount : string) (limitCfg : LimitValue.t)
           (agentId : string) (now : Date.t) : M St bool :=
  match limitCfg with
  | LimitValue.Limit limit =>
      if negb (JS.strict_eq asset (JStr (LimitConfig.asset limit))) then ret false
      else
        let* allLogs := getLogs (Some agentId) None in
        let requestAmount := Num.parseFloat amount in
        let limitAmount := Num.parseFloat (LimitConfig.amount limit) in
        ret (Num.leb (Num.add (totalSpent asset limit now allLogs) requestAmount)
                     limitAmount)
  | LimitValue.NotLimit v =>
      if JS.is_nullish v then throw (TypeError.read (JS.String v) "asset")
      else if negb (JS.strict_eq asset JUndefined) then ret false
      else
        let* _ := getLogs (Some agentId) None in
        ret false
  end.

End Limits.

End Policies.

(* ===================================================================== *)
(** ** agent.ts *)
(* ===================================================================== *)

Module Agent.

(** An [Agent] object and what its methods act on: the three fields of the
    object, with the state of the store in place of the reference to the
    driver, and the system clock: [clock n] is the time value that the
    [n]-th evaluation of [new Date()] gives. *)
Record t (St : Type) : Type := mk {
  agentId : string;
  storage : St;
  config : option ConfigValue.t;
  clock : nat -> Z;
  ticks : nat;
}.

Arguments mk {St}.
Arguments agentId {St}.
Arguments storage {St}.
Arguments config {St}.
Arguments clock {St}.
Arguments ticks {St}.

Section Methods.
Context `{DateParser} {St : Type} `{StorageDriver St}.

Definition with_storage (this : t St) (st : St) : t St :=
  mk (agentId this) st (config this) (clock this) (ticks this).

Definition with_config (this : t St) (c : option ConfigValue.t) : t St :=
  mk (agentId this) (storage this) c (clock this) (ticks this).

(** The clock has been read once more. *)
Definition tick (this : t St) : t St :=
  mk (agentId this) (storage this) (config this) (clock this) (S (ticks this)).

(** A call on [this.storage]. *)
Definition on_storage {A} (c : M St A) : M (t St) A :=
  fun this => let '(r, st') := c (storage this) in (r, with_storage this st').

(** [new Date()] *)
Definition new_Date : M (t St) Z :=
  fun this => (Ok (clock this (ticks this)), tick this).

Definition get_config : M (t St) (option ConfigValue.t) :=
  fun this => (Ok (config this), this).

Definition set_config (c : option ConfigValue.t) : M (t St) unit :=
  fun this => (Ok tt, with_config this c).

Definition get_agentId : M (t St) string :=
  fun this => (Ok (agentId this), this).

(** [Agent.register], given the identifier that [uuidv4()] draws, the
    store and the clock. *)
Definition register (uuid wallet : string) (name : option string)
           (metadata : gmap string JSValue) (store : St) (clk : nat -> Z) (n : nat)
  : Result (t St) * St :=
  let config := AgentConfig.mk uuid wallet name metadata Limits.empty [] in
  match saveAgent config store with
  | (Ok _, store') => (Ok (mk uuid store' (Some (ConfigValue.Config config)) clk n), store')
  | (Throw message, store') => (Throw message, store')
  end.

(** The value returned is [this.config], which is a configuration, or what
    the driver has returned for one. *)
Definition loadConfig : M (t St) ConfigValue.t :=
  let* cached := get_config in
  let* current :=
    match cached with
    | Some _ => ret cached
    | None =>
        let* id := get_agentId in
        let* loaded := on_storage (loadAgent id) in
        let* _ := set_config loaded in
        ret loaded
    end in
  match current with
  | Some c => ret c
  | None =>
      let* id := get_agentId in
      throw ("Agent " +:+ id +:+ " not found in storage")
  end.

(** [saveConfig()] where [this.config] is the configuration [config]: its
    two callers have just assigned it. *)
Definition saveConfig (config : AgentConfig.t) : M (t St) unit :=
  on_storage (saveAgent config).

(** Of a value that is no configuration, [config.limits] is [undefined],
    and the assignment to its property throws. *)
Definition setLimit (asset : string) (amount : JSValue) (window : string)
  : M (t St) unit :=
  let* config := loadConfig in
  match Policies.parseTimeWindow window with
  | Throw message => throw message
  | Ok windowSeconds =>
      let amountStr := JS.String amount in
      let limitCfg := LimitConfig.mk asset amountStr (Some windowSeconds) in
      match config with
      | ConfigValue.Config config =>
          let config' :=
            AgentConfig.mk (AgentConfig.agent_id config) (AgentConfig.wallet config)
              (AgentConfig.name config) (AgentConfig.metadata config)
              (Limits.set (AgentConfig.limits config) asset limitCfg)
              (AgentConfig.allow_rules config) in
          let* _ := set_config (Some (ConfigValue.Config config')) in
          saveConfig config'
      | ConfigValue.NotConfig _ => throw (TypeError.set "undefined" asset)
      end
  end.

(** Of a value that is no configuration, [config.allow_rules] is
    [undefined], and the call of its method [push] throws. *)
Definition allowAction (actionType : string) (constraints : option (gmap string JSValue))
  : M (t St) unit :=
  let* config := loadConfig in
  let rule := AllowRule.mk actionType (default ∅ constraints) in
  match config with
  | ConfigValue.Config config =>
      let config' :=
        AgentConfig.mk (AgentConfig.agent_id config) (AgentConfig.wallet config)
          (AgentConfig.name config) (AgentConfig.metadata config)
          (AgentConfig.limits config)
          (AgentConfig.allow_rules config ++ [rule]) in
      let* _ := set_config (Some (ConfigValue.Config config')) in
      saveConfig config'
  | ConfigValue.NotConfig _ => throw (TypeError.read "undefined" "push")
  end.

(** The entry that [logDecision] builds when the clock shows [time]. *)
Definition log_entry (time : Z) (id actionType : string)
           (params : gmap string JSValue) (allowed : bool) (reason : option string)
  : LogEntry.t :=
  LogEntry.mk (Date.strip_millis (Date.toISOString time)) id actionType params
              allowed reason.

Definition logDecision (actionType : string) (params : gmap string JSValue)
           (allowed : bool) (reason : option string) : M (t St) unit :=
  let* time := new_Date in
  let* id := get_agentId in
  let logEntry := log_entry time id actionType params allowed reason in
  on_storage (appendLog logEntry).

Definition exceeds_message (asset : Any) (limitCfg : LimitValue.t) : string :=
  "Exceeds " +:+ JS.String asset +:+ " limit of "
    +:+ JS.String (LimitValue.amount limitCfg)
    +:+ " per " +:+ JS.String (LimitValue.window_seconds limitCfg) +:+ "s".

(** [amount && asset && config.limits[asset]]: the value to check the
    request against, if any. *)
Definition limit_to_check (config : AgentConfig.t) (amount asset : Any)
  : option LimitValue.t :=
  if JS.truthy amount && JS.truthy asset
  then
    let limitCfg := Limits.get (AgentConfig.limits config) (JS.String asset) in
    if LimitValue.truthy limitCfg then Some limitCfg else None
  else None.

(** The body of the [try] block of [authorize].  Of a value that is no
    configuration, [config.allow_rules] is [undefined], and
    [isActionAllowedByRules] throws when it calls [rules.filter].  The block
    that checks the limit leaves the function with [return false] when the
    limit is exceeded; [denied] says whether it did. *)
Definition authorize_body (actionType : string) (params : gmap string JSValue)
  : M (t St) bool :=
  let* config := loadConfig in
  let* now := new_Date in
  match config with
  | ConfigValue.NotConfig _ => throw (TypeError.read "undefined" "filter")
  | ConfigValue.Config config =>
      if negb (Policies.isActionAllowedByRules actionType params
                 (AgentConfig.allow_rules config))
      then
        let* _ := logDecision actionType params false (Some "Action not in allowlist") in
        ret false
      else
        let amount := JS.get params "amount" in
        let asset := JS.or (JS.get params "asset") (JS.get params "token") in
        let* denied :=
          match limit_to_check config amount asset with
          | Some limitCfg =>
              let* id := get_agentId in
              let* within :=
                on_storage
                  (Policies.isWithinLimits asset (JS.String amount) limitCfg id
                                           (Some now)) in
              if negb within then
                let* _ := logDecision actionType params false
                            (Some (exceeds_message asset limitCfg)) in
                ret true
              else ret false
          | None => ret false
          end in
        if denied : bool then ret false
        else
          let* _ := logDecision actionType params true None in
          ret true
  end.

Definition authorize (actionType : string) (params : gmap string JSValue)
  : M (t St) bool :=
  try_catch (authorize_body actionType params)
    (fun errorMessage =>
       let* _ := logDecision actionType params false
                   (Some ("Error during authorization: " +:+ errorMessage)) in
       ret false).

Definition getLogs (limit : option Num.t) : M (t St) (list LogEntry.t) :=
  let* id := get_agentId in
  on_storage (getLogs (Some id) limit).

Definition getAgentId : M (t St) string := get_agentId.

End Methods.

End Agent.

(* ===================================================================== *)
(** ** The specification's wording of the two checks *)
(* ===================================================================== *)

Module Spec.

(** Rule matcher: every constraint key is present in the parameter bag with
    a string-normalized value equal to the constraint's. *)
Definition rule_satisfied (rule : AllowRule.t) (params : gmap string JSValue) : Prop :=
  forall (key : string) (expected : JSValue),
    AllowRule.constraints rule !! key = Some expected ->
    exists actual : JSValue,
      params !! key = Some actual /\ JS.String actual = JS.String expected.

Definition matches (actionType : string) (params : gmap string JSValue)
           (rules : list AllowRule.t) : Prop :=
  exists rule,
    In rule rules /\ AllowRule.action_type rule = actionType /\ rule_satisfied rule params.

(** The seconds in one unit of a window: an hour or a day. *)
Definition unit_seconds (u : ascii) : Z :=
  if Ascii.eqb u "h" || Ascii.eqb u "H" then 3600 else 86400.

Section Accumulator.
Context `{DateParser}.

(** The entry's timestamp reads as a date, as every timestamp of the
    data model does. *)
Definition dated (log : LogEntry.t) : Prop :=
  is_Some (Date_parse (LogEntry.timestamp log)).

(** The entry's timestamp is at or after the start of the window. *)
Definition in_window (windowStart : Date.t) (log : LogEntry.t) : bool :=
  match Date_parse (LogEntry.timestamp log), windowStart with
  | Some time, Some start => start <=? time
  | _, _ => false
  end.

Definition asset_or_token (log : LogEntry.t) : Any :=
  JS.or (JS.get (LogEntry.params log) "asset") (JS.get (LogEntry.params log) "token").

(** The entries the sum ranges over: verdict true, asset-or-token equal to
    the target asset, timestamp in the window. *)
Definition counted (asset : Any) (windowStart : Date.t) (log : LogEntry.t) : bool :=
  LogEntry.allowed log && JS.strict_eq (asset_or_token log) asset
    && in_window windowStart log.

(** The numeric amount of an entry; none when the amount is absent. *)
Definition amount_of (log : LogEntry.t) : option Num.t :=
  let a := JS.get (LogEntry.params log) "amount" in
  if JS.is_nullish a then None else Some (Num.parseFloat (JS.String a)).

Definition window_sum (asset : Any) (windowStart : Date.t)
           (history : list LogEntry.t) : Num.t :=
  fold_left Num.add (omap amount_of (List.filter (counted asset windowStart) history))
            Num.zero.

End Accumulator.

(** The requests that carry nothing to check a limit against: no amount, an
    amount that is the number 0, the empty string or [null], or neither an
    asset nor a token. *)
Definition no_limit_trigger (params : gmap string JSValue) : Prop :=
  params !! "amount" = None
  \/ (exists s, params !! "amount" = Some (JNum (S754_zero s)))
  \/ params !! "amount" = Some (JStr "")
  \/ params !! "amount" = Some JNull
  \/ (params !! "asset" = None /\ params !! "token" = None).

(** The limit check on exact decimal values: the amounts already spent, the
    amount requested and the maximum are read as decimals, summed and
    compared without rounding. *)
Definition exact_sum (amounts : list string) : option Q :=
  fold_left (fun acc a =>
               match acc, Num.exact_decimal a with
               | Some x, Some y => Some (Qplus x y)
               | _, _ => None
               end) amounts (Some (inject_Z 0)).

Definition exact_within (spent : list string) (requested maximum : string) : option bool :=
  match exact_sum spent, Num.exact_decimal requested, Num.exact_decimal maximum with
  | Some s, Some r, Some m => Some (Qle_bool (Qplus s r) m)
  | _, _, _ => None
  end.

End Spec.

(* ===================================================================== *)
(** ** What a verdict depends on *)
(* ===================================================================== *)

Module Replay.

Section Replay.
Context `{DateParser}.

(** What [loadConfig] finds: the value the object holds, or else what
    [loadAgent] returns for the agent's identifier. *)
Definition effective_config (this : Agent.t JsonFileStorage.t)
  : option ConfigValue.t :=
  match Agent.config this with
  | Some c => Some c
  | None =>
      match Agent.storage this with
      | Ok data =>
          match fst (JsonFileStorage.loadAgent (Agent.agentId this) (Ok data)) with
          | Ok found => found
          | Throw _ => None
          end
      | Throw _ => None
      end
  end.

(** The verdict of [authorize] over a readable state file, as a function
    of what [loadConfig] finds, the agent's history, the time and the
    request. *)
Definition verdict (cfg : option ConfigValue.t) (history : list LogEntry.t) (now : Z)
           (actionType : string) (params : gmap string JSValue) : bool :=
  match cfg with
  | None | Some (ConfigValue.NotConfig _) => false
  | Some (ConfigValue.Config config) =>
      if negb (Policies.isActionAllowedByRules actionType params
                 (AgentConfig.allow_rules config))
      then false
      else
        let amount := JS.get params "amount" in
        let asset := JS.or (JS.get params "asset") (JS.get params "token") in
        match Agent.limit_to_check config amount asset with
        | Some (LimitValue.Limit limitCfg) =>
            if negb (JS.strict_eq asset (JStr (LimitConfig.asset limitCfg))) then false
            else
              Num.leb (Num.add (Policies.totalSpent asset limitCfg (Some now) history)
                               (Num.parseFloat (JS.String amount)))
                      (Num.parseFloat (LimitConfig.amount limitCfg))
        | Some (LimitValue.NotLimit _) => false
        | None => true
        end
  end.

(** A call on the object [this] over the document [data] has appended one
    entry to the log and left the rest of the document, the identifier and
    the clock as they were: the entry names the agent and the action type,
    holds the parameters as JSON keeps them and the verdict, gives a reason
    exactly when the verdict is false, and is stamped with the last reading
    of the clock. *)
Definition logged_one (this : Agent.t JsonFileStorage.t) (data : StorageData.t)
           (actionType : string) (params : gmap string JSValue) (verdict : bool)
           (this' : Agent.t JsonFileStorage.t) : Prop :=
  exists entry,
    Agent.agentId this' = Agent.agentId this
    /\ Agent.clock this' = Agent.clock this
    /\ Agent.storage this'
       = Ok (StorageData.mk (StorageData.agents data) (StorageData.logs data ++ [entry]))
    /\ LogEntry.agent_id entry = Agent.agentId this
    /\ LogEntry.action_type entry = actionType
    /\ LogEntry.params entry = JS.json params
    /\ LogEntry.allowed entry = verdict
    /\ (LogEntry.reason entry = None <-> verdict = true)
    /\ LogEntry.timestamp entry
       = Date.strip_millis
           (Date.toISOString (Agent.clock this (Nat.pred (Agent.ticks this')))).

End Replay.

End Replay.

(* ===================================================================== *)
(** ** What the methods keep *)
(* ===================================================================== *)

Module Frame.

Section Frame.
Context {St : Type}.

(** The fields of the object that no call on the store touches. *)
Definition same_fields (this this' : Agent.t St) : Prop :=
  Agent.agentId this' = Agent.agentId this
  /\ Agent.config this' = Agent.config this
  /\ Agent.clock this' = Agent.clock this.

(** The object holds a configuration, and it is the one of its agent. *)
Definition holds_config (this : Agent.t St) : Prop :=
  exists cfg : AgentConfig.t,
    Agent.config this = Some cfg /\ AgentConfig.agent_id cfg = Agent.agentId this.

(** Every limit that is an own property of [config.limits], in the
    configuration that the object holds, is stored under the name of its
    asset, and a limit that is the prototype of [config.limits] is a limit
    on the asset [__proto__]. *)
Definition limits_keyed (this : Agent.t St) : Prop :=
  forall cfg : AgentConfig.t,
    Agent.config this = Some cfg ->
    (forall key limitCfg,
        Limits.own (AgentConfig.limits cfg) !! key = Some limitCfg ->
        LimitConfig.asset limitCfg = key)
    /\ (forall limitCfg,
           Limits.prototype (AgentConfig.limits cfg) = Some limitCfg ->
           LimitConfig.asset limitCfg = "__proto__").

End Frame.

(** The configuration that [setLimit] builds. *)
Definition with_limit (cfg : AgentConfig.t) (limitCfg : LimitConfig.t) : AgentConfig.t :=
  AgentConfig.mk (AgentConfig.agent_id cfg) (AgentConfig.wallet cfg)
    (AgentConfig.name cfg) (AgentConfig.metadata cfg)
    (Limits.set (AgentConfig.limits cfg) (LimitConfig.asset limitCfg) limitCfg)
    (AgentConfig.allow_rules cfg).

(** The configuration that [allowAction] builds. *)
Definition with_rule (cfg : AgentConfig.t) (rule : AllowRule.t) : AgentConfig.t :=
  AgentConfig.mk (AgentConfig.agent_id cfg) (AgentConfig.wallet cfg)
    (AgentConfig.name cfg) (AgentConfig.metadata cfg) (AgentConfig.limits cfg)
    (AgentConfig.allow_rules cfg ++ [rule]).

(** The state file holds what [saveAgent] writes of the configuration that
    the object holds: its JSON form, assigned under the identifier of the
    agent; next to the document [data] nothing else has changed. *)
Definition saved (data : StorageData.t) (this' : Agent.t JsonFileStorage.t) : Prop :=
  exists cfg' : AgentConfig.t,
    Agent.config this' = Some cfg'
    /\ Agent.storage this'
       = Ok (StorageData.mk
               (JS.assign (StorageData.agents data) (Agent.agentId this')
                          (JsonFileStorage.json_config cfg'))
               (StorageData.logs data)).

End Frame.

(* ===================================================================== *)
(** ** The configuration of the usage example *)
(* ===================================================================== *)

Module Example.

(** The examples read timestamps in the format the decision log writes. *)
Definition iso : DateParser := Date.parse_iso.

(** 2025-11-30T12:00:00Z *)
Definition t0 : Z := 1764504000000.

Definition hour : Z := 3600000.

Definition id : string := "7c9e6679-7425-40de-944b-e07fc1f90ae7".

Definition usdc_limit : LimitConfig.t :=
  LimitConfig.mk "USDC" "25" (Some (Num.of_Z 86400)).

Definition swap_rule : AllowRule.t :=
  AllowRule.mk "swap" {[ "protocol" := JStr "UniswapV3" ]}.

Definition config : AgentConfig.t :=
  AgentConfig.mk id "0x123" (Some "payments_bot") ∅
                 (Limits.mk {[ "USDC" := usdc_limit ]} None) [swap_rule].

Definition swap (protocol amount : string) : gmap string JSValue :=
  {[ "protocol" := JStr protocol; "token" := JStr "USDC"; "amount" := JStr amount ]}.

Definition spend (timestamp amount : string) (allowed : bool) : LogEntry.t :=
  LogEntry.mk timestamp id "swap" (swap "UniswapV3" amount) allowed
              (if allowed then None else Some "Action not in allowlist").

(** Spends of 10 at [t0] and of 5 one hour later. *)
Definition history : list LogEntry.t :=
  [spend "2025-11-30T12:00:00Z" "10" true; spend "2025-11-30T13:00:00Z" "5" true].

Definition empty_file : JsonFileStorage.t := Ok (StorageData.mk ∅ []).

Definition file (logs : list LogEntry.t) : JsonFileStorage.t :=
  Ok (StorageData.mk {[ id := config ]} logs).

(** The state file cannot be read. *)
Definition unreadable : JsonFileStorage.t :=
  Throw "ENOENT: no such file or directory, open 'state.json'".

(** An agent whose clock shows [now] from its next reading on. *)
Definition agent (store : JsonFileStorage.t) (cfg : AgentConfig.t) (now : Z)
  : Agent.t JsonFileStorage.t :=
  Agent.mk id store (Some cfg) (fun _ => now) 0.

(** Four calls, at [t0], one hour later, two hours later and a millisecond
    after that: each call reads the clock twice. *)
Definition clock (n : nat) : Z :=
  match n with
  | 0%nat | 1%nat => t0
  | 2%nat | 3%nat => t0 + hour
  | 4%nat | 5%nat => t0 + 2 * hour
  | _ => t0 + 2 * hour + 1
  end.

(** [register], [setLimit('USDC', '25', '24h')], [allowAction('swap',
    { protocol: 'UniswapV3' })], then four requests to swap 10, 5, 10 and
    10 USDC: the verdicts. *)
Definition session `{DateParser} : Result (list bool) :=
  match Agent.register id "0x123" (Some "payments_bot") ∅ empty_file clock 0 with
  | (Ok this, _) =>
      fst ((let* _ := Agent.setLimit "USDC" (JStr "25") "24h" in
            let* _ := Agent.allowAction "swap" (Some {[ "protocol" := JStr "UniswapV3" ]}) in
            let* a := Agent.authorize "swap" (swap "UniswapV3" "10") in
            let* b := Agent.authorize "swap" (swap "UniswapV3" "5") in
            let* c := Agent.authorize "swap" (swap "UniswapV3" "10") in
            let* d := Agent.authorize "swap" (swap "UniswapV3" "10") in
            ret [a; b; c; d]) this)
  | (Throw message, _) => Throw message
  end.

(** A limit of 0.3 USDC a day, and a limit of 25 USDC an hour. *)
Definition small_limit : LimitConfig.t :=
  LimitConfig.mk "USDC" "0.3" (Some (Num.of_Z 86400)).

Definition hourly_limit : LimitConfig.t :=
  LimitConfig.mk "USDC" "25" (Some (Num.of_Z 3600)).

(** A swap that names no amount. *)
Definition swap_no_amount : gmap string JSValue :=
  {[ "protocol" := JStr "UniswapV3"; "token" := JStr "USDC" ]}.

(** Another agent's entry in the same file. *)
Definition foreign_entry : LogEntry.t :=
  LogEntry.mk "2025-11-30T12:30:00Z" "another-agent" "swap" (swap "UniswapV3" "1000") true None.

(** [register], [allowAction('swap')], a swap of "abc" USDC while no limit is
    set, [setLimit('USDC', '25', '24h')], then a swap of 10 USDC: the
    verdicts. *)
Definition session_malformed `{DateParser} : Result (list bool) :=
  match Agent.register id "0x123" (Some "payments_bot") ∅ empty_file clock 0 with
  | (Ok this, _) =>
      fst ((let* _ := Agent.allowAction "swap" None in
            let* a := Agent.authorize "swap" (swap "UniswapV3" "abc") in
            let* _ := Agent.setLimit "USDC" (JStr "25") "24h" in
            let* b := Agent.authorize "swap" (swap "UniswapV3" "10") in
            ret [a; b]) this)
  | (Throw message, _) => Throw message
  end.

(** The agent of the usage example after a call of
    [setLimit('USDC', '5', '24h')] that has thrown, because the state file
    could not be read at the time, over the state file [store] as it is
    found later. *)
Definition after_failed_setLimit `{DateParser} (store : JsonFileStorage.t) (now : Z)
  : Agent.t JsonFileStorage.t :=
  Agent.with_storage
    (snd (Agent.setLimit "USDC" (JStr "5") "24h" (agent unreadable config now)))
    store.

(** The second rule of the usage example. *)
Definition transfer_rule : AllowRule.t :=
  AllowRule.mk "transfer" {[ "token" := JStr "USDC" ]}.

(** What [register] stores for the agent of the usage example, and the
    object it returns. *)
Definition new_config : AgentConfig.t :=
  AgentConfig.mk id "0x742d35Cc6634C0532925a3b844Bc9e7595f0bEb" (Some "payments_bot") ∅
                 Limits.empty [].

Definition registered : Agent.t JsonFileStorage.t :=
  Agent.mk id (Ok (StorageData.mk {[ id := new_config ]} [])) (Some new_config) clock 0.

(** [main] of [examples/js_basic_usage.ts], run on an empty state file with
    the clock of [session]: the five verdicts, and the number of entries
    that [getLogs] then returns. *)
Definition main `{DateParser} : Result (list bool * nat) :=
  match Agent.register id "0x742d35Cc6634C0532925a3b844Bc9e7595f0bEb"
                       (Some "payments_bot") ∅ empty_file clock 0 with
  | (Ok agent, _) =>
      fst ((let* _ := Agent.setLimit "USDC" (JStr "25") "24h" in
            let* _ := Agent.setLimit "ETH" (JStr "0.01") "1h" in
            let* _ := Agent.allowAction "swap" (Some {[ "protocol" := JStr "UniswapV3" ]}) in
            let* _ := Agent.allowAction "transfer" (Some {[ "token" := JStr "USDC" ]}) in
            let* a := Agent.authorize "swap" (swap "UniswapV3" "10") in
            let* b := Agent.authorize "swap" (swap "UniswapV3" "5") in
            let* c := Agent.authorize "swap" (swap "UniswapV3" "15") in
            let* d := Agent.authorize "swap" (swap "SushiSwap" "5") in
            let* e := Agent.authorize "stake"
                        {[ "token" := JStr "ETH"; "amount" := JStr "0.005" ]} in
            let* logs := Agent.getLogs None in
            ret ([a; b; c; d; e], length logs)) agent)
  | (Throw message, _) => Throw message
  end.

End Example.

(* ===================================================================== *)
(** * Properties *)
(* ===================================================================== *)

(** ** Integers as binary64 numbers *)

Lemma iter_pos_nat {A : Type} (f : A -> A) (p : positive) (x : A) :
  SpecFloat.iter_pos f p x = Nat.iter (Pos.to_nat p) f x.
Proof.
  revert x. induction p as [p IH | p IH |]; intros x; cbn [SpecFloat.iter_pos].
  - rewrite !IH, Pos2Nat.inj_xI.
    replace (S (2 * Pos.to_nat p))%nat with (Pos.to_nat p + S (Pos.to_nat p))%nat by lia.
    rewrite Nat.iter_add, Nat.iter_succ_r. reflexivity.
  - rewrite !IH, Pos2Nat.inj_xO.
    replace (2 * Pos.to_nat p)%nat with (Pos.to_nat p + Pos.to_nat p)%nat by lia.
    rewrite Nat.iter_add. reflexivity.
  - reflexivity.
Qed.

Lemma shr_1_even (m : Z) :
  shr_1 (Build_shr_record (2 * m) false false) = Build_shr_record m false false.
Proof. destruct m; reflexivity. Qed.

Lemma iter_shr_exact (n : nat) (q : Z) :
  Nat.iter n shr_1 (Build_shr_record (q * 2 ^ Z.of_nat n) false false)
  = Build_shr_record q false false.
Proof.
  induction n as [| n IH].
  - simpl. rewrite Z.mul_1_r. reflexivity.
  - rewrite Nat.iter_succ_r.
    replace (q * 2 ^ Z.of_nat (S n)) with (2 * (q * 2 ^ Z.of_nat n)).
    + rewrite shr_1_even. exact IH.
    + rewrite Nat2Z.inj_succ, Z.pow_succ_r by lia. ring.
Qed.

Lemma shr_exact (q e n : Z) :
  0 <= n ->
  shr (Build_shr_record (q * 2 ^ n) false false) e n = (Build_shr_record q false false, e + n).
Proof.
  intros Hn. destruct n as [| p | p]; [| | lia].
  - simpl. rewrite Z.mul_1_r, Z.add_0_r. reflexivity.
  - unfold shr. rewrite iter_pos_nat.
    rewrite <- (positive_nat_Z p) at 1. rewrite iter_shr_exact. reflexivity.
Qed.

Lemma digits2_pos_log2 (p : positive) : Zpos (digits2_pos p) = Num.digits (Zpos p).
Proof.
  unfold Num.digits. induction p as [p IH | p IH |]; simpl digits2_pos.
  - rewrite Pos2Z.inj_succ, IH, Pos2Z.inj_xI, Z.log2_succ_double by lia. lia.
  - rewrite Pos2Z.inj_succ, IH, Pos2Z.inj_xO, Z.log2_double by lia. lia.
  - reflexivity.
Qed.

Lemma Zdigits2_log2 (z : Z) : 0 < z -> Zdigits2 z = Num.digits z.
Proof. destruct z; try lia. intros _. apply digits2_pos_log2. Qed.

Lemma digits_shift (z k : Z) : 0 < z -> 0 <= k -> Num.digits (z * 2 ^ k) = Num.digits z + k.
Proof. intros Hz Hk. unfold Num.digits. rewrite Z.log2_mul_pow2 by lia. lia. Qed.

Lemma digits_pos (z : Z) : 0 < z -> 1 <= Num.digits z.
Proof. intros Hz. unfold Num.digits. pose proof (Z.log2_nonneg z). lia. Qed.

Lemma digits_small (z : Z) : 0 < z < 2 ^ 53 -> Num.digits z <= 53.
Proof.
  intros [Hz Hlt]. unfold Num.digits.
  assert (Z.log2 z < 53) by (apply Z.log2_lt_pow2; lia). lia.
Qed.

Lemma fexp_small (d : Z) : 1 <= d -> fexp Num.prec Num.emax d = d - 53.
Proof. intros Hd. unfold fexp, emin, Num.prec, Num.emax. lia. Qed.

(** Rounding a number that fits: the bits shifted out are all zero. *)
Lemma round_aux_exact (sx : bool) (q n e : Z) :
  0 < q -> 0 <= n ->
  fexp Num.prec Num.emax (Num.digits (q * 2 ^ n) + e) = e + n ->
  e + n <= Num.emax - Num.prec ->
  binary_round_aux Num.prec Num.emax sx (q * 2 ^ n) e loc_Exact = S754_finite sx (Z.to_pos q) (e + n).
Proof.
  intros Hq Hn Hfexp Hmax.
  assert (Hm : 0 < q * 2 ^ n) by (apply Z.mul_pos_pos; [lia | apply Z.pow_pos_nonneg; lia]).
  unfold binary_round_aux, shr_fexp.
  rewrite (Zdigits2_log2 _ Hm), Hfexp.
  replace (e + n - e) with n by lia.
  change (shr_record_of_loc (q * 2 ^ n) loc_Exact)
    with (Build_shr_record (q * 2 ^ n) false false).
  rewrite (shr_exact q e n Hn).
  cbn [shr_m loc_of_shr_record round_nearest_even].
  rewrite (Zdigits2_log2 _ Hq).
  replace (Num.digits q + (e + n)) with (Num.digits (q * 2 ^ n) + e)
    by (rewrite digits_shift by lia; lia).
  rewrite Hfexp, Z.sub_diag. cbn [shr shr_record_of_loc shr_m].
  destruct q as [| q | q]; try lia.
  apply Z.leb_le in Hmax. rewrite Hmax. reflexivity.
Qed.

Lemma pos_iter_xO (m d : positive) : Zpos (Pos.iter xO m d) = Zpos m * 2 ^ Zpos d.
Proof.
  induction d as [| d IH] using Pos.peano_ind.
  - simpl Pos.iter. rewrite Pos2Z.inj_xO. change (2 ^ 1) with 2. ring.
  - rewrite Pos.iter_succ, Pos2Z.inj_xO, IH, Pos2Z.inj_succ, Z.pow_succ_r by lia. ring.
Qed.

Lemma binary_round_exact (s : bool) (m : positive) (e z : Z) :
  0 < z < 2 ^ 53 -> e <= 0 -> Zpos m = z * 2 ^ (- e) ->
  binary_round Num.prec Num.emax s m e = Num.canon s z.
Proof.
  intros Hz He Hm.
  pose proof (digits_pos z ltac:(lia)) as Hd1.
  pose proof (digits_small z Hz) as Hd2.
  set (q := z * 2 ^ (53 - Num.digits z)).
  assert (Hq : 0 < q) by (apply Z.mul_pos_pos; [lia | apply Z.pow_pos_nonneg; lia]).
  assert (Hdq : Num.digits q = 53) by (unfold q; rewrite digits_shift by lia; lia).
  assert (Haux : forall n e', 0 <= n -> e' + n = Num.digits z - 53 ->
                   binary_round_aux Num.prec Num.emax s (q * 2 ^ n) e' loc_Exact = Num.canon s z).
  { intros n e' Hn He'. rewrite round_aux_exact; try assumption.
    - unfold Num.canon. fold q. rewrite He'. reflexivity.
    - rewrite digits_shift, Hdq by lia. rewrite fexp_small by lia. lia.
    - unfold Num.emax, Num.prec. lia. }
  unfold binary_round, shl_align.
  rewrite digits2_pos_log2, Hm, digits_shift by lia.
  replace (Num.digits z + - e + e) with (Num.digits z) by lia.
  rewrite fexp_small by lia.
  destruct (Num.digits z - 53 - e) as [| p | p] eqn:Hsh.
  - rewrite Hm. replace (z * 2 ^ (- e)) with (q * 2 ^ 0).
    + apply Haux; lia.
    + unfold q. replace (- e) with (53 - Num.digits z) by lia. rewrite Z.pow_0_r. ring.
  - rewrite Hm. replace (z * 2 ^ (- e)) with (q * 2 ^ Zpos p).
    + apply Haux; lia.
    + unfold q. rewrite <- Z.mul_assoc, <- Z.pow_add_r by lia. f_equal. f_equal. lia.
  - rewrite pos_iter_xO, Hm. replace (z * 2 ^ (- e) * 2 ^ Zpos p) with (q * 2 ^ 0).
    + apply Haux; lia.
    + unfold q. rewrite Z.pow_0_r, Z.mul_1_r, <- Z.mul_assoc, <- Z.pow_add_r by lia.
      f_equal. f_equal. lia.
Qed.


Lemma of_Z_canon (z : Z) :
  Z.abs z < 2 ^ 53 ->
  Num.of_Z z = match z with
           | 0 => S754_zero false
           | Zpos _ => Num.canon false z
           | Zneg _ => Num.canon true (- z)
           end.
Proof.
  intros Hz. unfold Num.of_Z, binary_normalize. destruct z as [| p | p]; [reflexivity | |].
  - apply binary_round_exact; [lia | lia |]. rewrite Z.pow_0_r. lia.
  - apply binary_round_exact; [lia | lia |]. rewrite Z.pow_0_r. lia.
Qed.

Lemma canon_mantissa (z : Z) :
  0 < z < 2 ^ 53 ->
  Zpos (Z.to_pos (z * 2 ^ (53 - Num.digits z))) = z * 2 ^ (53 - Num.digits z).
Proof.
  intros Hz. pose proof (digits_small z Hz). apply Z2Pos.id.
  apply Z.mul_pos_pos; [lia | apply Z.pow_pos_nonneg; lia].
Qed.

(** The product of two integers, when it is below 2^53, is exact. *)
Lemma mul_canon (sa sb : bool) (a b : Z) :
  0 < a -> 0 < b -> a * b < 2 ^ 53 ->
  SFmul Num.prec Num.emax (Num.canon sa a) (Num.canon sb b) = Num.canon (xorb sa sb) (a * b).
Proof.
  intros Ha Hb Hab.
  assert (Ha' : 0 < a < 2 ^ 53) by nia.
  assert (Hb' : 0 < b < 2 ^ 53) by nia.
  assert (Hab' : 0 < a * b < 2 ^ 53) by nia.
  pose proof (digits_small _ Ha'). pose proof (digits_small _ Hb').
  pose proof (digits_small _ Hab'). pose proof (digits_pos a Ha).
  pose proof (digits_pos b Hb). pose proof (digits_pos (a * b) ltac:(lia)).
  assert (Hlog : Num.digits a + Num.digits b - 1 <= Num.digits (a * b)).
  { unfold Num.digits. pose proof (Z.log2_mul_below a b Ha Hb). lia. }
  change (SFmul Num.prec Num.emax (Num.canon sa a) (Num.canon sb b))
    with (binary_round_aux Num.prec Num.emax (xorb sa sb)
            (Zpos (Z.to_pos (a * 2 ^ (53 - Num.digits a)) * Z.to_pos (b * 2 ^ (53 - Num.digits b))))
            (Num.digits a - 53 + (Num.digits b - 53)) loc_Exact).
  rewrite Pos2Z.inj_mul, !canon_mantissa by assumption.
  set (q := a * b * 2 ^ (53 - Num.digits (a * b))).
  set (n := Num.digits (a * b) + 53 - Num.digits a - Num.digits b).
  replace (a * 2 ^ (53 - Num.digits a) * (b * 2 ^ (53 - Num.digits b))) with (q * 2 ^ n).
  2:{ unfold q, n.
      transitivity (a * b * (2 ^ (53 - Num.digits (a * b))
                             * 2 ^ (Num.digits (a * b) + 53 - Num.digits a - Num.digits b))); [ring |].
      transitivity (a * b * (2 ^ (53 - Num.digits a) * 2 ^ (53 - Num.digits b))); [| ring].
      rewrite <- !Z.pow_add_r by lia. f_equal. f_equal. lia. }
  assert (Hq : 0 < q) by (apply Z.mul_pos_pos; [lia | apply Z.pow_pos_nonneg; lia]).
  assert (Hdq : Num.digits q = 53) by (unfold q; rewrite digits_shift by lia; lia).
  rewrite round_aux_exact; try assumption.
  - unfold Num.canon. fold q. f_equal. unfold n. lia.
  - unfold n. lia.
  - rewrite digits_shift, Hdq by (unfold n; lia). rewrite fexp_small by (unfold n; lia).
    unfold n. lia.
  - unfold Num.emax, Num.prec, n. lia.
Qed.

Lemma mul_of_Z (a b : Z) :
  0 <= a < 2 ^ 53 -> 0 <= b < 2 ^ 53 -> a * b < 2 ^ 53 ->
  Num.mul (Num.of_Z a) (Num.of_Z b) = Num.of_Z (a * b).
Proof.
  intros Ha Hb Hab.
  rewrite (of_Z_canon a), (of_Z_canon b), (of_Z_canon (a * b)) by nia.
  destruct a as [| a | a]; [| | lia].
  - destruct b; [reflexivity | reflexivity | lia].
  - destruct b as [| b | b]; [| | lia].
    + rewrite Z.mul_0_r. reflexivity.
    + change (Z.pos a * Z.pos b) with (Z.pos (a * b)).
      rewrite Pos2Z.inj_mul. apply (mul_canon false false); lia.
Qed.

Lemma shl_align_fst (m : positive) (e ez : Z) :
  ez <= e -> Zpos (fst (shl_align m e ez)) = Zpos m * 2 ^ (e - ez).
Proof.
  intros He. unfold shl_align. destruct (ez - e) as [| d | d] eqn:Hd; [| lia |].
  - replace (e - ez) with 0 by lia. simpl fst. rewrite Z.pow_0_r. lia.
  - simpl fst. rewrite pos_iter_xO. f_equal. f_equal. lia.
Qed.

(** The difference of two integers below 2^53, when it is below 2^53, is exact. *)
Lemma sub_canon (sa sb : bool) (a b : Z) :
  0 < a < 2 ^ 53 -> 0 < b < 2 ^ 53 ->
  let v := cond_Zopp sa a - cond_Zopp sb b in
  Z.abs v < 2 ^ 53 ->
  Num.sub (Num.canon sa a) (Num.canon sb b)
  = match v with
    | 0 => S754_zero false
    | Zpos _ => Num.canon false v
    | Zneg _ => Num.canon true (- v)
    end.
Proof.
  intros Ha Hb v Hv. assert (Hvdef : v = cond_Zopp sa a - cond_Zopp sb b) by reflexivity.
  clearbody v.
  pose proof (digits_small _ Ha). pose proof (digits_small _ Hb).
  pose proof (digits_pos a ltac:(lia)). pose proof (digits_pos b ltac:(lia)).
  set (ez := Z.min (Num.digits a - 53) (Num.digits b - 53)).
  change (Num.sub (Num.canon sa a) (Num.canon sb b))
    with (binary_normalize Num.prec Num.emax
            (cond_Zopp sa (Zpos (fst (shl_align (Z.to_pos (a * 2 ^ (53 - Num.digits a)))
                                                (Num.digits a - 53) ez)))
             - cond_Zopp sb (Zpos (fst (shl_align (Z.to_pos (b * 2 ^ (53 - Num.digits b)))
                                                  (Num.digits b - 53) ez))))
            ez false).
  rewrite !shl_align_fst, !canon_mantissa by (try assumption; unfold ez; lia).
  assert (Hez : ez <= 0) by (unfold ez; lia).
  assert (Hal : forall z, 0 < z -> Num.digits z <= 53 -> ez <= Num.digits z - 53 ->
                  z * 2 ^ (53 - Num.digits z) * 2 ^ (Num.digits z - 53 - ez) = z * 2 ^ (- ez)).
  { intros z Hz Hd He. rewrite <- Z.mul_assoc, <- Z.pow_add_r by lia. f_equal. f_equal. lia. }
  rewrite !Hal by (unfold ez; lia).
  replace (cond_Zopp sa (a * 2 ^ (- ez)) - cond_Zopp sb (b * 2 ^ (- ez)))
    with (v * 2 ^ (- ez))
    by (rewrite Hvdef; destruct sa, sb; simpl; ring).
  assert (Hp : 0 < 2 ^ (- ez)) by (apply Z.pow_pos_nonneg; lia).
  clear Hvdef. destruct v as [| p | p].
  - reflexivity.
  - destruct (Z.pos p * 2 ^ (- ez)) as [| m | m] eqn:Hm; try nia.
    apply binary_round_exact; [lia | lia | congruence].
  - destruct (Z.neg p * 2 ^ (- ez)) as [| m | m] eqn:Hm; try nia.
    apply binary_round_exact; [lia | lia |].
    change (- Z.neg p) with (Z.pos p). nia.
Qed.

Lemma sub_of_Z (a b : Z) :
  Z.abs a < 2 ^ 53 -> Z.abs b < 2 ^ 53 -> Z.abs (a - b) < 2 ^ 53 ->
  Num.sub (Num.of_Z a) (Num.of_Z b) = Num.of_Z (a - b).
Proof.
  intros Ha Hb Hab.
  rewrite (of_Z_canon a Ha), (of_Z_canon b Hb), (of_Z_canon (a - b) Hab).
  destruct a as [| a | a]; destruct b as [| b | b]; try reflexivity.
  - apply (sub_canon false false); simpl; lia.
  - apply (sub_canon false true (Z.pos a) (Z.pos b)); simpl; lia.
  - apply (sub_canon true false (Z.pos a) (Z.pos b)); simpl; lia.
  - apply (sub_canon true true (Z.pos a) (Z.pos b)); simpl; lia.
Qed.

Lemma trunc_canon (s : bool) (z : Z) :
  0 < z < 2 ^ 53 -> Num.trunc (Num.canon s z) = Some (if s then - z else z).
Proof.
  intros Hz. pose proof (digits_small _ Hz). pose proof (digits_pos z ltac:(lia)).
  unfold Num.canon, Num.trunc.
  destruct (Num.digits z - 53) as [| p | p] eqn:He; [| lia |].
  - rewrite Z.shiftl_0_r, canon_mantissa by assumption.
    replace (53 - Num.digits z) with 0 by lia. rewrite Z.pow_0_r, Z.mul_1_r. reflexivity.
  - rewrite canon_mantissa by assumption.
    replace (53 - Num.digits z) with (Z.pos p) by lia.
    rewrite Z.shiftr_div_pow2, Z.div_mul by lia. reflexivity.
Qed.

Lemma trunc_of_Z (z : Z) : Z.abs z < 2 ^ 53 -> Num.trunc (Num.of_Z z) = Some z.
Proof.
  intros Hz. rewrite (of_Z_canon z Hz). destruct z as [| p | p]; [reflexivity | |].
  - apply (trunc_canon false). lia.
  - rewrite (trunc_canon true) by lia. reflexivity.
Qed.

(** ** Strings of digits *)

Lemma is_unit_not_digit (u : ascii) :
  Policies.is_unit u = true -> Str.is_digit u = false.
Proof.
  unfold Policies.is_unit. intros Hu.
  repeat (apply orb_prop in Hu; destruct Hu as [Hu | Hu]);
    apply Ascii.eqb_eq in Hu; subst u; reflexivity.
Qed.

Lemma span_digits_app (ds rest : string) (c : ascii) :
  Str.all_digits ds = true -> Str.is_digit c = false ->
  Str.span_digits (ds +:+ String c rest) = (ds, String c rest).
Proof.
  intros Hds Hc. induction ds as [| d ds IH]; simpl.
  - rewrite Hc. reflexivity.
  - simpl in Hds. apply andb_prop in Hds as [Hd Hds].
    rewrite Hd, (IH Hds). reflexivity.
Qed.

Lemma span_digits_all (ds : string) :
  Str.all_digits ds = true -> Str.span_digits ds = (ds, EmptyString).
Proof.
  induction ds as [| d ds IH]; simpl; [reflexivity |].
  intros Hds. apply andb_prop in Hds as [Hd Hds].
  rewrite Hd, (IH Hds). reflexivity.
Qed.

Lemma span_digits_sound (w ds rest : string) :
  Str.span_digits w = (ds, rest) ->
  w = ds +:+ rest /\ Str.all_digits ds = true.
Proof.
  revert ds rest. induction w as [| c w IH]; simpl; intros ds rest Hs.
  - inversion Hs. split; reflexivity.
  - destruct (Str.is_digit c) eqn:Hc.
    + destruct (Str.span_digits w) as [ds' rest'] eqn:Hw.
      inversion Hs; subst. destruct (IH _ _ eq_refl) as [-> Hall].
      split; [reflexivity |]. simpl. rewrite Hc, Hall. reflexivity.
    + inversion Hs; subst. split; reflexivity.
Qed.

Lemma digit_not_space (c : ascii) : Str.is_digit c = true -> Str.is_space c = false.
Proof.
  destruct c as [[] [] [] [] [] [] [] []]; vm_compute; congruence.
Qed.

Lemma digit_not_sign (c : ascii) (r : string) :
  Str.is_digit c = true -> Num.read_sign (String c r) = (false, String c r).
Proof.
  destruct c as [[] [] [] [] [] [] [] []]; vm_compute; congruence.
Qed.

(** [parseInt] of a string of digits is the number nearest to their value. *)
Lemma parseInt_digits (ds : string) :
  ds <> EmptyString -> Str.all_digits ds = true ->
  Num.parseInt ds = Num.of_Z (Str.digits_value ds).
Proof.
  intros Hne Hall. destruct ds as [| c ds]; [congruence |].
  pose proof Hall as Hall'. simpl in Hall'. apply andb_prop in Hall' as [Hc _].
  unfold Num.parseInt. simpl Str.trim_start. rewrite (digit_not_space c Hc).
  rewrite (digit_not_sign c ds Hc), (span_digits_all _ Hall). reflexivity.
Qed.

Lemma lower_unit (u : ascii) :
  Policies.is_unit u = true ->
  (Ascii.eqb (Str.lower u) "h" = true /\ Spec.unit_seconds u = 3600)
  \/ (Ascii.eqb (Str.lower u) "h" = false /\ Ascii.eqb (Str.lower u) "d" = true
      /\ Spec.unit_seconds u = 86400).
Proof.
  unfold Policies.is_unit. intros Hu.
  repeat (apply orb_prop in Hu; destruct Hu as [Hu | Hu]);
    apply Ascii.eqb_eq in Hu; subst u; vm_compute; auto.
Qed.

(** ** Time window parser *)

Lemma match_window_shape (digits : string) (u : ascii) :
  digits <> EmptyString -> Str.all_digits digits = true -> Policies.is_unit u = true ->
  Policies.match_window (digits +:+ String u EmptyString) = Some (digits, u).
Proof.
  intros Hne Hall Hu. unfold Policies.match_window.
  rewrite (span_digits_app _ _ _ Hall (is_unit_not_digit _ Hu)).
  destruct digits; [congruence |]. rewrite Hu. reflexivity.
Qed.

Lemma match_window_sound (window digits : string) (u : ascii) :
  Policies.match_window window = Some (digits, u) ->
  window = digits +:+ String u EmptyString /\ digits <> EmptyString
  /\ Str.all_digits digits = true /\ Policies.is_unit u = true.
Proof.
  unfold Policies.match_window.
  destruct (Str.span_digits window) as [ds rest] eqn:Hs.
  apply span_digits_sound in Hs as [-> Hall].
  destruct ds as [| c ds]; [discriminate |].
  destruct rest as [| v [| ? ?]]; try discriminate.
  destruct (Policies.is_unit v) eqn:Hv; [| discriminate].
  intros [= <- <-]. repeat split; try discriminate; auto.
Qed.

Lemma digits_value_from_nonneg (s : string) (acc : Z) :
  Str.all_digits s = true -> 0 <= acc -> 0 <= Str.digits_value_from acc s.
Proof.
  revert acc. induction s as [| c s IH]; simpl; intros acc Hall Hacc; [exact Hacc |].
  apply andb_prop in Hall as [Hc Hall]. apply IH; [exact Hall |].
  unfold Str.is_digit in Hc. apply andb_prop in Hc as [Hlo _]. apply Z.leb_le in Hlo.
  unfold Str.digit_val. lia.
Qed.

Lemma unit_seconds_bounds (u : ascii) : 0 < Spec.unit_seconds u <= 86400.
Proof. unfold Spec.unit_seconds. destruct (_ || _); lia. Qed.

(** C7, as the regular expression decides it: one or more decimal digits
    followed by one of [h], [H], [d], [D] give the product of the number the
    digits read as and 3600 or 86400, a count of zero included, and the
    product is exact when it is below 2^53; every other token fails with the
    error whose message quotes the token. *)
Theorem parseTimeWindow_shape :
  (forall (digits : string) (u : ascii),
      digits <> EmptyString -> Str.all_digits digits = true -> Policies.is_unit u = true ->
      let n := Str.digits_value digits in
      Policies.parseTimeWindow (digits +:+ String u EmptyString)
      = Ok (Num.mul (Num.of_Z n) (Num.of_Z (Spec.unit_seconds u)))
      /\ (n * Spec.unit_seconds u < 2 ^ 53 ->
          Policies.parseTimeWindow (digits +:+ String u EmptyString)
          = Ok (Num.of_Z (n * Spec.unit_seconds u))
          /\ Num.trunc (Num.of_Z (n * Spec.unit_seconds u)) = Some (n * Spec.unit_seconds u)))
  /\ (forall window : string,
         (forall (digits : string) (u : ascii),
             digits <> EmptyString -> Str.all_digits digits = true ->
             Policies.is_unit u = true -> window <> digits +:+ String u EmptyString) ->
         Policies.parseTimeWindow window
         = Throw ("Invalid time window format: '" +:+ window
                    +:+ "'. Expected format: <number><h|d> (e.g., '24h', '7d')")).
Proof.
  split.
  - intros digits u Hne Hall Hu n.
    assert (Hparse : Policies.parseTimeWindow (digits +:+ String u EmptyString)
                     = Ok (Num.mul (Num.of_Z n) (Num.of_Z (Spec.unit_seconds u)))).
    { unfold Policies.parseTimeWindow.
      rewrite (match_window_shape _ _ Hne Hall Hu), (parseInt_digits _ Hne Hall).
      destruct (lower_unit u Hu) as [[-> ->] | (-> & -> & ->)]; reflexivity. }
    split; [exact Hparse |]. intros Hsmall.
    pose proof (digits_value_from_nonneg digits 0 Hall ltac:(lia)) as Hn.
    fold (Str.digits_value digits) in Hn. fold n in Hn.
    pose proof (unit_seconds_bounds u) as Hunit.
    assert (H53 : 2 ^ 53 = 9007199254740992) by reflexivity.
    split.
    + rewrite Hparse, mul_of_Z by nia. reflexivity.
    + apply trunc_of_Z. nia.
  - intros window Hshape. unfold Policies.parseTimeWindow.
    destruct (Policies.match_window window) as [[digits u] |] eqn:Hm; [| reflexivity].
    apply match_window_sound in Hm as (Hw & Hne & Hall & Hu).
    exfalso. exact (Hshape digits u Hne Hall Hu Hw).
Qed.

Lemma parseTimeWindow_shape_witness :
  Policies.parseTimeWindow "24h" = Ok (Num.of_Z 86400)
  /\ Policies.parseTimeWindow "7D" = Ok (Num.of_Z 604800)
  /\ Policies.parseTimeWindow "5x"
     = Throw "Invalid time window format: '5x'. Expected format: <number><h|d> (e.g., '24h', '7d')".
Proof.
  split; [| split].
  - refine (proj1 (proj2 (proj1 parseTimeWindow_shape "24" "h"%char _ eq_refl eq_refl) _));
      [discriminate | vm_compute; reflexivity].
  - refine (proj1 (proj2 (proj1 parseTimeWindow_shape "7" "D"%char _ eq_refl eq_refl) _));
      [discriminate | vm_compute; reflexivity].
  - apply (proj2 parseTimeWindow_shape "5x").
    intros digits u Hne Hall Hu Heq.
    destruct digits as [| c [| d ds]]; [congruence | | destruct ds; discriminate].
    injection Heq as <- <-. discriminate.
Defined.

(** C7 as stated fails: a count of zero is accepted, and the window is zero
    seconds long. *)
Lemma parseTimeWindow_zero_count :
  Policies.parseTimeWindow "0h" = Ok Num.zero
  /\ forall message, Policies.parseTimeWindow "0h" <> Throw message.
Proof. split; [reflexivity | discriminate]. Qed.

(** ** Rule matcher *)

Lemma ruleMatches_iff (rule : AllowRule.t) (params : gmap string JSValue) :
  Policies.ruleMatches rule params = true
  <-> forall (key : string) (expected : JSValue),
      AllowRule.constraints rule !! key = Some expected ->
      JS.String (JS.get params key) = JS.String expected.
Proof.
  unfold Policies.ruleMatches. case_bool_decide as Hsize.
  - apply map_size_empty_iff in Hsize. rewrite Hsize. split; [| reflexivity].
    intros _ key expected Hk. rewrite lookup_empty in Hk. discriminate.
  - rewrite forallb_forall. split.
    + intros Hall key expected Hk.
      specialize (Hall (key, expected)). simpl in Hall.
      apply String.eqb_eq, Hall, list_elem_of_In, elem_of_map_to_list, Hk.
    + intros Hall [key expected] Hin.
      apply list_elem_of_In, elem_of_map_to_list in Hin.
      apply String.eqb_eq, Hall, Hin.
Qed.

(** C8, as the code decides it: the rule matcher returns true exactly when
    some rule of the request's action type has, for every constraint key, the
    string form of what [params[key]] reads as equal to the string form of
    the constraint's value.  What [params[key]] reads as is the own property
    of the request, or else the member of [Object.prototype] of that name,
    or else [undefined]: a constraint key need not be present in the
    request. *)
Theorem isActionAllowedByRules_iff
        (actionType : string) (params : gmap string JSValue) (rules : list AllowRule.t) :
  Policies.isActionAllowedByRules actionType params rules = true
  <-> exists rule,
      In rule rules /\ AllowRule.action_type rule = actionType
      /\ forall (key : string) (expected : JSValue),
          AllowRule.constraints rule !! key = Some expected ->
          JS.String (JS.get params key) = JS.String expected.
Proof.
  unfold Policies.isActionAllowedByRules. case_bool_decide as Hlen.
  - split; [discriminate |]. intros (rule & Hin & Hty & _). exfalso.
    assert (Hf : In rule (List.filter
                            (fun r => String.eqb (AllowRule.action_type r) actionType) rules)).
    { apply filter_In. split; [exact Hin | apply String.eqb_eq, Hty]. }
    destruct (List.filter _ rules); [contradiction | discriminate].
  - rewrite existsb_exists. split.
    + intros (rule & Hin & Hm). apply filter_In in Hin as [Hin Hty].
      exists rule. repeat split; [exact Hin | apply String.eqb_eq, Hty |].
      apply ruleMatches_iff, Hm.
    + intros (rule & Hin & Hty & Hm). exists rule. split.
      * apply filter_In. split; [exact Hin | apply String.eqb_eq, Hty].
      * apply ruleMatches_iff, Hm.
Qed.

(** A rule with no constraint matches every parameter bag of its action type. *)
Lemma ruleMatches_unconstrained (actionType : string) (params : gmap string JSValue) :
  Policies.ruleMatches (AllowRule.mk actionType ∅) params = true.
Proof. reflexivity. Qed.

(** A value with another string form than the constraint's never matches. *)
Lemma ruleMatches_mismatch (rule : AllowRule.t) (params : gmap string JSValue)
      (key : string) (expected : JSValue) :
  AllowRule.constraints rule !! key = Some expected ->
  JS.String (JS.get params key) <> JS.String expected ->
  Policies.ruleMatches rule params = false.
Proof.
  intros Hk Hne. destruct (Policies.ruleMatches rule params) eqn:Hm; [| reflexivity].
  exfalso. apply Hne. exact (proj1 (ruleMatches_iff rule params) Hm key expected Hk).
Qed.

(** C8 as stated fails: the constraint key [protocol] is absent from the
    request, and the rule matches all the same, because the string form of
    the missing value is the string the constraint asks for. *)
Lemma isActionAllowedByRules_absent_key :
  let rule := AllowRule.mk "swap" {[ "protocol" := JStr "undefined" ]} in
  Policies.isActionAllowedByRules "swap" ∅ [rule] = true
  /\ ~ Spec.matches "swap" ∅ [rule].
Proof.
  split; [reflexivity |].
  intros (rule & Hin & _ & Hsat). destruct Hin as [<- | []].
  destruct (Hsat "protocol" (JStr "undefined")) as (actual & Hk & _).
  - apply lookup_singleton_eq.
  - rewrite lookup_empty in Hk. discriminate.
Qed.

(** The mismatch of the usage example: a rule for [swap] on UniswapV3 denies
    a swap on SushiSwap. *)
Example swap_on_other_protocol :
  Policies.isActionAllowedByRules "swap" (Example.swap "SushiSwap" "5") [Example.swap_rule]
  = false.
Proof. reflexivity. Qed.

Lemma allowed_by_rule (actionType : string) (params : gmap string JSValue)
      (rules : list AllowRule.t) :
  Policies.isActionAllowedByRules actionType params rules = true
  <-> exists rule, In rule rules /\ AllowRule.action_type rule = actionType
                   /\ Policies.ruleMatches rule params = true.
Proof.
  unfold Policies.isActionAllowedByRules. case_bool_decide as Hlen.
  - split; [discriminate |]. intros (rule & Hin & Hty & _). exfalso.
    assert (Hf : In rule (List.filter
                            (fun r => String.eqb (AllowRule.action_type r) actionType) rules)).
    { apply filter_In. split; [exact Hin | apply String.eqb_eq, Hty]. }
    destruct (List.filter _ rules); [contradiction | discriminate].
  - rewrite existsb_exists. split.
    + intros (rule & Hin & Hm). apply filter_In in Hin as [Hin Hty].
      exists rule. repeat split; [exact Hin | apply String.eqb_eq, Hty | exact Hm].
    + intros (rule & Hin & Hty & Hm). exists rule. split; [| exact Hm].
      apply filter_In. split; [exact Hin | apply String.eqb_eq, Hty].
Qed.

(** A rule looks at the parameters that its constraints name and at nothing
    else, and at their string forms only: two parameter bags whose values
    have the same string form under every constraint key get the same
    answer, whatever else they hold and whatever the types of the values. *)
Theorem ruleMatches_params_agree (rule : AllowRule.t) (params params' : gmap string JSValue) :
  (forall key, is_Some (AllowRule.constraints rule !! key) ->
               JS.String (JS.get params key) = JS.String (JS.get params' key)) ->
  Policies.ruleMatches rule params = Policies.ruleMatches rule params'.
Proof.
  intros Hagree.
  destruct (Policies.ruleMatches rule params') eqn:Hm'.
  - apply ruleMatches_iff. intros key expected Hk.
    rewrite (Hagree key (mk_is_Some _ _ Hk)).
    exact (proj1 (ruleMatches_iff rule params') Hm' key expected Hk).
  - destruct (Policies.ruleMatches rule params) eqn:Hm; [| reflexivity].
    rewrite <- Hm'. symmetry. apply ruleMatches_iff. intros key expected Hk.
    rewrite <- (Hagree key (mk_is_Some _ _ Hk)).
    exact (proj1 (ruleMatches_iff rule params) Hm key expected Hk).
Qed.

(** Rules only add permissions: a request that a list of rules allows is
    allowed by every list that holds the same rules and more, in whatever
    order and however often. *)
Theorem isActionAllowedByRules_more_rules (actionType : string)
        (params : gmap string JSValue) (rules rules' : list AllowRule.t) :
  (forall rule, In rule rules -> In rule rules') ->
  Policies.isActionAllowedByRules actionType params rules = true ->
  Policies.isActionAllowedByRules actionType params rules' = true.
Proof.
  intros Hsub Ha. apply allowed_by_rule in Ha as (rule & Hin & Hty & Hm).
  apply allowed_by_rule. exists rule. auto.
Qed.

(** ** Time stamps *)

(** The civil date of a day number and the day number of a civil date are
    inverse to each other; the years 0000 to 9999 are the days from
    -719528 to 2932896. *)
Lemma civil_from_days_inv (z : Z) :
  exists y m d,
    Date.civil_from_days z = (y, m, d)
    /\ 1 <= m <= 12 /\ 1 <= d <= 31
    /\ Date.days_from_civil y m d = z
    /\ (-719528 <= z <= 2932896 -> 0 <= y <= 9999).
Proof.
  unfold Date.civil_from_days, Date.days_from_civil. cbv zeta.
  set (era := (z + 719468) / 146097).
  set (doe := z + 719468 - era * 146097).
  assert (Hdoe : 0 <= doe < 146097) by (subst doe era; Z.div_mod_to_equations; lia).
  set (yoe := (doe - doe / 1460 + doe / 36524 - doe / 146096) / 365).
  set (doy := doe - (365 * yoe + yoe / 4 - yoe / 100)).
  assert (Hy : 0 <= yoe <= 399 /\ 0 <= doy <= 365)
    by (subst yoe doy; Z.div_mod_to_equations; lia).
  set (mp := (5 * doy + 2) / 153).
  assert (Hmp : 0 <= mp <= 11) by (subst mp; Z.div_mod_to_equations; lia).
  set (d := doy - (153 * mp + 2) / 5 + 1).
  assert (Hd : 1 <= d <= 31) by (subst d mp; Z.div_mod_to_equations; lia).
  eexists _, _, _. split; [reflexivity |].
  destruct (Z.ltb_spec mp 10) as [Hlt | Hge].
  - cbv iota. destruct (Z.leb_spec (mp + 3) 2) as [| _]; [lia |].
    destruct (Z.ltb_spec 2 (mp + 3)) as [_ |]; [| lia].
    replace (mp + 3 - 3) with mp by lia.
    replace ((yoe + era * 400) / 400) with era by (Z.div_mod_to_equations; lia).
    split; [lia |]. split; [lia |]. split.
    + replace (yoe + era * 400 - era * 400) with yoe by lia. subst d doy doe. lia.
    + intros Hz. clear Hd. subst d. subst mp doy yoe doe era. Z.div_mod_to_equations; lia.
  - cbv iota. destruct (Z.leb_spec (mp - 9) 2) as [_ |]; [| lia].
    destruct (Z.ltb_spec 2 (mp - 9)) as [| _]; [lia |].
    replace (mp - 9 + 9) with mp by lia.
    replace (yoe + era * 400 + 1 - 1) with (yoe + era * 400) by lia.
    replace ((yoe + era * 400) / 400) with era by (Z.div_mod_to_equations; lia).
    split; [lia |]. split; [lia |]. split.
    + replace (yoe + era * 400 - era * 400) with yoe by lia. subst d doy doe. lia.
    + intros Hz. clear Hd. subst d. subst mp doy yoe doe era. Z.div_mod_to_equations; lia.
Qed.

(** [pad w v] for [v] below [10^w]: [w] digits that read as [v].  The
    check runs over the hundreds and the last two digits of [v]. *)
Lemma pad_fixed (w : nat) (hundreds v : Z) :
  forallb (fun a =>
             forallb (fun b =>
                        let s := Str.pad w (100 * a + b) in
                        Nat.eqb (String.length s) w && Str.all_digits s
                        && (Str.digits_value s =? 100 * a + b))
                     (seqZ 0 100))
          (seqZ 0 hundreds) = true ->
  0 <= v < 100 * hundreds ->
  String.length (Str.pad w v) = w /\ Str.all_digits (Str.pad w v) = true
  /\ Str.digits_value (Str.pad w v) = v.
Proof.
  intros Hall Hv. rewrite forallb_forall in Hall.
  specialize (Hall (v / 100)). rewrite forallb_forall in Hall.
  assert (Ha : In (v / 100) (seqZ 0 hundreds)).
  { apply list_elem_of_In, elem_of_seqZ. Z.div_mod_to_equations. lia. }
  assert (Hb : In (v mod 100) (seqZ 0 100)).
  { apply list_elem_of_In, elem_of_seqZ. Z.div_mod_to_equations. lia. }
  specialize (Hall Ha (v mod 100) Hb). cbv zeta in Hall.
  replace (100 * (v / 100) + v mod 100) with v in Hall by (Z.div_mod_to_equations; lia).
  apply andb_prop in Hall as [Hall Hval]. apply andb_prop in Hall as [Hlen Hdig].
  split; [apply Nat.eqb_eq, Hlen |]. split; [exact Hdig | apply Z.eqb_eq, Hval].
Qed.

Lemma pad2 (v : Z) :
  0 <= v <= 99 ->
  exists a b, Str.pad 2 v = String a (String b EmptyString)
              /\ Str.is_digit a = true /\ Str.is_digit b = true
              /\ Str.digits_value (String a (String b EmptyString)) = v.
Proof.
  intros Hv. destruct (pad_fixed 2 1 v) as (Hlen & Hdig & Hval);
    [vm_compute; reflexivity | lia |].
  destruct (Str.pad 2 v) as [| a [| b [| c s]]]; try discriminate.
  exists a, b. simpl in Hdig. apply andb_prop in Hdig as [Ha Hb].
  rewrite andb_true_r in Hb. auto.
Qed.

Lemma pad3 (v : Z) :
  0 <= v <= 999 ->
  exists a b c, Str.pad 3 v = String a (String b (String c EmptyString))
                /\ Str.is_digit a = true /\ Str.is_digit b = true
                /\ Str.is_digit c = true.
Proof.
  intros Hv. destruct (pad_fixed 3 10 v) as (Hlen & Hdig & Hval);
    [vm_compute; reflexivity | lia |].
  destruct (Str.pad 3 v) as [| a [| b [| c [| e s]]]]; try discriminate.
  exists a, b, c. simpl in Hdig. apply andb_prop in Hdig as [Ha Hdig].
  apply andb_prop in Hdig as [Hb Hc]. rewrite andb_true_r in Hc. auto.
Qed.

Lemma pad4 (v : Z) :
  0 <= v <= 9999 ->
  exists a b c d,
    Str.pad 4 v = String a (String b (String c (String d EmptyString)))
    /\ Str.is_digit a = true /\ Str.is_digit b = true
    /\ Str.is_digit c = true /\ Str.is_digit d = true
    /\ Str.digits_value (String a (String b (String c (String d EmptyString)))) = v.
Proof.
  intros Hv. destruct (pad_fixed 4 100 v) as (Hlen & Hdig & Hval);
    [vm_compute; reflexivity | lia |].
  destruct (Str.pad 4 v) as [| a [| b [| c [| d [| e s]]]]]; try discriminate.
  exists a, b, c, d. simpl in Hdig. apply andb_prop in Hdig as [Ha Hdig].
  apply andb_prop in Hdig as [Hb Hdig]. apply andb_prop in Hdig as [Hc Hd].
  rewrite andb_true_r in Hd. auto 10.
Qed.

Lemma strip_millis_fixed (y1 y2 y3 y4 m1 m2 d1 d2 h1 h2 n1 n2 s1 s2 a b c : ascii) :
  Str.is_digit a = true -> Str.is_digit b = true -> Str.is_digit c = true ->
  Date.strip_millis
    (String y1 (String y2 (String y3 (String y4 (String "-" (String m1 (String m2
    (String "-" (String d1 (String d2 (String "T" (String h1 (String h2
    (String ":" (String n1 (String n2 (String ":" (String s1 (String s2
    (String "." (String a (String b (String c (String "Z" EmptyString))))))))))))))))))))))))
  = String y1 (String y2 (String y3 (String y4 (String "-" (String m1 (String m2
    (String "-" (String d1 (String d2 (String "T" (String h1 (String h2
    (String ":" (String n1 (String n2 (String ":" (String s1 (String s2
    (String "Z" EmptyString))))))))))))))))))).
Proof.
  intros Ha Hb Hc. unfold Date.strip_millis. cbn [String.length Nat.sub Str.drop Str.take String.substring].
  rewrite Ha, Hb, Hc. reflexivity.
Qed.

Lemma parse_iso_fixed (y1 y2 y3 y4 m1 m2 d1 d2 h1 h2 n1 n2 s1 s2 : ascii)
      (y m d h n sec : Z) :
  Str.all_digits
    (String y1 (String y2 (String y3 (String y4 (String m1 (String m2
    (String d1 (String d2 (String h1 (String h2 (String n1 (String n2
    (String s1 (String s2 EmptyString)))))))))))))) = true ->
  Str.digits_value (String y1 (String y2 (String y3 (String y4 EmptyString)))) = y ->
  Str.digits_value (String m1 (String m2 EmptyString)) = m ->
  Str.digits_value (String d1 (String d2 EmptyString)) = d ->
  Str.digits_value (String h1 (String h2 EmptyString)) = h ->
  Str.digits_value (String n1 (String n2 EmptyString)) = n ->
  Str.digits_value (String s1 (String s2 EmptyString)) = sec ->
  h <= 23 -> n <= 59 -> sec <= 59 ->
  Date.civil_from_days (Date.days_from_civil y m d) = (y, m, d) ->
  Date.parse_iso
    (String y1 (String y2 (String y3 (String y4 (String "-" (String m1 (String m2
    (String "-" (String d1 (String d2 (String "T" (String h1 (String h2
    (String ":" (String n1 (String n2 (String ":" (String s1 (String s2
    (String "Z" EmptyString))))))))))))))))))))
  = Some (Date.days_from_civil y m d * 86400000 + h * 3600000 + n * 60000 + sec * 1000).
Proof.
  intros Hdig Hy Hm Hd Hh Hn Hs Hh23 Hn59 Hs59 Hcivil.
  unfold Date.parse_iso. cbv zeta. rewrite Hdig, Hy, Hm, Hd, Hh, Hn, Hs.
  rewrite (proj2 (Z.leb_le h 23) Hh23), (proj2 (Z.leb_le n 59) Hn59),
    (proj2 (Z.leb_le sec 59) Hs59), (bool_decide_eq_true_2 _ Hcivil).
  reflexivity.
Qed.

(** What [toISOString] writes, less the milliseconds, reads back in the ISO
    format as the time it was written at, to the second. *)
Lemma toISOString_parse_iso (tv : Z) :
  -62167219200000 <= tv <= 253402300799999 ->
  Date.parse_iso (Date.strip_millis (Date.toISOString tv)) = Some (tv - tv mod 1000).
Proof.
  intros Htv. unfold Date.toISOString. cbv zeta.
  set (day := tv / 86400000). set (ms := tv mod 86400000).
  assert (Hms : 0 <= ms < 86400000) by (subst ms; Z.div_mod_to_equations; lia).
  destruct (civil_from_days_inv day) as (y & m & d & Hcivil & Hm & Hd & Hdays & Hy).
  specialize (Hy ltac:(subst day; Z.div_mod_to_equations; lia)).
  rewrite Hcivil.
  destruct (Z.leb_spec 0 y) as [_ |]; [| lia].
  destruct (Z.leb_spec y 9999) as [_ |]; [| lia]. cbn [andb].
  destruct (pad4 y Hy) as (y1 & y2 & y3 & y4 & -> & Hy1 & Hy2 & Hy3 & Hy4 & Hyv).
  destruct (pad2 m ltac:(lia)) as (m1 & m2 & -> & Hm1 & Hm2 & Hmv).
  destruct (pad2 d ltac:(lia)) as (d1 & d2 & -> & Hd1 & Hd2 & Hdv).
  destruct (pad2 (ms / 3600000) ltac:(Z.div_mod_to_equations; lia))
    as (h1 & h2 & -> & Hh1 & Hh2 & Hhv).
  destruct (pad2 (ms / 60000 mod 60) ltac:(Z.div_mod_to_equations; lia))
    as (n1 & n2 & -> & Hn1 & Hn2 & Hnv).
  destruct (pad2 (ms / 1000 mod 60) ltac:(Z.div_mod_to_equations; lia))
    as (s1 & s2 & -> & Hs1 & Hs2 & Hsv).
  destruct (pad3 (ms mod 1000) ltac:(Z.div_mod_to_equations; lia))
    as (a & b & c & -> & Ha & Hb & Hc).
  cbv beta iota fix delta [String.append].
  rewrite (strip_millis_fixed _ _ _ _ _ _ _ _ _ _ _ _ _ _ a b c Ha Hb Hc).
  rewrite (parse_iso_fixed _ _ _ _ _ _ _ _ _ _ _ _ _ _ y m d
             (ms / 3600000) (ms / 60000 mod 60) (ms / 1000 mod 60)).
  - rewrite Hdays. f_equal. subst day ms. Z.div_mod_to_equations. lia.
  - cbn [Str.all_digits].
    rewrite Hy1, Hy2, Hy3, Hy4, Hm1, Hm2, Hd1, Hd2, Hh1, Hh2, Hn1, Hn2, Hs1, Hs2.
    reflexivity.
  - exact Hyv.
  - exact Hmv.
  - exact Hdv.
  - exact Hhv.
  - exact Hnv.
  - exact Hsv.
  - Z.div_mod_to_equations. lia.
  - Z.div_mod_to_equations. lia.
  - Z.div_mod_to_equations. lia.
  - rewrite Hdays. exact Hcivil.
Qed.

(** The time stamp that [logDecision] gives an entry reads back, in the ISO
    format, as the time the clock showed, less its milliseconds; this holds
    for every time in the years 0000 to 9999. *)
Theorem log_entry_timestamp (time : Z) (id actionType : string)
        (params : gmap string JSValue) (allowed : bool) (reason : option string) :
  -62167219200000 <= time <= 253402300799999 ->
  Date.parse_iso (LogEntry.timestamp (Agent.log_entry time id actionType params allowed reason))
  = Some (time - time mod 1000)
  /\ time - 999 <= time - time mod 1000 <= time.
Proof.
  intros Htime. split; [exact (toISOString_parse_iso time Htime) |].
  Z.div_mod_to_equations. lia.
Qed.

(** ** Spend accumulator *)

Section AccumulatorFacts.
Context `{DateParser} {St : Type} `{StorageDriver St}.

Lemma strict_eq_strings (a b : string) :
  JS.strict_eq (JStr a) (JStr b) = String.eqb a b.
Proof. reflexivity. Qed.

(** One turn of the loop adds the amount of a counted entry and leaves the
    sum as it is for every other entry. *)
Lemma spend_step_counted (asset : Any) (start : Z) (acc : Num.t) (log : LogEntry.t) :
  Spec.dated log ->
  Policies.spend_step asset (Some start) acc log
  = if Spec.counted asset (Some start) log
    then match Spec.amount_of log with
         | Some a => Num.add acc a
         | None => acc
         end
    else acc.
Proof.
  intros [time Htime].
  unfold Policies.spend_step, Spec.counted, Spec.in_window, Spec.amount_of,
    Spec.asset_or_token.
  rewrite Htime. simpl Date.lt.
  destruct (LogEntry.allowed log); simpl; [| reflexivity].
  destruct (Z.ltb_spec time start) as [Hlt | Hge].
  - rewrite (proj2 (Z.leb_gt start time) Hlt), andb_false_r. reflexivity.
  - rewrite (proj2 (Z.leb_le start time) Hge), andb_true_r.
    destruct (JS.strict_eq _ asset); [| reflexivity].
    destruct (JS.is_nullish _); reflexivity.
Qed.

Lemma spend_loop_window_sum (asset : Any) (start : Z) (logs : list LogEntry.t) :
  Forall Spec.dated logs ->
  forall acc,
    fold_left (Policies.spend_step asset (Some start)) logs acc
    = fold_left Num.add
        (omap Spec.amount_of (List.filter (Spec.counted asset (Some start)) logs)) acc.
Proof.
  induction 1 as [| log logs Hlog _ IH]; intros acc; [reflexivity |].
  simpl. rewrite (spend_step_counted _ _ _ _ Hlog), IH.
  destruct (Spec.counted asset (Some start) log); [| reflexivity].
  simpl. destruct (Spec.amount_of log); reflexivity.
Qed.

(** A denied entry never changes the sum. *)
Lemma spend_step_denied (asset : Any) (windowStart : Date.t) (acc : Num.t)
      (log : LogEntry.t) :
  LogEntry.allowed log = false -> Policies.spend_step asset windowStart acc log = acc.
Proof. intros Hd. unfold Policies.spend_step. rewrite Hd. reflexivity. Qed.

(** An entry older than the window never changes the sum. *)
Lemma spend_step_expired (asset : Any) (start time : Z) (acc : Num.t)
      (log : LogEntry.t) :
  Date_parse (LogEntry.timestamp log) = Some time -> time < start ->
  Policies.spend_step asset (Some start) acc log = acc.
Proof.
  intros Ht Hlt. unfold Policies.spend_step. rewrite Ht. simpl Date.lt.
  rewrite (proj2 (Z.ltb_lt time start) Hlt). destruct (LogEntry.allowed log); reflexivity.
Qed.

(** An entry whose timestamp does not read as a date is outside the data
    model; the comparison with the start of the window is then false, and
    the entry counts in every window. *)
Lemma spend_step_undated (asset : Any) (windowStart : Date.t) (acc : Num.t)
      (log : LogEntry.t) :
  Date_parse (LogEntry.timestamp log) = None ->
  Policies.spend_step asset windowStart acc log
  = if LogEntry.allowed log && JS.strict_eq (Spec.asset_or_token log) asset
    then match Spec.amount_of log with
         | Some a => Num.add acc a
         | None => acc
         end
    else acc.
Proof.
  intros Ht. unfold Policies.spend_step, Spec.asset_or_token, Spec.amount_of.
  rewrite Ht. simpl Date.lt.
  destruct (LogEntry.allowed log); simpl; [| reflexivity].
  destruct (JS.strict_eq _ asset); [| reflexivity].
  destruct (JS.is_nullish _); reflexivity.
Qed.

(** An entry with no amount, or with the amount [null], never changes the sum. *)
Lemma spend_step_absent_amount (asset : Any) (windowStart : Date.t) (acc : Num.t)
      (log : LogEntry.t) :
  JS.is_nullish (JS.get (LogEntry.params log) "amount") = true ->
  Policies.spend_step asset windowStart acc log = acc.
Proof.
  intros Ha. unfold Policies.spend_step. rewrite Ha.
  destruct (LogEntry.allowed log); simpl; [| reflexivity].
  destruct (Date.lt _ _); [reflexivity |]. destruct (JS.strict_eq _ _); reflexivity.
Qed.

(** The start of the window: the time less the length of the window, when
    the length is a whole number of seconds and the start is a date. *)
Lemma windowStart_exact (limitCfg : LimitConfig.t) (now seconds : Z) :
  LimitConfig.window_seconds limitCfg = Some (Num.of_Z seconds) ->
  0 <= seconds -> seconds * 1000 < 2 ^ 53 ->
  Z.abs now <= 8640000000000000 ->
  - 8640000000000000 <= now - seconds * 1000 ->
  Policies.windowStart limitCfg (Some now) = Some (now - seconds * 1000).
Proof.
  intros Hw Hs Hms Hnow Hstart.
  assert (H53 : 2 ^ 53 = 9007199254740992) by reflexivity.
  unfold Policies.windowStart, Date.of_number, Date.getTime.
  rewrite Hw. cbn [default from_option id]. rewrite mul_of_Z, sub_of_Z, trunc_of_Z by lia.
  destruct (Z.leb_spec (Z.abs (now - seconds * 1000)) 8640000000000000); [reflexivity | lia].
Qed.

(** The sum of the loop, for a window that starts at a date. *)
Lemma totalSpent_from_start (asset : Any) (limitCfg : LimitConfig.t)
      (now : Date.t) (start : Z) (history : list LogEntry.t) :
  Policies.windowStart limitCfg now = Some start ->
  Forall Spec.dated history ->
  Policies.totalSpent asset limitCfg now history
  = Spec.window_sum asset (Some start) history.
Proof.
  intros Hstart Hdated. unfold Policies.totalSpent, Spec.window_sum.
  rewrite Hstart. apply spend_loop_window_sum, Hdated.
Qed.

(** Over a history of dated entries, and for a window of a whole number of
    seconds, the sum the loop accumulates is the sum of the amounts of
    exactly the entries whose verdict was true, whose asset-or-token
    parameter is the target asset and whose timestamp is at or after [now]
    less the length of the window. *)
Theorem totalSpent_window_sum (asset : Any) (limitCfg : LimitConfig.t)
        (now seconds : Z) (history : list LogEntry.t) :
  LimitConfig.window_seconds limitCfg = Some (Num.of_Z seconds) ->
  0 <= seconds -> seconds * 1000 < 2 ^ 53 ->
  Z.abs now <= 8640000000000000 ->
  - 8640000000000000 <= now - seconds * 1000 ->
  Forall Spec.dated history ->
  Policies.totalSpent asset limitCfg (Some now) history
  = Spec.window_sum asset (Some (now - seconds * 1000)) history.
Proof.
  intros Hw Hs Hms Hnow Hstart Hdated.
  apply totalSpent_from_start; [| exact Hdated].
  apply windowStart_exact; assumption.
Qed.

(** Over a history of dated entries, for the asset of the limit and a window
    of a whole number of seconds, the check permits the request exactly when
    the sum of the allowed spend in the window plus the amount requested is
    at most the maximum, sum and comparison being those of the binary64
    numbers; the comparison is [<=], so a total equal to the maximum is
    permitted. *)
Theorem isWithinLimits_iff (amount : string) (limitCfg : LimitConfig.t)
        (agentId : string) (now seconds : Z) (history : list LogEntry.t)
        (st st' : St) :
  getLogs (Some agentId) None st = (Ok history, st') ->
  LimitConfig.window_seconds limitCfg = Some (Num.of_Z seconds) ->
  0 <= seconds -> seconds * 1000 < 2 ^ 53 ->
  Z.abs now <= 8640000000000000 ->
  - 8640000000000000 <= now - seconds * 1000 ->
  Forall Spec.dated history ->
  let asset := JStr (LimitConfig.asset limitCfg) in
  let total := Num.add (Spec.window_sum asset (Some (now - seconds * 1000)) history)
                       (Num.parseFloat amount) in
  let maximum := Num.parseFloat (LimitConfig.amount limitCfg) in
  Policies.isWithinLimits asset amount limitCfg agentId (Some now) st
  = (Ok (Num.leb total maximum), st')
  /\ (Num.eqb total maximum = true -> Num.leb total maximum = true).
Proof.
  intros Hlogs Hw Hs Hms Hnow Hstart Hdated asset total maximum. split.
  - subst asset total maximum. unfold Policies.isWithinLimits, bind, ret.
    rewrite strict_eq_strings, String.eqb_refl.
    change (negb true) with false. cbv beta iota. rewrite Hlogs.
    rewrite (totalSpent_from_start _ _ _ (now - seconds * 1000) _
               (windowStart_exact _ _ _ Hw Hs Hms Hnow Hstart) Hdated).
    reflexivity.
  - unfold Num.eqb, Num.leb, SFeqb, SFleb.
    destruct (SFcompare total maximum) as [[] |]; congruence.
Qed.

(** C3 fails on the code: an allowed entry of the target asset whose
    timestamp does not read as a date is at or after no start of a window,
    and is not among the entries the sum is to range over; the loop adds its
    amount all the same, in every window and at every time.  [new Date] does
    not throw on such a string, so the [catch] block that was to skip the
    entry is never entered, and the comparison of the invalid date with the
    start of the window is false. *)
Theorem totalSpent_undated_entry (asset : Any) (limitCfg : LimitConfig.t) (now : Date.t)
        (history : list LogEntry.t) (log : LogEntry.t) (spent : Num.t) :
  LogEntry.allowed log = true ->
  Date_parse (LogEntry.timestamp log) = None ->
  JS.strict_eq (Spec.asset_or_token log) asset = true ->
  Spec.amount_of log = Some spent ->
  Policies.totalSpent asset limitCfg now (history ++ [log])
  = Num.add (Policies.totalSpent asset limitCfg now history) spent
  /\ Spec.counted asset (Policies.windowStart limitCfg now) log = false
  /\ Spec.window_sum asset (Policies.windowStart limitCfg now) (history ++ [log])
     = Spec.window_sum asset (Policies.windowStart limitCfg now) history.
Proof.
  intros Hallowed Hdate Hasset Hamount.
  assert (Hcounted : Spec.counted asset (Policies.windowStart limitCfg now) log = false).
  { unfold Spec.counted, Spec.in_window. rewrite Hdate. apply andb_false_r. }
  split; [| split; [exact Hcounted |]].
  - unfold Policies.totalSpent. rewrite fold_left_app. cbn [fold_left].
    rewrite (spend_step_undated _ _ _ _ Hdate), Hallowed, Hasset, Hamount. reflexivity.
  - unfold Spec.window_sum. rewrite List.filter_app. cbn [List.filter].
    rewrite Hcounted, app_nil_r. reflexivity.
Qed.

(** C2 fails on the code: after one allowed spend of the limit's asset whose
    timestamp does not read as a date, the in-window allowed spend is zero,
    and the check compares the amount of that entry plus the amount
    requested with the maximum, at every time and for every window. *)
Theorem isWithinLimits_undated_entry (amount : string) (limitCfg : LimitConfig.t)
        (agentId : string) (now : Date.t) (log : LogEntry.t) (spent : Num.t)
        (st st' : St) :
  getLogs (Some agentId) None st = (Ok [log], st') ->
  LogEntry.allowed log = true ->
  Date_parse (LogEntry.timestamp log) = None ->
  Spec.asset_or_token log = JStr (LimitConfig.asset limitCfg) ->
  Spec.amount_of log = Some spent ->
  let asset := JStr (LimitConfig.asset limitCfg) in
  let maximum := Num.parseFloat (LimitConfig.amount limitCfg) in
  Policies.isWithinLimits asset amount limitCfg agentId now st
  = (Ok (Num.leb (Num.add (Num.add Num.zero spent) (Num.parseFloat amount)) maximum), st')
  /\ Spec.window_sum asset (Policies.windowStart limitCfg now) [log] = Num.zero.
Proof.
  intros Hlogs Hallowed Hdate Hasset Hamount asset maximum. split.
  - subst asset maximum. unfold Policies.isWithinLimits, bind, ret.
    rewrite strict_eq_strings, String.eqb_refl.
    change (negb true) with false. cbv beta iota. rewrite Hlogs.
    unfold Policies.totalSpent. cbn [fold_left].
    rewrite (spend_step_undated _ _ _ _ Hdate), Hallowed, Hasset, Hamount.
    rewrite strict_eq_strings, String.eqb_refl. reflexivity.
  - unfold Spec.window_sum, Spec.counted, Spec.in_window. cbn [List.filter].
    rewrite Hdate, andb_false_r. reflexivity.
Qed.

(** A limit never applies to another asset. *)
Lemma isWithinLimits_other_asset (asset : Any) (amount : string)
      (limitCfg : LimitConfig.t) (agentId : string) (now : Date.t) (st : St) :
  JS.strict_eq asset (JStr (LimitConfig.asset limitCfg)) = false ->
  Policies.isWithinLimits asset amount limitCfg agentId now st = (Ok false, st).
Proof. intros Hne. unfold Policies.isWithinLimits. rewrite Hne. reflexivity. Qed.

Lemma add_NaN_r (x : Num.t) : Num.add x Num.NaN = Num.NaN.
Proof. destruct x as [s | s | | s m e]; reflexivity. Qed.

Lemma leb_NaN_r (x : Num.t) : Num.leb x Num.NaN = false.
Proof. destruct x as [s | s | | s m e]; reflexivity. Qed.

(** A request whose amount does not read as a number is never within a
    limit, and nothing is within a limit whose maximum does not read as a
    number, whatever the history and whatever the store does. *)
Theorem isWithinLimits_not_a_number (asset : Any) (amount : string)
        (limitCfg : LimitConfig.t) (agentId : string) (now : Date.t) (st : St) :
  Num.parseFloat amount = Num.NaN \/ Num.parseFloat (LimitConfig.amount limitCfg) = Num.NaN ->
  fst (Policies.isWithinLimits asset amount limitCfg agentId now st) <> Ok true.
Proof.
  intros Hnan. unfold Policies.isWithinLimits.
  destruct (negb (JS.strict_eq _ _)); [discriminate |].
  unfold bind, ret. destruct (getLogs _ _ st) as [[logs | m] st']; [| discriminate].
  destruct Hnan as [-> | ->].
  - rewrite add_NaN_r. discriminate.
  - rewrite leb_NaN_r. discriminate.
Qed.

End AccumulatorFacts.

(** ** Decision engine *)

Section EngineFacts.
Context `{DateParser} {St : Type} `{StorageDriver St}.

Lemma loadConfig_cached (this : Agent.t St) (found : ConfigValue.t) :
  Agent.config this = Some found ->
  Agent.loadConfig this = (Ok found, this).
Proof.
  intros Hc. unfold Agent.loadConfig, bind, Agent.get_config, ret.
  rewrite Hc. reflexivity.
Qed.

(** [logDecision] reads the clock, then appends one entry. *)
Lemma logDecision_appends (this : Agent.t St) (actionType : string)
      (params : gmap string JSValue) (allowed : bool) (reason : option string) :
  Agent.logDecision actionType params allowed reason this
  = let '(r, st') :=
      appendLog (Agent.log_entry (Agent.clock this (Agent.ticks this))
                                 (Agent.agentId this) actionType params allowed reason)
                (Agent.storage this) in
    (r, Agent.with_storage (Agent.tick this) st').
Proof. reflexivity. Qed.

Lemma no_rule_denied (actionType : string) (params : gmap string JSValue)
      (rules : list AllowRule.t) :
  (forall rule, In rule rules -> AllowRule.action_type rule <> actionType) ->
  Policies.isActionAllowedByRules actionType params rules = false.
Proof.
  intros Hnone. unfold Policies.isActionAllowedByRules.
  destruct (List.filter _ rules) as [| rule relevant] eqn:Hf; [reflexivity |].
  exfalso. assert (Hin : In rule (rule :: relevant)) by (left; reflexivity).
  rewrite <- Hf in Hin. apply filter_In in Hin as [Hin Hty].
  apply String.eqb_eq in Hty. exact (Hnone rule Hin Hty).
Qed.

(** C6, as the code decides it: when no allow-rule has the action type of
    the request and the store takes the entry, [authorize] returns false,
    and the one entry it appends carries the verdict false and the reason
    "Action not in allowlist". *)
Theorem authorize_unknown_action (this : Agent.t St) (cfg : AgentConfig.t)
        (actionType : string) (params : gmap string JSValue) :
  let entry := Agent.log_entry (Agent.clock this (S (Agent.ticks this)))
                               (Agent.agentId this) actionType params false
                               (Some "Action not in allowlist") in
  Agent.config this = Some cfg ->
  (forall rule, In rule (AgentConfig.allow_rules cfg) ->
                AllowRule.action_type rule <> actionType) ->
  fst (appendLog entry (Agent.storage this)) = Ok tt ->
  Agent.authorize actionType params this
  = (Ok false,
     Agent.with_storage (Agent.tick (Agent.tick this))
                        (snd (appendLog entry (Agent.storage this)))).
Proof.
  intros entry Hcfg Hnone Hlog.
  unfold Agent.authorize, try_catch, Agent.authorize_body.
  unfold bind at 1. rewrite (loadConfig_cached _ _ Hcfg).
  unfold bind at 1. unfold Agent.new_Date at 1.
  rewrite (no_rule_denied _ params _ Hnone). change (negb false) with true. cbv iota.
  unfold bind at 1. rewrite logDecision_appends.
  change (Agent.log_entry _ _ _ _ _ _) with entry.
  change (Agent.storage (Agent.tick this)) with (Agent.storage this).
  destruct (appendLog entry (Agent.storage this)) as [[[] | m] st'];
    simpl in Hlog; [reflexivity | discriminate].
Qed.

Lemma no_limit_trigger_skips (cfg : AgentConfig.t) (params : gmap string JSValue) :
  Spec.no_limit_trigger params ->
  Agent.limit_to_check cfg (JS.get params "amount")
                       (JS.or (JS.get params "asset") (JS.get params "token")) = None.
Proof.
  unfold Spec.no_limit_trigger, Agent.limit_to_check, JS.get.
  intros [Ha | [[s Ha] | [Ha | [Ha | [Ha Ht]]]]]; try (rewrite Ha; reflexivity).
  rewrite Ha, Ht. simpl. rewrite andb_false_r. reflexivity.
Qed.

(** C10, as the code has it: when the allowlist matches and the request has
    no amount, or an amount that is the number 0, the empty string or
    [null], or neither an asset nor a token, and the store accepts the entry
    with verdict true, [authorize] returns true and that call is the only
    one it makes on the store: the history is not read and no limit is
    looked at, whatever limits are configured. *)
Theorem authorize_skips_limit_check (this : Agent.t St) (cfg : AgentConfig.t)
        (actionType : string) (params : gmap string JSValue) :
  let entry := Agent.log_entry (Agent.clock this (S (Agent.ticks this)))
                               (Agent.agentId this) actionType params true None in
  Agent.config this = Some cfg ->
  Policies.isActionAllowedByRules actionType params (AgentConfig.allow_rules cfg) = true ->
  Spec.no_limit_trigger params ->
  fst (appendLog entry (Agent.storage this)) = Ok tt ->
  Agent.authorize actionType params this
  = (Ok true,
     Agent.with_storage (Agent.tick (Agent.tick this))
                        (snd (appendLog entry (Agent.storage this)))).
Proof.
  intros entry Hcfg Hallowed Hskip Hlog.
  unfold Agent.authorize, try_catch, Agent.authorize_body.
  unfold bind at 1. rewrite (loadConfig_cached _ _ Hcfg).
  unfold bind at 1. unfold Agent.new_Date at 1.
  rewrite Hallowed. change (negb true) with false. cbv iota.
  rewrite (no_limit_trigger_skips cfg params Hskip).
  unfold bind at 1. unfold ret at 1. cbv iota.
  unfold bind at 1. rewrite logDecision_appends.
  change (Agent.log_entry _ _ _ _ _ _) with entry.
  change (Agent.storage (Agent.tick this)) with (Agent.storage this).
  destruct (appendLog entry (Agent.storage this)) as [[[] | m] st'];
    simpl in Hlog; [reflexivity | discriminate].
Qed.

(** Whatever goes wrong inside the [try] block, the verdict is never true. *)
Lemma authorize_fault_not_allowed (this : Agent.t St) (actionType : string)
      (params : gmap string JSValue) (message : string) :
  fst (Agent.authorize_body actionType params this) = Throw message ->
  fst (Agent.authorize actionType params this) <> Ok true.
Proof.
  intros Hbody. unfold Agent.authorize, try_catch.
  destruct (Agent.authorize_body actionType params this) as [[b | m] this'];
    simpl in Hbody; [discriminate |].
  unfold bind, ret. destruct (Agent.logDecision _ _ _ _ this') as [[u | m'] this''];
    simpl; discriminate.
Qed.

(** *** What the methods do to an object that holds its configuration *)

Lemma same_fields_trans (a b c : Agent.t St) :
  Frame.same_fields a b -> Frame.same_fields b c -> Frame.same_fields a c.
Proof. intros (? & ? & ?) (? & ? & ?). repeat split; congruence. Qed.

Lemma logDecision_fields (this : Agent.t St) (actionType : string)
      (params : gmap string JSValue) (allowed : bool) (reason : option string) :
  Frame.same_fields this (snd (Agent.logDecision actionType params allowed reason this)).
Proof.
  rewrite logDecision_appends. destruct (appendLog _ _) as [r st'].
  repeat split.
Qed.

(** The paths through the [try] block. *)
Lemma authorize_body_cases (this : Agent.t St) (cfg : AgentConfig.t)
      (actionType : string) (params : gmap string JSValue) :
  Agent.config this = Some cfg ->
  let amount := JS.get params "amount" in
  let asset := JS.or (JS.get params "asset") (JS.get params "token") in
  let this1 := Agent.tick this in
  let log allowed reason (verdict : bool) that :=
    match Agent.logDecision actionType params allowed reason that with
    | (Ok _, this') => (Ok verdict, this')
    | (Throw message, this') => (Throw message, this')
    end in
  Agent.authorize_body actionType params this
  = if Policies.isActionAllowedByRules actionType params (AgentConfig.allow_rules cfg)
    then match Agent.limit_to_check cfg amount asset with
         | Some limitCfg =>
             match Policies.isWithinLimits asset (JS.String amount) limitCfg
                     (Agent.agentId this) (Some (Agent.clock this (Agent.ticks this)))
                     (Agent.storage this) with
             | (Ok true, st') => log true None true (Agent.with_storage this1 st')
             | (Ok false, st') =>
                 log false (Some (Agent.exceeds_message asset limitCfg)) false
                     (Agent.with_storage this1 st')
             | (Throw message, st') => (Throw message, Agent.with_storage this1 st')
             end
         | None => log true None true this1
         end
    else log false (Some "Action not in allowlist") false this1.
Proof.
  intros Hcfg amount asset this1 log. unfold Agent.authorize_body.
  unfold bind at 1. rewrite (loadConfig_cached _ _ Hcfg).
  unfold bind at 1. unfold Agent.new_Date at 1. fold this1.
  destruct (Policies.isActionAllowedByRules _ _ _).
  - change (negb true) with false. cbv iota. fold amount asset.
    destruct (Agent.limit_to_check cfg amount asset) as [limitCfg |].
    + unfold bind at 1. unfold bind at 1. unfold bind at 1.
      unfold Agent.get_agentId at 1. unfold Agent.on_storage.
      change (Agent.agentId this1) with (Agent.agentId this).
      change (Agent.storage this1) with (Agent.storage this).
      destruct (Policies.isWithinLimits _ _ _ _ _ _) as [[[|] | message] st'].
      * change (negb true) with false. cbv iota. unfold ret at 1. unfold bind at 1.
        unfold log. destruct (Agent.logDecision _ _ _ _ _) as [[[] | m] t]; reflexivity.
      * change (negb false) with true. cbv iota. unfold bind at 1.
        unfold log. destruct (Agent.logDecision _ _ _ _ _) as [[[] | m] t]; reflexivity.
      * reflexivity.
    + unfold bind at 1. unfold ret at 1. unfold bind at 1.
      unfold log. destruct (Agent.logDecision _ _ _ _ _) as [[[] | m] t]; reflexivity.
  - change (negb false) with true. cbv iota. unfold bind at 1.
    unfold log. destruct (Agent.logDecision _ _ _ _ _) as [[[] | m] t]; reflexivity.
Qed.

Lemma authorize_body_fields (this : Agent.t St) (cfg : AgentConfig.t)
      (actionType : string) (params : gmap string JSValue) :
  Agent.config this = Some cfg ->
  Frame.same_fields this (snd (Agent.authorize_body actionType params this)).
Proof.
  intros Hcfg. rewrite (authorize_body_cases this cfg actionType params Hcfg). cbv zeta.
  assert (Hlog : forall allowed reason (verdict : bool) that,
             Frame.same_fields this that ->
             Frame.same_fields this
               (snd (match Agent.logDecision actionType params allowed reason that with
                     | (Ok _, this') => (Ok verdict, this')
                     | (Throw message, this') => (Throw message, this')
                     end))).
  { intros allowed reason verdict that Hthat.
    pose proof (logDecision_fields that actionType params allowed reason) as Hl.
    destruct (Agent.logDecision _ _ _ _ that) as [[[] | m] t];
      exact (same_fields_trans _ _ _ Hthat Hl). }
  destruct (Policies.isActionAllowedByRules _ _ _).
  - destruct (Agent.limit_to_check _ _ _) as [limitCfg |].
    + destruct (Policies.isWithinLimits _ _ _ _ _ _) as [[[|] | message] st'].
      * apply Hlog. repeat split.
      * apply Hlog. repeat split.
      * repeat split.
    + apply Hlog. repeat split.
  - apply Hlog. repeat split.
Qed.

(** [authorize] leaves the identifier, the configuration and the clock of
    the object as they were. *)
Lemma authorize_fields (this : Agent.t St) (cfg : AgentConfig.t)
      (actionType : string) (params : gmap string JSValue) :
  Agent.config this = Some cfg ->
  Frame.same_fields this (snd (Agent.authorize actionType params this)).
Proof.
  intros Hcfg. pose proof (authorize_body_fields this cfg actionType params Hcfg) as Hb.
  unfold Agent.authorize, try_catch.
  destruct (Agent.authorize_body actionType params this) as [[b | m] this']; [exact Hb |].
  unfold bind.
  pose proof (logDecision_fields this' actionType params false
                (Some ("Error during authorization: " +:+ m))) as Hl.
  destruct (Agent.logDecision _ _ _ _ this') as [[[] | m'] t];
    exact (same_fields_trans _ _ _ Hb Hl).
Qed.

(** The [catch] block never returns true. *)
Lemma catch_not_true (actionType : string) (params : gmap string JSValue)
      (message : string) (that : Agent.t St) :
  fst ((let* _ := Agent.logDecision actionType params false
                    (Some ("Error during authorization: " +:+ message)) in
        ret false) that) <> Ok true.
Proof.
  unfold bind, ret. destruct (Agent.logDecision _ _ _ _ that) as [[[] | m] t]; discriminate.
Qed.

(** A path that logs a denial never ends in the verdict true. *)
Lemma denial_not_true (actionType : string) (params : gmap string JSValue)
      (reason : option string) (that : Agent.t St) :
  fst (let '(r, this') :=
         match Agent.logDecision actionType params false reason that with
         | (Ok _, this') => (Ok false, this')
         | (Throw message, this') => (Throw message, this')
         end in
       match r with
       | Ok a => (Ok a, this')
       | Throw message =>
           (let* _ := Agent.logDecision actionType params false
                        (Some ("Error during authorization: " +:+ message)) in
            ret false) this'
       end) <> Ok true.
Proof.
  destruct (Agent.logDecision _ _ _ reason that) as [[[] | m] t];
    [discriminate | apply catch_not_true].
Qed.

(** Whatever the store does, [authorize] returns true only for a request
    that the rule matcher admits under the configuration the object holds
    and that, when it names an amount and an asset with a limit, the limit
    check has found within that limit, at the time and over the store of the
    call. *)
Theorem authorize_true_sound (this : Agent.t St) (cfg : AgentConfig.t)
        (actionType : string) (params : gmap string JSValue) :
  Agent.config this = Some cfg ->
  fst (Agent.authorize actionType params this) = Ok true ->
  Policies.isActionAllowedByRules actionType params (AgentConfig.allow_rules cfg) = true
  /\ forall limitCfg,
      Agent.limit_to_check cfg (JS.get params "amount")
        (JS.or (JS.get params "asset") (JS.get params "token")) = Some limitCfg ->
      fst (Policies.isWithinLimits
             (JS.or (JS.get params "asset") (JS.get params "token"))
             (JS.String (JS.get params "amount")) limitCfg (Agent.agentId this)
             (Some (Agent.clock this (Agent.ticks this))) (Agent.storage this))
      = Ok true.
Proof.
  intros Hcfg. unfold Agent.authorize, try_catch.
  rewrite (authorize_body_cases this cfg actionType params Hcfg). cbv zeta.
  destruct (Policies.isActionAllowedByRules _ _ _).
  - intros Hres. split; [reflexivity |]. intros limitCfg Hlimit. rewrite Hlimit in Hres.
    destruct (Policies.isWithinLimits _ _ _ _ _ _) as [[[|] | message] st'].
    + reflexivity.
    + exfalso. exact (denial_not_true _ _ _ _ Hres).
    + exfalso. exact (catch_not_true _ _ _ _ Hres).
  - intros Hres. exfalso. exact (denial_not_true _ _ _ _ Hres).
Qed.

Lemma saveConfig_storage (this : Agent.t St) (cfg : AgentConfig.t) :
  Agent.saveConfig cfg this
  = (fst (saveAgent cfg (Agent.storage this)),
     Agent.with_storage this (snd (saveAgent cfg (Agent.storage this)))).
Proof.
  unfold Agent.saveConfig, Agent.on_storage.
  destruct (saveAgent cfg (Agent.storage this)). reflexivity.
Qed.

Lemma setLimit_cases (this : Agent.t St) (cfg : AgentConfig.t) (asset : string)
      (amount : JSValue) (window : string) :
  Agent.config this = Some cfg ->
  Agent.setLimit asset amount window this
  = match Policies.parseTimeWindow window with
    | Throw message => (Throw message, this)
    | Ok seconds =>
        let cfg' :=
          Frame.with_limit cfg (LimitConfig.mk asset (JS.String amount) (Some seconds)) in
        (fst (saveAgent cfg' (Agent.storage this)),
         Agent.mk (Agent.agentId this) (snd (saveAgent cfg' (Agent.storage this)))
                  (Some cfg') (Agent.clock this) (Agent.ticks this))
    end.
Proof.
  intros Hcfg. unfold Agent.setLimit. unfold bind at 1.
  rewrite (loadConfig_cached _ _ Hcfg).
  destruct (Policies.parseTimeWindow window) as [seconds | message]; [| reflexivity].
  cbv zeta. unfold bind at 1. unfold Agent.set_config at 1.
  rewrite saveConfig_storage. reflexivity.
Qed.

Lemma allowAction_cases (this : Agent.t St) (cfg : AgentConfig.t) (actionType : string)
      (constraints : option (gmap string JSValue)) :
  Agent.config this = Some cfg ->
  Agent.allowAction actionType constraints this
  = let cfg' := Frame.with_rule cfg (AllowRule.mk actionType (default ∅ constraints)) in
    (fst (saveAgent cfg' (Agent.storage this)),
     Agent.mk (Agent.agentId this) (snd (saveAgent cfg' (Agent.storage this)))
              (Some cfg') (Agent.clock this) (Agent.ticks this)).
Proof.
  intros Hcfg. unfold Agent.allowAction. unfold bind at 1.
  rewrite (loadConfig_cached _ _ Hcfg).
  cbv zeta. unfold bind at 1. unfold Agent.set_config at 1.
  rewrite saveConfig_storage. reflexivity.
Qed.

Lemma register_cases (uuid wallet : string) (name : option string)
      (metadata : gmap string JSValue) (store : St) (clk : nat -> Z) (n : nat)
      (this : Agent.t St) :
  fst (Agent.register uuid wallet name metadata store clk n) = Ok this ->
  Agent.agentId this = uuid
  /\ Agent.config this
     = Some (AgentConfig.mk uuid wallet name metadata Limits.empty []).
Proof.
  unfold Agent.register. destruct (saveAgent _ store) as [[[] | m] store']; [| discriminate].
  intros [= <-]. split; reflexivity.
Qed.

(** The object that [register] returns holds the configuration of its
    agent, and every method keeps it so, whether the call returns or throws
    and whatever the store does: [loadConfig] never has to read the store,
    and the configuration is always saved under the identifier of the
    object.  [authorize] and [getLogs] leave the identifier, the
    configuration and the clock of the object as they were. *)
Theorem agent_holds_config :
  (forall uuid wallet name metadata (store : St) clk n this,
      fst (Agent.register uuid wallet name metadata store clk n) = Ok this ->
      Frame.holds_config this)
  /\ (forall this : Agent.t St,
         Frame.holds_config this ->
         (forall asset amount window,
             Frame.holds_config (snd (Agent.setLimit asset amount window this)))
         /\ (forall actionType constraints,
                Frame.holds_config (snd (Agent.allowAction actionType constraints this)))
         /\ (forall actionType params,
                Frame.holds_config (snd (Agent.authorize actionType params this))
                /\ Frame.same_fields this (snd (Agent.authorize actionType params this)))
         /\ (forall limit,
                Frame.holds_config (snd (Agent.getLogs limit this))
                /\ Frame.same_fields this (snd (Agent.getLogs limit this)))).
Proof.
  split.
  - intros uuid wallet name metadata store clk n this Hreg.
    apply register_cases in Hreg as [Hid Hcfg].
    eexists. split; [exact Hcfg | symmetry; exact Hid].
  - intros this (cfg & Hcfg & Hid). split; [| split; [| split]].
    + intros asset amount window. rewrite (setLimit_cases _ _ _ _ _ Hcfg).
      destruct (Policies.parseTimeWindow window) as [seconds | message].
      * eexists. split; [reflexivity | exact Hid].
      * exists cfg. split; assumption.
    + intros actionType constraints. rewrite (allowAction_cases _ _ _ _ Hcfg).
      eexists. split; [reflexivity | exact Hid].
    + intros actionType params.
      pose proof (authorize_fields this cfg actionType params Hcfg) as Hsame.
      split; [| exact Hsame]. destruct Hsame as (Hi & Hc & _).
      exists cfg. split; congruence.
    + intros limit. unfold Agent.getLogs, bind, Agent.get_agentId, Agent.on_storage.
      destruct (getLogs _ _ _) as [[logs | m] st'];
        (split; [exists cfg; split; assumption | repeat split]).
Qed.

(** The limits of an object are keyed by their assets: every limit that
    is an own property of [config.limits] is stored under the name of its
    asset, and a limit that has become the prototype of [config.limits] is
    a limit on the asset [__proto__].  This holds for the object that
    [register] returns, and [setLimit], [allowAction] and [authorize] keep
    it so, whatever the store does.  So whenever what [authorize] finds
    under the name of a request's asset is a limit, it is a limit on that
    asset, and the first test of [isWithinLimits] lets the request through
    to the sum. *)
Theorem limits_keyed_by_asset :
  (forall uuid wallet name metadata (store : St) clk n this,
      fst (Agent.register uuid wallet name metadata store clk n) = Ok this ->
      Frame.limits_keyed this)
  /\ (forall this : Agent.t St,
         Frame.holds_config this ->
         Frame.limits_keyed this ->
         (forall asset amount window,
             Frame.limits_keyed (snd (Agent.setLimit asset amount window this)))
         /\ (forall actionType constraints,
                Frame.limits_keyed (snd (Agent.allowAction actionType constraints this)))
         /\ (forall actionType params,
                Frame.limits_keyed (snd (Agent.authorize actionType params this)))
         /\ (forall (cfg : AgentConfig.t) amount asset (limitCfg : LimitConfig.t),
                Agent.config this = Some cfg ->
                Agent.limit_to_check cfg amount (JStr asset) = Some limitCfg ->
                JS.strict_eq (JStr asset) (JStr (LimitConfig.asset limitCfg)) = true)).
Proof.
  split.
  - intros uuid wallet name metadata store clk n this Hreg.
    apply register_cases in Hreg as [_ Hcfg].
    intros cfg Hc. rewrite Hcfg in Hc. injection Hc as <-. split.
    + intros key limitCfg Hl. simpl in Hl. rewrite lookup_empty in Hl. discriminate.
    + intros limitCfg Hl. discriminate.
  - intros this (cfg & Hcfg & _) Hkeyed.
    destruct (Hkeyed cfg Hcfg) as [Hown Hproto]. split; [| split; [| split]].
    + intros asset amount window. rewrite (setLimit_cases _ _ _ _ _ Hcfg).
      destruct (Policies.parseTimeWindow window) as [seconds | message];
        [| exact Hkeyed].
      intros cfg' [= <-]. cbn [snd Agent.config Frame.with_limit AgentConfig.limits
                                 LimitConfig.asset].
      unfold Limits.set.
      destruct (JS.sets_prototype (Limits.own (AgentConfig.limits cfg)) asset) eqn:Hsets;
        cbn [Limits.own Limits.prototype]; split.
      * exact Hown.
      * intros limitCfg [= <-]. unfold JS.sets_prototype in Hsets.
        apply andb_prop in Hsets as [Hkey _]. apply String.eqb_eq, Hkey.
      * intros key limitCfg Hl.
        apply lookup_insert_Some in Hl as [[<- <-] | [_ Hl]]; [reflexivity |].
        exact (Hown key limitCfg Hl).
      * exact Hproto.
    + intros actionType constraints. rewrite (allowAction_cases _ _ _ _ Hcfg).
      intros cfg' [= <-]. split; [exact Hown | exact Hproto].
    + intros actionType params.
      destruct (authorize_fields this cfg actionType params Hcfg) as (_ & Hc & _).
      intros cfg' Hc'. rewrite Hc in Hc'. exact (Hkeyed cfg' Hc').
    + intros cfg' amount asset limitCfg Hc' Hl.
      rewrite Hcfg in Hc'. injection Hc' as <-.
      unfold Agent.limit_to_check in Hl.
      destruct (JS.truthy amount && JS.truthy (JStr asset)); [| discriminate].
      cbv zeta in Hl. destruct (LimitValue.truthy _); [| discriminate].
      injection Hl as Hl. change (JS.String (JStr asset)) with asset in Hl.
      rewrite strict_eq_strings. apply String.eqb_eq. symmetry.
      unfold Limits.get in Hl.
      destruct (Limits.own (AgentConfig.limits cfg) !! asset) as [l |] eqn:Hl'.
      * injection Hl as ->. exact (Hown asset limitCfg Hl').
      * destruct (Limits.prototype (AgentConfig.limits cfg)) as [p |] eqn:Hp;
          [| discriminate].
        destruct (String.eqb asset "asset"); [discriminate |].
        destruct (String.eqb asset "amount"); [discriminate |].
        destruct (String.eqb asset "window_seconds"); [discriminate |].
        destruct (String.eqb_spec asset "__proto__") as [-> |]; [| discriminate].
        injection Hl as ->. exact (Hproto limitCfg eq_refl).
Qed.

(** Default deny: the agent that [register] returns has no rule, and
    [authorize] returns true for no request, whatever the store does. *)
Theorem register_default_deny (uuid wallet : string) (name : option string)
        (metadata : gmap string JSValue) (store : St) (clk : nat -> Z) (n : nat)
        (this : Agent.t St) (actionType : string) (params : gmap string JSValue) :
  fst (Agent.register uuid wallet name metadata store clk n) = Ok this ->
  fst (Agent.authorize actionType params this) <> Ok true.
Proof.
  intros Hreg. apply register_cases in Hreg as [_ Hcfg].
  unfold Agent.authorize, try_catch.
  rewrite (authorize_body_cases this _ actionType params Hcfg). cbv zeta.
  apply denial_not_true.
Qed.

(** The two ways [setLimit] fails.  A window that does not parse makes it
    throw the parser's error before anything is changed: the object and the
    store are as they were.  When the store fails to save, the error leaves
    [setLimit], and the object holds the new limit all the same. *)
Theorem setLimit_failure (this : Agent.t St) (cfg : AgentConfig.t) (asset : string)
        (amount : JSValue) (window : string) :
  Agent.config this = Some cfg ->
  (forall message,
      Policies.parseTimeWindow window = Throw message ->
      Agent.setLimit asset amount window this = (Throw message, this))
  /\ (forall seconds message,
         Policies.parseTimeWindow window = Ok seconds ->
         let cfg' :=
           Frame.with_limit cfg (LimitConfig.mk asset (JS.String amount) (Some seconds)) in
         fst (saveAgent cfg' (Agent.storage this)) = Throw message ->
         fst (Agent.setLimit asset amount window this) = Throw message
         /\ Agent.config (snd (Agent.setLimit asset amount window this)) = Some cfg').
Proof.
  intros Hcfg. rewrite (setLimit_cases _ _ _ _ _ Hcfg). split.
  - intros message ->. reflexivity.
  - intros seconds message -> cfg' Hsave. split; [exact Hsave | reflexivity].
Qed.

(** [allowAction] adds a permission and takes none away: afterwards the
    object holds a configuration with the same limits, under which every
    request that was admitted before is still admitted, and every request of
    the new action type is admitted whose parameters have, under each key of
    the new constraints, the string form that the constraint asks for; with
    no constraints, every request of that type. *)
Theorem allowAction_admits (this : Agent.t St) (cfg : AgentConfig.t) (actionType : string)
        (constraints : option (gmap string JSValue)) :
  Agent.config this = Some cfg ->
  exists cfg' : AgentConfig.t,
    Agent.config (snd (Agent.allowAction actionType constraints this)) = Some cfg'
    /\ AgentConfig.limits cfg' = AgentConfig.limits cfg
    /\ (forall otherType params,
           Policies.isActionAllowedByRules otherType params (AgentConfig.allow_rules cfg)
           = true ->
           Policies.isActionAllowedByRules otherType params (AgentConfig.allow_rules cfg')
           = true)
    /\ (forall params,
           (forall (key : string) (expected : JSValue),
               default ∅ constraints !! key = Some expected ->
               JS.String (JS.get params key) = JS.String expected) ->
           Policies.isActionAllowedByRules actionType params (AgentConfig.allow_rules cfg')
           = true).
Proof.
  intros Hcfg. rewrite (allowAction_cases _ _ _ _ Hcfg). eexists.
  split; [reflexivity |]. split; [reflexivity |]. split.
  - intros otherType params Ha. apply allowed_by_rule in Ha as (rule & Hin & Hty & Hm).
    apply allowed_by_rule. exists rule. repeat split; [| exact Hty | exact Hm].
    simpl. apply in_or_app. left. exact Hin.
  - intros params Hsat. apply allowed_by_rule.
    exists (AllowRule.mk actionType (default ∅ constraints)).
    repeat split.
    + simpl. apply in_or_app. right. left. reflexivity.
    + apply ruleMatches_iff. exact Hsat.
Qed.

End EngineFacts.

(** ** The engine over the JSON state file *)

Section JsonFileFacts.
Context `{DateParser}.

Lemma logDecision_unreadable (this : Agent.t JsonFileStorage.t) (message : string)
      (actionType : string) (params : gmap string JSValue) (allowed : bool)
      (reason : option string) :
  Agent.storage this = Throw message ->
  Agent.logDecision actionType params allowed reason this
  = (Throw message, Agent.tick this).
Proof.
  intros Hst. rewrite logDecision_appends. destruct this as [id st cfg clk n].
  simpl in Hst. subst st. reflexivity.
Qed.

Lemma logDecision_readable (this : Agent.t JsonFileStorage.t) (data : StorageData.t)
      (actionType : string) (params : gmap string JSValue) (allowed : bool)
      (reason : option string) :
  Agent.storage this = Ok data ->
  (reason = None <-> allowed = true) ->
  exists this',
    Agent.logDecision actionType params allowed reason this = (Ok tt, this')
    /\ Replay.logged_one this data actionType params allowed this'.
Proof.
  intros Hst Hreason. rewrite logDecision_appends. destruct this as [id st cfg clk n].
  simpl in Hst. subst st. eexists. split; [reflexivity |].
  eexists. repeat split; try reflexivity; apply Hreason.
Qed.

(** Reading the history leaves the file as it is. *)
Lemma getLogs_file (file : JsonFileStorage.t) (agentId : option string)
      (limit : option Num.t) :
  snd (getLogs agentId limit file) = file.
Proof. destruct file; reflexivity. Qed.

Lemma getLogs_unreadable (message : string) (agentId : option string)
      (limit : option Num.t) :
  getLogs agentId limit (Throw message : JsonFileStorage.t) = (Throw message, Throw message).
Proof. reflexivity. Qed.

(** What [loadConfig] does when the object holds no configuration. *)
Lemma loadConfig_uncached (this : Agent.t JsonFileStorage.t) :
  Agent.config this = None ->
  Agent.loadConfig this
  = match Agent.storage this with
    | Ok data =>
        match Replay.effective_config this with
        | Some found => (Ok found, Agent.with_config this (Some found))
        | None =>
            (Throw ("Agent " +:+ Agent.agentId this +:+ " not found in storage"),
             Agent.with_config this None)
        end
    | Throw message => (Throw message, this)
    end.
Proof.
  destruct this as [id st cfg clk n]. simpl. intros ->.
  destruct st as [data | message]; [| reflexivity].
  unfold Replay.effective_config, Agent.loadConfig, bind, Agent.get_config,
    Agent.get_agentId, Agent.on_storage, Agent.set_config, ret, throw. simpl.
  unfold JsonFileStorage.loadAgent, bind, JsonFileStorage.readData, ret. simpl.
  destruct (StorageData.agents data !! id); [reflexivity |].
  destruct (ObjectPrototype.of_key id); reflexivity.
Qed.

(** A value found in the file acts as one the object holds. *)
Lemma authorize_body_config (this : Agent.t JsonFileStorage.t) (data : StorageData.t)
      (found : ConfigValue.t) (actionType : string) (params : gmap string JSValue) :
  Agent.storage this = Ok data ->
  Replay.effective_config this = Some found ->
  Agent.authorize_body actionType params this
  = Agent.authorize_body actionType params (Agent.with_config this (Some found)).
Proof.
  intros Hst Heff. unfold Agent.authorize_body.
  unfold bind at 1. symmetry. unfold bind at 1.
  rewrite (loadConfig_cached (Agent.with_config this (Some found)) found eq_refl).
  destruct (Agent.config this) as [c |] eqn:Hc.
  - unfold Replay.effective_config in Heff. rewrite Hc in Heff.
    injection Heff as ->. rewrite (loadConfig_cached this found Hc).
    destruct this as [id st c clk n]. simpl in Hc. subst c. reflexivity.
  - rewrite (loadConfig_uncached this Hc). rewrite Hst, Heff. reflexivity.
Qed.

(** A value that passes for a limit and is none is truthy, and so is the
    asset under whose name it was found. *)
Lemma limit_to_check_not_limit (cfg : AgentConfig.t) (amount asset v : Any) :
  Agent.limit_to_check cfg amount asset = Some (LimitValue.NotLimit v) ->
  JS.truthy asset = true /\ JS.truthy v = true.
Proof.
  unfold Agent.limit_to_check.
  destruct (JS.truthy amount); [| discriminate].
  destruct (JS.truthy asset); [| discriminate]. cbn [andb].
  destruct (LimitValue.truthy _) eqn:Ht; [| discriminate].
  intros [= Hv]. rewrite Hv in Ht. split; [reflexivity | exact Ht].
Qed.

Lemma truthy_not_nullish (v : Any) : JS.truthy v = true -> JS.is_nullish v = false.
Proof. destruct v as [[| | b | n | s] | m]; simpl; congruence. Qed.

Lemma truthy_not_undefined (v : Any) :
  JS.truthy v = true -> JS.strict_eq v JUndefined = false.
Proof. destruct v as [[| | b | n | s] | m]; simpl; congruence. Qed.

(** The last step of every path through the [try] block over a readable
    file: the entry is logged, and the verdict returned. *)
Ltac log_and_return data :=
  unfold bind at 1;
  lazymatch goal with
  | |- context [Agent.logDecision ?a ?p ?allowed ?reason ?this] =>
      let this' := fresh "this'" in
      let Hlog := fresh "Hlog" in
      let Hreason := fresh "Hreason" in
      assert (Hreason : reason = None <-> allowed = true) by (split; congruence);
      destruct (logDecision_readable this data a p allowed reason eq_refl Hreason)
        as (this' & -> & Hlog);
      exists this'; split; [reflexivity | split; [reflexivity | exact Hlog]]
  end.

(** The [try] block over a readable file, for an object that holds its
    configuration: it returns the verdict, and has logged one entry. *)
Lemma authorize_body_readable (id : string) (data : StorageData.t) (cfg : AgentConfig.t)
      (clk : nat -> Z) (n : nat) (actionType : string) (params : gmap string JSValue) :
  let this := Agent.mk id (Ok data : JsonFileStorage.t) (Some cfg) clk n in
  exists history this',
    fst (getLogs (Some id) None (Ok data : JsonFileStorage.t)) = Ok history
    /\ Agent.authorize_body actionType params this
       = (Ok (Replay.verdict (Some cfg) history (clk n) actionType params), this')
    /\ Replay.logged_one this data actionType params
         (Replay.verdict (Some cfg) history (clk n) actionType params) this'.
Proof.
  intros this.
  destruct (getLogs (Some id) None (Ok data : JsonFileStorage.t)) as [r st'] eqn:Hg.
  assert (Hr : exists history, r = Ok history /\ st' = Ok data).
  { revert Hg. unfold getLogs. simpl.
    unfold JsonFileStorage.getLogs, bind, JsonFileStorage.readData, ret.
    intros [= <- <-]. eexists. split; reflexivity. }
  destruct Hr as (history & -> & ->). exists history.
  unfold Agent.authorize_body, Replay.verdict.
  unfold bind at 1. rewrite (loadConfig_cached this cfg eq_refl).
  unfold bind at 1. unfold Agent.new_Date at 1.
  destruct (negb (Policies.isActionAllowedByRules _ _ _)); [log_and_return data |].
  cbv zeta. destruct (Agent.limit_to_check cfg _ _) as [[limitCfg | v] |] eqn:Hl.
  - unfold bind at 1. unfold bind at 1. unfold bind at 1.
    unfold Agent.get_agentId at 1. unfold bind at 1.
    unfold Agent.on_storage, Policies.isWithinLimits.
    change (Agent.clock this (Agent.ticks this)) with (clk n).
    change (Agent.agentId (Agent.tick this)) with id.
    change (Agent.storage (Agent.tick this)) with (Ok data : JsonFileStorage.t).
    destruct (negb (JS.strict_eq _ _)).
    + unfold ret at 1. change (negb false) with true. cbv iota. log_and_return data.
    + unfold bind at 1. rewrite Hg. unfold ret at 1.
      destruct (Num.leb _ _).
      * change (negb true) with false. cbv iota. unfold ret at 1. cbv iota.
        log_and_return data.
      * change (negb false) with true. cbv iota. log_and_return data.
  - destruct (limit_to_check_not_limit _ _ _ _ Hl) as [Ha Hv].
    unfold bind at 1. unfold bind at 1. unfold bind at 1.
    unfold Agent.get_agentId at 1. unfold bind at 1.
    unfold Agent.on_storage, Policies.isWithinLimits.
    rewrite (truthy_not_nullish _ Hv), (truthy_not_undefined _ Ha).
    change (negb false) with true. cbv iota.
    change (Agent.storage (Agent.tick this)) with (Ok data : JsonFileStorage.t).
    unfold ret at 1. change (negb false) with true. cbv iota. log_and_return data.
  - unfold bind at 1. unfold ret at 1. cbv iota. log_and_return data.
Qed.

(** Over a readable state file [authorize] returns, and its verdict is a
    function of the configuration, the agent's history, the time and the
    request. *)
Lemma authorize_readable (this : Agent.t JsonFileStorage.t) (data : StorageData.t)
      (actionType : string) (params : gmap string JSValue) :
  Agent.storage this = Ok data ->
  exists history,
    fst (getLogs (Some (Agent.agentId this)) None (Agent.storage this)) = Ok history
    /\ fst (Agent.authorize actionType params this)
       = Ok (Replay.verdict (Replay.effective_config this) history
                            (Agent.clock this (Agent.ticks this)) actionType params)
    /\ Replay.logged_one this data actionType params
         (Replay.verdict (Replay.effective_config this) history
                         (Agent.clock this (Agent.ticks this)) actionType params)
         (snd (Agent.authorize actionType params this)).
Proof.
  intros Hst. unfold Agent.authorize, try_catch.
  destruct (Replay.effective_config this) as [[cfg | m] |] eqn:Heff.
  - rewrite (authorize_body_config this data cfg actionType params Hst Heff).
    destruct this as [id st c clk n]. simpl in Hst. subst st.
    destruct (authorize_body_readable id data cfg clk n actionType params)
      as (history & this' & Hh & Hb & Hlog).
    exists history. split; [exact Hh |].
    change (Agent.with_config (Agent.mk id (Ok data) c clk n) (Some (ConfigValue.Config cfg)))
      with (Agent.mk id (Ok data : JsonFileStorage.t) (Some (ConfigValue.Config cfg)) clk n).
    cbv zeta in Hb. rewrite Hb. split; [reflexivity | exact Hlog].
  - rewrite (authorize_body_config this data (ConfigValue.NotConfig m) actionType params
               Hst Heff).
    destruct (getLogs (Some (Agent.agentId this)) None (Agent.storage this))
      as [r st'] eqn:Hg.
    assert (Hr : exists history, r = Ok history).
    { revert Hg. rewrite Hst. unfold getLogs. simpl.
      unfold JsonFileStorage.getLogs, bind, JsonFileStorage.readData, ret.
      intros [= <- <-]. eexists. reflexivity. }
    destruct Hr as [history ->]. exists history. split; [reflexivity |].
    assert (Hbody : Agent.authorize_body actionType params
                      (Agent.with_config this (Some (ConfigValue.NotConfig m)))
                    = (Throw (TypeError.read "undefined" "filter"),
                       Agent.tick (Agent.with_config this
                                     (Some (ConfigValue.NotConfig m))))).
    { unfold Agent.authorize_body. unfold bind at 1.
      rewrite (loadConfig_cached (Agent.with_config this (Some (ConfigValue.NotConfig m)))
                 (ConfigValue.NotConfig m) eq_refl).
      reflexivity. }
    rewrite Hbody. unfold bind.
    destruct (logDecision_readable
                (Agent.tick (Agent.with_config this (Some (ConfigValue.NotConfig m))))
                data actionType params false
                (Some ("Error during authorization: "
                         +:+ TypeError.read "undefined" "filter"))
                Hst ltac:(split; congruence)) as (this' & -> & Hlog).
    split; [reflexivity | exact Hlog].
  - unfold Replay.effective_config in Heff.
    destruct (Agent.config this) as [c |] eqn:Hc; [discriminate |].
    rewrite Hst in Heff.
    destruct (getLogs (Some (Agent.agentId this)) None (Agent.storage this))
      as [r st'] eqn:Hg.
    assert (Hr : exists history, r = Ok history).
    { revert Hg. rewrite Hst. unfold getLogs. simpl.
      unfold JsonFileStorage.getLogs, bind, JsonFileStorage.readData, ret.
      intros [= <- <-]. eexists. reflexivity. }
    destruct Hr as [history ->]. exists history. split; [reflexivity |].
    assert (Hbody : Agent.authorize_body actionType params this
                    = (Throw ("Agent " +:+ Agent.agentId this +:+ " not found in storage"),
                       Agent.with_config this None)).
    { unfold Agent.authorize_body. unfold bind at 1.
      rewrite (loadConfig_uncached this Hc), Hst.
      unfold Replay.effective_config. rewrite Hc, Hst, Heff. reflexivity. }
    rewrite Hbody. unfold bind.
    destruct (logDecision_readable (Agent.with_config this None) data actionType params
                false
                (Some ("Error during authorization: "
                         +:+ ("Agent " +:+ Agent.agentId this +:+ " not found in storage")))
                Hst ltac:(split; congruence)) as (this' & -> & Hlog).
    split; [reflexivity | exact Hlog].
Qed.

(** C9, as the code has it: two runs of [authorize] over readable state
    files return the same verdict when they get the same request and agree
    on the time, on the agent's history and on the configuration that
    [loadConfig] finds, which is the one the object holds and only for an
    object that holds none the one the file holds for the agent; whatever
    else the two files hold and whatever the clocks show afterwards. *)
Theorem authorize_replay (a b : Agent.t JsonFileStorage.t) (dataA dataB : StorageData.t)
        (actionType : string) (params : gmap string JSValue) :
  Agent.storage a = Ok dataA ->
  Agent.storage b = Ok dataB ->
  Replay.effective_config a = Replay.effective_config b ->
  fst (getLogs (Some (Agent.agentId a)) None (Agent.storage a))
  = fst (getLogs (Some (Agent.agentId b)) None (Agent.storage b)) ->
  Agent.clock a (Agent.ticks a) = Agent.clock b (Agent.ticks b) ->
  exists verdict : bool,
    fst (Agent.authorize actionType params a) = Ok verdict
    /\ fst (Agent.authorize actionType params b) = Ok verdict.
Proof.
  intros Ha Hb Hcfg Hhist Hclock.
  destruct (authorize_readable a dataA actionType params Ha) as (ha & Hga & Hva & _).
  destruct (authorize_readable b dataB actionType params Hb) as (hb & Hgb & Hvb & _).
  rewrite Hga, Hgb in Hhist. injection Hhist as ->.
  rewrite Hcfg, Hclock in Hva. eexists. split; [exact Hva | exact Hvb].
Qed.

(** Every path through the [try] block over an unreadable file ends in an
    error, and leaves the file unreadable. *)
Lemma authorize_body_unreadable (this : Agent.t JsonFileStorage.t) (message : string)
      (actionType : string) (params : gmap string JSValue) :
  Agent.storage this = Throw message ->
  exists thrown this',
    Agent.authorize_body actionType params this = (Throw thrown, this')
    /\ Agent.storage this' = Throw message.
Proof.
  intros Hst. unfold Agent.authorize_body.
  destruct (Agent.config this) as [[cfg | m] |] eqn:Hc.
  - unfold bind at 1. rewrite (loadConfig_cached this cfg Hc).
    unfold bind at 1. unfold Agent.new_Date at 1.
    assert (Hst' : Agent.storage (Agent.tick this) = Throw message) by exact Hst.
    destruct (negb (Policies.isActionAllowedByRules _ _ _)).
    + unfold bind at 1. rewrite (logDecision_unreadable _ message _ _ _ _ Hst').
      do 2 eexists. split; [reflexivity | exact Hst].
    + cbv zeta. destruct (Agent.limit_to_check cfg _ _) as [[limitCfg | v] |] eqn:Hl.
      * unfold bind at 1. unfold bind at 1. unfold bind at 1.
        unfold Agent.get_agentId at 1. unfold bind at 1.
        unfold Agent.on_storage, Policies.isWithinLimits. rewrite Hst'.
        destruct (negb (JS.strict_eq _ _)).
        -- unfold ret at 1. change (negb false) with true. cbv iota. unfold bind at 1.
           rewrite (logDecision_unreadable
                      (Agent.with_storage (Agent.tick this) (Throw message)) message
                      _ _ _ _ eq_refl).
           do 2 eexists. split; reflexivity.
        -- unfold bind at 1. rewrite getLogs_unreadable.
           do 2 eexists. split; reflexivity.
      * destruct (limit_to_check_not_limit _ _ _ _ Hl) as [Ha Hv].
        unfold bind at 1. unfold bind at 1. unfold bind at 1.
        unfold Agent.get_agentId at 1. unfold bind at 1.
        unfold Agent.on_storage, Policies.isWithinLimits. rewrite Hst'.
        rewrite (truthy_not_nullish _ Hv), (truthy_not_undefined _ Ha).
        change (negb false) with true. cbv iota.
        unfold ret at 1. change (negb false) with true. cbv iota. unfold bind at 1.
        rewrite (logDecision_unreadable
                   (Agent.with_storage (Agent.tick this) (Throw message)) message
                   _ _ _ _ eq_refl).
        do 2 eexists. split; reflexivity.
      * unfold bind at 1. unfold ret at 1. cbv iota. unfold bind at 1.
        rewrite (logDecision_unreadable _ message _ _ _ _ Hst').
        do 2 eexists. split; [reflexivity | exact Hst].
  - unfold bind at 1. rewrite (loadConfig_cached this (ConfigValue.NotConfig m) Hc).
    do 2 eexists. split; [reflexivity | exact Hst].
  - unfold bind at 1. rewrite (loadConfig_uncached this Hc), Hst.
    do 2 eexists. split; [reflexivity | exact Hst].
Qed.

(** C1 fails on the code: when the state file cannot be read, the entry
    that records the denial cannot be appended either, and the error leaves
    [authorize] in place of the verdict false. *)
Theorem authorize_unreadable_throws (this : Agent.t JsonFileStorage.t)
        (message : string) (actionType : string) (params : gmap string JSValue) :
  Agent.storage this = Throw message ->
  fst (Agent.authorize actionType params this) = Throw message.
Proof.
  intros Hst. unfold Agent.authorize, try_catch.
  destruct (authorize_body_unreadable this message actionType params Hst)
    as (thrown & this' & -> & Hst').
  unfold bind. rewrite (logDecision_unreadable _ _ _ _ _ _ Hst'). reflexivity.
Qed.

(** Every call of [authorize] over a readable state file returns a verdict
    and appends exactly one entry, leaving the stored configurations and the
    earlier entries as they were; the entry names the agent and the action
    type, holds the parameters as JSON keeps them and the verdict returned,
    gives a reason exactly when the verdict is false, and is stamped with the
    last reading of the clock. *)
Theorem authorize_appends_one (this : Agent.t JsonFileStorage.t) (data : StorageData.t)
        (actionType : string) (params : gmap string JSValue) :
  Agent.storage this = Ok data ->
  exists verdict : bool,
    fst (Agent.authorize actionType params this) = Ok verdict
    /\ Replay.logged_one this data actionType params verdict
         (snd (Agent.authorize actionType params this)).
Proof.
  intros Hst.
  destruct (authorize_readable this data actionType params Hst) as (history & _ & Hv & Hlog).
  eexists. split; [exact Hv | exact Hlog].
Qed.

(** What [setLimit] does to an object that holds its configuration, over a
    readable state file. *)
Lemma setLimit_cached (this : Agent.t JsonFileStorage.t) (cfg : AgentConfig.t)
      (data : StorageData.t) (asset : string) (amount : JSValue) (window : string)
      (seconds : Num.t) :
  Agent.config this = Some cfg ->
  Agent.storage this = Ok data ->
  Policies.parseTimeWindow window = Ok seconds ->
  exists this',
    Agent.setLimit asset amount window this = (Ok tt, this')
    /\ (exists data', Agent.storage this' = Ok data')
    /\ Agent.config this'
       = Some (Frame.with_limit cfg
                 (LimitConfig.mk asset (JS.String amount) (Some seconds))).
Proof.
  intros Hc Hst Hw. destruct this as [id st c clk n]. simpl in Hc, Hst. subst c st.
  unfold Agent.setLimit. unfold bind at 1.
  rewrite (loadConfig_cached (Agent.mk id (Ok data) (Some (ConfigValue.Config cfg)) clk n)
             cfg eq_refl), Hw.
  eexists. split; [reflexivity |]. split; [eexists |]; reflexivity.
Qed.

(** An assignment to [limits[key]] replaces what an earlier assignment to
    the same key has set, and is what the key then reads as. *)
Lemma Limits_set_set (limits : Limits.t) (key : string) (l1 l2 : LimitConfig.t) :
  Limits.set (Limits.set limits key l1) key l2 = Limits.set limits key l2.
Proof.
  unfold Limits.set, JS.sets_prototype.
  destruct (String.eqb key "__proto__") eqn:Hk; cbn [andb].
  - destruct (Limits.own limits !! key) as [l |] eqn:Ho;
      cbn [andb Limits.own Limits.prototype].
    + rewrite lookup_insert_eq. f_equal. apply insert_insert_eq.
    + rewrite Ho. reflexivity.
  - cbn [andb Limits.own Limits.prototype]. f_equal. apply insert_insert_eq.
Qed.

Lemma Limits_get_set (limits : Limits.t) (key : string) (l : LimitConfig.t) :
  Limits.get (Limits.set limits key l) key = LimitValue.Limit l.
Proof.
  unfold Limits.set, JS.sets_prototype.
  destruct (String.eqb key "__proto__") eqn:Hk; cbn [andb].
  - destruct (Limits.own limits !! key) as [l0 |] eqn:Ho.
    + unfold Limits.get. cbn [Limits.own]. rewrite lookup_insert_eq. reflexivity.
    + unfold Limits.get. cbn [Limits.own Limits.prototype]. rewrite Ho.
      apply String.eqb_eq in Hk. subst key. reflexivity.
  - unfold Limits.get. cbn [Limits.own]. rewrite lookup_insert_eq. reflexivity.
Qed.

Lemma Limits_own_set_ne (limits : Limits.t) (key other : string) (l : LimitConfig.t) :
  other <> key ->
  Limits.own (Limits.set limits key l) !! other = Limits.own limits !! other.
Proof.
  intros Hne. unfold Limits.set.
  destruct (JS.sets_prototype _ _); cbn [Limits.own]; [reflexivity |].
  apply lookup_insert_ne. congruence.
Qed.

(** Setting a limit twice for one asset leaves the limit set last: the
    configuration is the one that the second call alone would have left,
    [config.limits[asset]] is the second limit, and the limits held under
    other names are as they were.  This holds for the asset [__proto__] too,
    whose limit becomes the prototype of [config.limits]. *)
Theorem setLimit_latest_wins (this : Agent.t JsonFileStorage.t) (cfg : AgentConfig.t)
        (data : StorageData.t) (asset : string) (amount1 amount2 : JSValue)
        (window1 window2 : string) (seconds1 seconds2 : Num.t) :
  Agent.config this = Some cfg ->
  Agent.storage this = Ok data ->
  Policies.parseTimeWindow window1 = Ok seconds1 ->
  Policies.parseTimeWindow window2 = Ok seconds2 ->
  let limit2 := LimitConfig.mk asset (JS.String amount2) (Some seconds2) in
  exists this1 this2,
    Agent.setLimit asset amount1 window1 this = (Ok tt, this1)
    /\ Agent.setLimit asset amount2 window2 this1 = (Ok tt, this2)
    /\ exists cfg2 : AgentConfig.t,
        Agent.config this2 = Some cfg2
        /\ AgentConfig.limits cfg2 = Limits.set (AgentConfig.limits cfg) asset limit2
        /\ Limits.get (AgentConfig.limits cfg2) asset = LimitValue.Limit limit2
        /\ forall other,
            other <> asset ->
            Limits.own (AgentConfig.limits cfg2) !! other
            = Limits.own (AgentConfig.limits cfg) !! other.
Proof.
  intros Hc Hst Hw1 Hw2 limit2.
  destruct (setLimit_cached this cfg data asset amount1 window1 seconds1 Hc Hst Hw1)
    as (this1 & H1 & [data1 Hst1] & Hc1).
  destruct (setLimit_cached this1 _ data1 asset amount2 window2 seconds2 Hc1 Hst1 Hw2)
    as (this2 & H2 & _ & Hc2).
  exists this1, this2. split; [exact H1 |]. split; [exact H2 |].
  eexists. split; [exact Hc2 |].
  assert (Hl : AgentConfig.limits
                 (Frame.with_limit
                    (Frame.with_limit cfg
                       (LimitConfig.mk asset (JS.String amount1) (Some seconds1)))
                    limit2)
               = Limits.set (AgentConfig.limits cfg) asset limit2)
    by apply Limits_set_set.
  split; [exact Hl |]. split.
  - etransitivity; [exact (f_equal (fun limits => Limits.get limits asset) Hl) |].
    apply Limits_get_set.
  - intros other Hne.
    etransitivity; [exact (f_equal (fun limits => Limits.own limits !! other) Hl) |].
    apply Limits_own_set_ne. exact Hne.
Qed.

(** *** The storage driver *)

(** What [saveAgent] writes, [loadAgent] reads: after a configuration is
    saved to a readable file, loading its identifier gives the configuration
    as JSON keeps it, loading another identifier gives what it gave before,
    and the log reads as before.  The identifier [__proto__] is the
    exception: unless the file holds an agent of that name already, saving
    under it leaves the file as it was, and loading it gives what it gave
    before, which is [Object.prototype] and no configuration. *)
Theorem saveAgent_loadAgent (data : StorageData.t) (config : AgentConfig.t)
        (agentId : string) :
  let file' := snd (JsonFileStorage.saveAgent config (Ok data)) in
  fst (JsonFileStorage.saveAgent config (Ok data)) = Ok tt
  /\ fst (JsonFileStorage.loadAgent agentId file')
     = (if JS.sets_prototype (StorageData.agents data) (AgentConfig.agent_id config)
        then fst (JsonFileStorage.loadAgent agentId (Ok data))
        else if String.eqb agentId (AgentConfig.agent_id config)
             then Ok (Some (ConfigValue.Config (JsonFileStorage.json_config config)))
             else fst (JsonFileStorage.loadAgent agentId (Ok data)))
  /\ (JS.sets_prototype (StorageData.agents data) "__proto__" = true ->
      fst (JsonFileStorage.loadAgent "__proto__" (Ok data))
      = Ok (Some (ConfigValue.NotConfig ObjectPrototype.__proto__)))
  /\ forall id limit,
      JsonFileStorage.getLogs id limit file'
      = (fst (JsonFileStorage.getLogs id limit (Ok data)), file').
Proof.
  intros file'. split; [reflexivity |]. split; [| split; [| reflexivity]].
  - unfold file', JsonFileStorage.saveAgent, JsonFileStorage.loadAgent, bind,
      JsonFileStorage.readData, JsonFileStorage.writeData, ret, JS.assign. simpl.
    destruct (JS.sets_prototype _ _); [reflexivity |]. simpl.
    destruct (String.eqb_spec agentId (AgentConfig.agent_id config)) as [-> | Hne].
    + rewrite lookup_insert_eq. reflexivity.
    + rewrite lookup_insert_ne by congruence. reflexivity.
  - unfold JS.sets_prototype, JsonFileStorage.loadAgent, bind,
      JsonFileStorage.readData, ret. simpl.
    destruct (StorageData.agents data !! "__proto__"); [discriminate | reflexivity].
Qed.

(** What [appendLog] writes, [getLogs] reads: after an entry is appended to
    a readable file, the history of an agent is the history it had, followed
    by the entry as JSON keeps it when the entry is that agent's, and
    unchanged when it is another agent's; the log of all agents ends with
    the entry; the stored configurations load as before. *)
Theorem appendLog_getLogs (data : StorageData.t) (logEntry : LogEntry.t)
        (agentId : string) :
  agentId <> "" ->
  let file' := snd (JsonFileStorage.appendLog logEntry (Ok data)) in
  exists history,
    fst (JsonFileStorage.getLogs (Some agentId) None (Ok data)) = Ok history
    /\ fst (JsonFileStorage.getLogs (Some agentId) None file')
       = Ok (history ++ (if String.eqb (LogEntry.agent_id logEntry) agentId
                         then [JsonFileStorage.json_entry logEntry] else []))%list
    /\ fst (JsonFileStorage.getLogs None None file')
       = Ok (StorageData.logs data ++ [JsonFileStorage.json_entry logEntry])%list
    /\ forall id, fst (JsonFileStorage.loadAgent id file')
                  = fst (JsonFileStorage.loadAgent id (Ok data)).
Proof.
  intros Hid file'. eexists. split; [reflexivity |].
  split; [| split; reflexivity].
  unfold file', JsonFileStorage.appendLog, JsonFileStorage.getLogs, bind,
    JsonFileStorage.readData, JsonFileStorage.writeData, ret. simpl.
  destruct (String.eqb_spec agentId "") as [| _]; [contradiction |]. simpl.
  rewrite List.filter_app. simpl. destruct (String.eqb _ agentId); reflexivity.
Qed.

Lemma of_Z_positive (n : Z) :
  0 < n < 2 ^ 53 ->
  JS.truthy (JNum (Num.of_Z n)) = true /\ Num.ltb Num.zero (Num.of_Z n) = true.
Proof.
  intros Hn. rewrite (of_Z_canon n) by lia. destruct n as [| p | p]; [lia | | lia].
  split; reflexivity.
Qed.

Lemma of_Z_not_positive (n : Z) :
  - 2 ^ 53 < n <= 0 ->
  JS.truthy (JNum (Num.of_Z n)) && Num.ltb Num.zero (Num.of_Z n) = false.
Proof.
  intros Hn. rewrite (of_Z_canon n) by lia. destruct n as [| p | p]; [reflexivity | lia |].
  reflexivity.
Qed.

(** [getLogs] with a limit: for a whole number [n] above zero it returns
    the last [n] entries of what it returns without a limit, in their order,
    and all of them when there are fewer; a limit of zero or below is no
    limit. *)
Theorem getLogs_limit (data : StorageData.t) (agentId : option string) (n : Z) :
  Z.abs n < 2 ^ 53 ->
  exists all,
    fst (JsonFileStorage.getLogs agentId None (Ok data)) = Ok all
    /\ fst (JsonFileStorage.getLogs agentId (Some (Num.of_Z n)) (Ok data))
       = Ok (if 0 <? n then drop (length all - Z.to_nat n) all else all).
Proof.
  intros Hn. eexists. split; [reflexivity |].
  unfold JsonFileStorage.getLogs, bind, JsonFileStorage.readData, ret. cbn [fst].
  destruct (Z.ltb_spec 0 n) as [Hpos | Hle].
  - destruct (of_Z_positive n ltac:(lia)) as [-> ->]. cbn [andb].
    unfold JsonFileStorage.slice_last. rewrite trunc_of_Z by lia.
    destruct (Z.eqb_spec n 0) as [| _]; [lia |].
    do 2 f_equal. lia.
  - rewrite of_Z_not_positive by lia. reflexivity.
Qed.

(** *** The log and the spend *)

Lemma getLogs_readable (data : StorageData.t) (agentId : string) :
  JsonFileStorage.getLogs (Some agentId) None (Ok data)
  = (Ok (if JS.truthy (JStr agentId)
         then List.filter (fun log => String.eqb (LogEntry.agent_id log) agentId)
                          (StorageData.logs data)
         else StorageData.logs data), Ok data).
Proof. reflexivity. Qed.

Lemma Agent_getLogs_readable (this : Agent.t JsonFileStorage.t) (data : StorageData.t) :
  Agent.storage this = Ok data ->
  fst (Agent.getLogs None this)
  = fst (JsonFileStorage.getLogs (Some (Agent.agentId this)) None (Ok data)).
Proof.
  intros Hst. unfold Agent.getLogs, bind, Agent.get_agentId, Agent.on_storage.
  rewrite Hst. reflexivity.
Qed.

(** The history of the agent after a call of [authorize]: the history
    before, and the entry of the call. *)
Lemma history_after_authorize (this : Agent.t JsonFileStorage.t) (data : StorageData.t)
      (actionType : string) (params : gmap string JSValue) :
  Agent.storage this = Ok data ->
  exists history verdict entry,
    fst (Agent.getLogs None this) = Ok history
    /\ fst (Agent.authorize actionType params this) = Ok verdict
    /\ fst (Agent.getLogs None (snd (Agent.authorize actionType params this)))
       = Ok (history ++ [entry])%list
    /\ LogEntry.action_type entry = actionType
    /\ LogEntry.params entry = JS.json params
    /\ LogEntry.allowed entry = verdict.
Proof.
  intros Hst.
  destruct (authorize_readable this data actionType params Hst)
    as (history & Hh & Hv & entry & Hsame & _ & Hst' & Hid & Hty & Hp & Ha & _).
  eexists history, _, entry.
  rewrite (Agent_getLogs_readable this data Hst).
  rewrite (Agent_getLogs_readable _ _ Hst'), Hsame.
  rewrite Hst in Hh.
  change (fst (JsonFileStorage.getLogs (Some (Agent.agentId this)) None (Ok data))
          = Ok history) in Hh.
  split; [exact Hh |]. split; [exact Hv |].
  split; [| repeat split; assumption].
  revert Hh. rewrite !getLogs_readable. cbn [fst StorageData.logs].
  destruct (JS.truthy (JStr (Agent.agentId this))); intros [= <-]; [| reflexivity].
  rewrite List.filter_app. cbn [List.filter]. rewrite Hid, String.eqb_refl. reflexivity.
Qed.

(** A property that reads as a string, or as a falsy value, reads the
    same in the JSON form of the object. *)
Lemma json_get_string (params : gmap string JSValue) (key s : string) :
  JS.get params key = JStr s -> JS.get (JS.json params) key = JStr s.
Proof.
  unfold JS.get, JS.json. rewrite lookup_omap.
  destruct (params !! key) as [v |]; simpl.
  - intros [= ->]. reflexivity.
  - unfold JS.inherited. destruct (ObjectPrototype.of_key key); discriminate.
Qed.

Lemma json_get_falsy (params : gmap string JSValue) (key : string) :
  ObjectPrototype.of_key key = None ->
  JS.truthy (JS.get params key) = false -> JS.truthy (JS.get (JS.json params) key) = false.
Proof.
  intros Hkey. unfold JS.get, JS.json, JS.inherited. rewrite lookup_omap, Hkey.
  destruct (params !! key) as [v |]; simpl; [| trivial].
  destruct v as [| | b | [s | s | | s m e] | s]; simpl; congruence.
Qed.

(** The asset of a request, when it is a string, is the asset of the entry
    logged for it. *)
Lemma json_asset_or_token (params : gmap string JSValue) (asset : string) :
  JS.or (JS.get params "asset") (JS.get params "token") = JStr asset ->
  JS.or (JS.get (JS.json params) "asset") (JS.get (JS.json params) "token") = JStr asset.
Proof.
  unfold JS.or.
  destruct (JS.truthy (JS.get params "asset")) eqn:Ht.
  - intros Heq. rewrite (json_get_string _ _ _ Heq). rewrite Heq in Ht.
    rewrite Ht. reflexivity.
  - intros Heq. rewrite (json_get_falsy params "asset" eq_refl Ht).
    apply json_get_string, Heq.
Qed.

(** A denied request spends nothing: when [authorize] returns false, the
    sum that the limit check accumulates over the agent's history is the
    same after the call as before it, for every asset, limit and time. *)
Theorem denied_spends_nothing (this : Agent.t JsonFileStorage.t) (data : StorageData.t)
        (actionType : string) (params : gmap string JSValue) :
  Agent.storage this = Ok data ->
  fst (Agent.authorize actionType params this) = Ok false ->
  exists history history',
    fst (Agent.getLogs None this) = Ok history
    /\ fst (Agent.getLogs None (snd (Agent.authorize actionType params this)))
       = Ok history'
    /\ forall asset limitCfg now,
        Policies.totalSpent asset limitCfg now history'
        = Policies.totalSpent asset limitCfg now history.
Proof.
  intros Hst Hres.
  destruct (history_after_authorize this data actionType params Hst)
    as (history & verdict & entry & Hh & Hv & Hh' & _ & _ & Ha).
  rewrite Hres in Hv. injection Hv as <-.
  exists history, (history ++ [entry])%list. split; [exact Hh |]. split; [exact Hh' |].
  intros asset limitCfg now. unfold Policies.totalSpent.
  rewrite fold_left_app. simpl. apply spend_step_denied, Ha.
Qed.

(** An allowed request spends its amount: when [authorize] returns true
    for a request whose asset (or token) and amount are strings, the agent's
    history grows by one entry, and in every later check on that asset whose
    window does not start after the entry's time stamp, the sum accumulated
    is the sum over the history before, plus the amount as [parseFloat]
    reads it. *)
Theorem allowed_spends_amount (this : Agent.t JsonFileStorage.t) (data : StorageData.t)
        (actionType : string) (params : gmap string JSValue) (asset amount : string) :
  Agent.storage this = Ok data ->
  fst (Agent.authorize actionType params this) = Ok true ->
  JS.or (JS.get params "asset") (JS.get params "token") = JStr asset ->
  JS.get params "amount" = JStr amount ->
  exists history entry,
    fst (Agent.getLogs None this) = Ok history
    /\ fst (Agent.getLogs None (snd (Agent.authorize actionType params this)))
       = Ok (history ++ [entry])%list
    /\ forall limitCfg now,
        Date.lt (Date_parse (LogEntry.timestamp entry)) (Policies.windowStart limitCfg now)
        = false ->
        Policies.totalSpent (JStr asset) limitCfg now (history ++ [entry])
        = Num.add (Policies.totalSpent (JStr asset) limitCfg now history)
                  (Num.parseFloat amount).
Proof.
  intros Hst Hres Hasset Hamount.
  destruct (history_after_authorize this data actionType params Hst)
    as (history & verdict & entry & Hh & Hv & Hh' & _ & Hp & Ha).
  rewrite Hres in Hv. injection Hv as <-.
  exists history, entry. split; [exact Hh |]. split; [exact Hh' |].
  intros limitCfg now Hin. unfold Policies.totalSpent.
  rewrite fold_left_app. simpl. unfold Policies.spend_step at 1.
  rewrite Ha, Hin, Hp, (json_asset_or_token _ _ Hasset), (json_get_string _ _ _ Hamount).
  simpl. rewrite String.eqb_refl. reflexivity.
Qed.

(** Every entry that [authorize] appends is dated: when the engine reads
    the ISO format as ECMAScript lays it down and the clock stays within the
    years 0000 to 9999, a log of dated entries is a log of dated entries
    after the call. *)
Theorem authorize_keeps_dated (this : Agent.t JsonFileStorage.t) (data : StorageData.t)
        (actionType : string) (params : gmap string JSValue) :
  (forall s time, Date.parse_iso s = Some time -> Date_parse s = Some time) ->
  Agent.storage this = Ok data ->
  (forall k, -62167219200000 <= Agent.clock this k <= 253402300799999) ->
  Forall Spec.dated (StorageData.logs data) ->
  exists data',
    Agent.storage (snd (Agent.authorize actionType params this)) = Ok data'
    /\ Forall Spec.dated (StorageData.logs data').
Proof.
  intros Hiso Hst Hclock Hdated.
  destruct (authorize_readable this data actionType params Hst)
    as (history & _ & _ & entry & _ & _ & Hst' & _ & _ & _ & _ & _ & Hts).
  eexists. split; [exact Hst' |]. simpl. apply Forall_app. split; [exact Hdated |].
  constructor; [| constructor]. unfold Spec.dated. rewrite Hts. eexists.
  apply Hiso, toISOString_parse_iso, Hclock.
Qed.

(** *** Requests that pass, and other agents *)

(** Over a readable state file [authorize] returns true for every request
    that the rule matcher admits and that, when it names an amount and an
    asset with a limit, the limit check finds within that limit. *)
Theorem authorize_true_complete (this : Agent.t JsonFileStorage.t) (data : StorageData.t)
        (cfg : AgentConfig.t) (actionType : string) (params : gmap string JSValue) :
  Agent.storage this = Ok data ->
  Agent.config this = Some cfg ->
  Policies.isActionAllowedByRules actionType params (AgentConfig.allow_rules cfg) = true ->
  (forall limitCfg,
      Agent.limit_to_check cfg (JS.get params "amount")
        (JS.or (JS.get params "asset") (JS.get params "token")) = Some limitCfg ->
      fst (Policies.isWithinLimits
             (JS.or (JS.get params "asset") (JS.get params "token"))
             (JS.String (JS.get params "amount")) limitCfg (Agent.agentId this)
             (Some (Agent.clock this (Agent.ticks this))) (Agent.storage this))
      = Ok true) ->
  fst (Agent.authorize actionType params this) = Ok true.
Proof.
  intros Hst Hcfg Hallowed Hwithin.
  destruct (authorize_readable this data actionType params Hst) as (history & Hh & -> & _).
  f_equal. unfold Replay.effective_config. rewrite Hcfg. unfold Replay.verdict.
  rewrite Hallowed. change (negb true) with false. cbv iota zeta.
  destruct (Agent.limit_to_check cfg _ _) as [[limitCfg | v] |] eqn:Hl; [| | reflexivity].
  - specialize (Hwithin limitCfg eq_refl). revert Hwithin.
    unfold Policies.isWithinLimits.
    destruct (negb (JS.strict_eq _ _)); [discriminate |].
    unfold bind, ret.
    destruct (getLogs (Some (Agent.agentId this)) None (Agent.storage this))
      as [[logs | m] st']; [| discriminate].
    simpl in Hh. injection Hh as ->. simpl. intros [= ->]. reflexivity.
  - destruct (limit_to_check_not_limit _ _ _ _ Hl) as [Ha Hv].
    specialize (Hwithin (LimitValue.NotLimit v) eq_refl). revert Hwithin.
    unfold Policies.isWithinLimits.
    rewrite (truthy_not_nullish _ Hv), (truthy_not_undefined _ Ha). discriminate.
Qed.

(** The name of an asset is looked up in [config.limits] as a property of
    a plain object: for a request that the allowlist admits, that names an
    amount, and whose asset bears the name of a member of [Object.prototype]
    ([constructor], [toString], [valueOf], ...), the member is found where
    no limit is set, it passes for a limit on another asset, and the request
    is denied. *)
Theorem authorize_inherited_limit (this : Agent.t JsonFileStorage.t) (data : StorageData.t)
        (cfg : AgentConfig.t) (actionType : string) (params : gmap string JSValue)
        (asset : string) (m : ObjectPrototype.member) :
  Agent.storage this = Ok data ->
  Agent.config this = Some cfg ->
  Policies.isActionAllowedByRules actionType params (AgentConfig.allow_rules cfg) = true ->
  JS.truthy (JS.get params "amount") = true ->
  JS.or (JS.get params "asset") (JS.get params "token") = JStr asset ->
  ObjectPrototype.of_key asset = Some m ->
  Limits.own (AgentConfig.limits cfg) !! asset = None ->
  Limits.prototype (AgentConfig.limits cfg) = None ->
  Agent.limit_to_check cfg (JS.get params "amount") (JStr asset)
  = Some (LimitValue.NotLimit (Inherited m))
  /\ fst (Agent.authorize actionType params this) = Ok false.
Proof.
  intros Hst Hcfg Hallowed Hamount Hasset Hkey Hown Hproto.
  assert (Hl : Agent.limit_to_check cfg (JS.get params "amount") (JStr asset)
               = Some (LimitValue.NotLimit (Inherited m))).
  { unfold Agent.limit_to_check. rewrite Hamount.
    assert (Ht : JS.truthy (JStr asset) = true).
    { destruct asset; [discriminate Hkey | reflexivity]. }
    rewrite Ht. cbn [andb]. change (JS.String (JStr asset)) with asset.
    unfold Limits.get, JS.inherited. rewrite Hown, Hproto, Hkey. reflexivity. }
  split; [exact Hl |].
  destruct (authorize_readable this data actionType params Hst) as (history & _ & -> & _).
  f_equal. unfold Replay.effective_config. rewrite Hcfg. unfold Replay.verdict.
  rewrite Hallowed. change (negb true) with false. cbv iota zeta.
  rewrite Hasset, Hl. reflexivity.
Qed.

(** Agents that share a state file do not touch each other: a call of
    [authorize] by one agent leaves the history that [getLogs] returns for
    every other agent, and every stored configuration, as they were. *)
Theorem authorize_other_agents (this : Agent.t JsonFileStorage.t) (data : StorageData.t)
        (actionType : string) (params : gmap string JSValue) (other : string) :
  Agent.storage this = Ok data ->
  other <> Agent.agentId this ->
  other <> "" ->
  exists data',
    Agent.storage (snd (Agent.authorize actionType params this)) = Ok data'
    /\ fst (JsonFileStorage.getLogs (Some other) None (Ok data'))
       = fst (JsonFileStorage.getLogs (Some other) None (Ok data))
    /\ StorageData.agents data' = StorageData.agents data.
Proof.
  intros Hst Hother Hne.
  destruct (authorize_readable this data actionType params Hst)
    as (history & _ & _ & entry & _ & _ & Hst' & Hid & _).
  eexists. split; [exact Hst' |]. split; [| reflexivity].
  assert (Ht : JS.truthy (JStr other) = true).
  { simpl. destruct (String.eqb_spec other ""); [contradiction | reflexivity]. }
  rewrite !getLogs_readable, Ht. cbn [fst StorageData.logs].
  rewrite List.filter_app. cbn [List.filter]. rewrite Hid.
  destruct (String.eqb_spec (Agent.agentId this) other) as [Heq | _]; [congruence |].
  rewrite app_nil_r. reflexivity.
Qed.

(** *** The configuration in the state file *)

Lemma saveAgent_readable (data : StorageData.t) (config : AgentConfig.t) :
  saveAgent config (Ok data : JsonFileStorage.t)
  = (Ok tt,
     Ok (StorageData.mk
           (JS.assign (StorageData.agents data) (AgentConfig.agent_id config)
                      (JsonFileStorage.json_config config))
           (StorageData.logs data))).
Proof. reflexivity. Qed.

(** The state file follows the object: over a readable file, [setLimit]
    with a window that parses and [allowAction] return, and afterwards the
    file is the file before with the configuration that the object now
    holds assigned under the agent's identifier, in the form that JSON
    keeps of it: the own properties of [config.limits], and [null] for a
    window length that is not finite.  The other agents and the log are as
    they were. *)
Theorem config_saved (this : Agent.t JsonFileStorage.t) (data : StorageData.t) :
  Frame.holds_config this ->
  Agent.storage this = Ok data ->
  (forall asset amount window seconds,
      Policies.parseTimeWindow window = Ok seconds ->
      fst (Agent.setLimit asset amount window this) = Ok tt
      /\ Frame.saved data (snd (Agent.setLimit asset amount window this)))
  /\ (forall actionType constraints,
         fst (Agent.allowAction actionType constraints this) = Ok tt
         /\ Frame.saved data (snd (Agent.allowAction actionType constraints this))).
Proof.
  intros (cfg & Hcfg & Hid) Hst. split.
  - intros asset amount window seconds Hw.
    rewrite (setLimit_cases _ _ _ _ _ Hcfg), Hw. cbv zeta.
    rewrite Hst, saveAgent_readable. split; [reflexivity |].
    eexists. split; [reflexivity |]. cbn. rewrite Hid. reflexivity.
  - intros actionType constraints.
    rewrite (allowAction_cases _ _ _ _ Hcfg). cbv zeta.
    rewrite Hst, saveAgent_readable. split; [reflexivity |].
    eexists. split; [reflexivity |]. cbn. rewrite Hid. reflexivity.
Qed.

End JsonFileFacts.

(** ** The usage example, and the claims at concrete inputs *)

Section Concrete.
#[local] Existing Instance Example.iso.

Lemma example_history_dated : Forall Spec.dated Example.history.
Proof. repeat constructor; eexists; vm_compute; reflexivity. Defined.

(** The session of the usage example: 10, 5 and 10 USDC are allowed, which
    brings the total to the limit of 25, and the next 10 are denied. *)
Example session_verdicts : Example.session = Ok [true; true; true; false].
Proof. vm_compute. reflexivity. Qed.

(** The sliding window example: with 10 and 5 USDC spent inside the window, a request
    of 10 is allowed, and once it is logged a further request of 10 is denied. *)
Lemma isWithinLimits_iff_witness :
  let now := Example.t0 + 2 * Example.hour in
  let third := Example.spend "2025-11-30T14:00:00Z" "10" true in
  Policies.isWithinLimits (JStr "USDC") "10" Example.usdc_limit Example.id (Some now)
                          (Example.file Example.history)
  = (Ok true, Example.file Example.history)
  /\ Policies.isWithinLimits (JStr "USDC") "10" Example.usdc_limit Example.id
                             (Some (now + 1)) (Example.file (Example.history ++ [third]))
     = (Ok false, Example.file (Example.history ++ [third])).
Proof.
  intros now third. split.
  - refine (proj1 (isWithinLimits_iff "10" Example.usdc_limit Example.id now 86400
                     Example.history
                     (Example.file Example.history) (Example.file Example.history)
                     eq_refl eq_refl _ _ _ _ example_history_dated));
      unfold now, Example.t0, Example.hour; lia.
  - refine (proj1 (isWithinLimits_iff "10" Example.usdc_limit Example.id (now + 1) 86400
                     (Example.history ++ [third])
                     (Example.file (Example.history ++ [third]))
                     (Example.file (Example.history ++ [third]))
                     eq_refl eq_refl _ _ _ _ _)).
    + lia.
    + lia.
    + unfold now, Example.t0, Example.hour. lia.
    + unfold now, Example.t0, Example.hour. lia.
    + repeat constructor; eexists; vm_compute; reflexivity.
Defined.

(** The window expiry example: a spend of 20 USDC against a limit of 25 an hour no
    longer counts once the hour is over. *)
Lemma totalSpent_window_sum_witness :
  let history := [Example.spend "2025-11-30T12:00:00Z" "20" true] in
  Policies.totalSpent (JStr "USDC") Example.hourly_limit
                      (Some (Example.t0 + Example.hour + 1)) history
  = Num.zero.
Proof.
  intros history.
  rewrite (totalSpent_window_sum (JStr "USDC") Example.hourly_limit
             (Example.t0 + Example.hour + 1) 3600 history eq_refl).
  - vm_compute. reflexivity.
  - lia.
  - lia.
  - unfold Example.t0, Example.hour. lia.
  - unfold Example.t0, Example.hour. lia.
  - repeat constructor; eexists; vm_compute; reflexivity.
Defined.

(** C4 fails on the code: with 0.1 USDC spent and a limit of 0.3, a request
    of 0.2 is denied, because the sum of the two binary64 numbers is above
    the binary64 number nearest to 0.3; on exact decimals the total is
    the limit and the request is within it. *)
Theorem isWithinLimits_binary_rounding :
  let history := [Example.spend "2025-11-30T12:00:00Z" "0.1" true] in
  fst (Policies.isWithinLimits (JStr "USDC") "0.2" Example.small_limit Example.id
                               (Some (Example.t0 + Example.hour))
                               (Example.file history))
  = Ok false
  /\ Spec.exact_within ["0.1"] "0.2" "0.3" = Some true.
Proof. split; vm_compute; reflexivity. Qed.

(** C5 fails on the code: an allowed entry whose amount does not read as a
    number turns the sum into NaN, and the request is denied, where the
    other entries alone leave room for it. *)
Theorem isWithinLimits_unparsable_amount :
  let malformed := Example.spend "2025-11-30T12:00:00Z" "abc" true in
  let wellformed := Example.spend "2025-11-30T13:00:00Z" "5" true in
  let now := Some (Example.t0 + 2 * Example.hour) in
  fst (Policies.isWithinLimits (JStr "USDC") "10" Example.usdc_limit Example.id now
                               (Example.file [malformed; wellformed]))
  = Ok false
  /\ fst (Policies.isWithinLimits (JStr "USDC") "10" Example.usdc_limit Example.id now
                                  (Example.file [wellformed]))
     = Ok true
  /\ Policies.totalSpent (JStr "USDC") Example.usdc_limit now [malformed; wellformed]
     = Num.NaN.
Proof. repeat split; vm_compute; reflexivity. Qed.

(** Such an entry is written by [authorize] itself, for a request made
    while the asset has no limit; every later request is then denied. *)
Example session_malformed_verdicts : Example.session_malformed = Ok [true; false].
Proof. vm_compute. reflexivity. Qed.

(** C1 at the usage example: the state file is gone, the request is one the
    allowlist admits, and [authorize] throws. *)
Lemma authorize_unreadable_throws_witness :
  fst (Agent.authorize "swap" (Example.swap "UniswapV3" "10")
                       (Example.agent Example.unreadable Example.config Example.t0))
  = Throw "ENOENT: no such file or directory, open 'state.json'".
Proof.
  exact (authorize_unreadable_throws
           (Example.agent Example.unreadable Example.config Example.t0)
           "ENOENT: no such file or directory, open 'state.json'"
           "swap" (Example.swap "UniswapV3" "10") eq_refl).
Defined.

(** C6 at the usage example: staking is on no allow-rule. *)
Lemma authorize_unknown_action_witness :
  fst (Agent.authorize "stake" (Example.swap "UniswapV3" "10")
                       (Example.agent (Example.file []) Example.config Example.t0))
  = Ok false.
Proof.
  refine (f_equal fst
            (authorize_unknown_action
               (Example.agent (Example.file []) Example.config Example.t0)
               Example.config "stake" (Example.swap "UniswapV3" "10") eq_refl _ eq_refl)).
  intros rule [<- | []]. discriminate.
Defined.

(** C6 as stated fails: the reason in the log starts with a capital letter. *)
Lemma authorize_unknown_action_reason :
  let this := Example.agent (Example.file []) Example.config Example.t0 in
  let result := Agent.authorize "stake" (Example.swap "UniswapV3" "10") this in
  fst result = Ok false
  /\ exists entry,
      Agent.storage (snd result) = Example.file [entry]
      /\ LogEntry.allowed entry = false
      /\ LogEntry.reason entry = Some "Action not in allowlist"
      /\ LogEntry.reason entry <> Some "action not in allowlist".
Proof.
  split; [vm_compute; reflexivity |].
  eexists. split; [vm_compute; reflexivity |].
  repeat split; discriminate.
Qed.

(** C10 at the usage example: the limit of 25 USDC is used up, and a swap
    that names no amount is allowed all the same. *)
Lemma authorize_skips_limit_check_witness :
  let spent := [Example.spend "2025-11-30T12:00:00Z" "25" true] in
  fst (Agent.authorize "swap" Example.swap_no_amount
                       (Example.agent (Example.file spent) Example.config
                                      (Example.t0 + Example.hour)))
  = Ok true.
Proof.
  intros spent.
  refine (f_equal fst
            (authorize_skips_limit_check
               (Example.agent (Example.file spent) Example.config
                              (Example.t0 + Example.hour))
               Example.config "swap" Example.swap_no_amount eq_refl eq_refl _ eq_refl)).
  left. reflexivity.
Defined.

(** C9 at the usage example: the second file also holds an entry of
    another agent, and the second clock runs on; the verdicts agree. *)
Lemma authorize_replay_witness :
  let now := Example.t0 + 2 * Example.hour in
  let a := Example.agent (Example.file Example.history) Example.config now in
  let b := Agent.mk Example.id
                    (Example.file (Example.foreign_entry :: Example.history))
                    None (fun n => now + Z.of_nat n) 0 in
  exists verdict : bool,
    fst (Agent.authorize "swap" (Example.swap "UniswapV3" "10") a) = Ok verdict
    /\ fst (Agent.authorize "swap" (Example.swap "UniswapV3" "10") b) = Ok verdict.
Proof.
  intros now a b.
  refine (authorize_replay a b _ _ "swap" (Example.swap "UniswapV3" "10")
            eq_refl eq_refl _ _ _).
  - vm_compute. reflexivity.
  - vm_compute. reflexivity.
  - vm_compute. reflexivity.
Defined.

(** The usage example: a swap of 10 USDC is allowed and logged. *)
Lemma authorize_appends_one_witness :
  let this := Example.agent (Example.file Example.history) Example.config
                            (Example.t0 + 2 * Example.hour) in
  exists verdict : bool,
    fst (Agent.authorize "swap" (Example.swap "UniswapV3" "10") this) = Ok verdict
    /\ Replay.logged_one this
         (StorageData.mk {[ Example.id := Example.config ]} Example.history)
         "swap" (Example.swap "UniswapV3" "10") verdict
         (snd (Agent.authorize "swap" (Example.swap "UniswapV3" "10") this)).
Proof.
  intros this.
  exact (authorize_appends_one this _ "swap" (Example.swap "UniswapV3" "10") eq_refl).
Defined.

(** The usage example: a limit of 25 USDC a day, then one of 100 a week. *)
Lemma setLimit_latest_wins_witness :
  let this := Example.agent (Example.file []) Example.config Example.t0 in
  exists this1 this2,
    Agent.setLimit "USDC" (JStr "25") "24h" this = (Ok tt, this1)
    /\ Agent.setLimit "USDC" (JNum (Num.of_Z 100)) "7d" this1 = (Ok tt, this2)
    /\ exists cfg2 : AgentConfig.t,
        Agent.config this2 = Some cfg2
        /\ AgentConfig.limits cfg2
           = Limits.set (AgentConfig.limits Example.config) "USDC"
               (LimitConfig.mk "USDC" "100" (Some (Num.of_Z 604800)))
        /\ Limits.get (AgentConfig.limits cfg2) "USDC"
           = LimitValue.Limit (LimitConfig.mk "USDC" "100" (Some (Num.of_Z 604800)))
        /\ forall other,
            other <> "USDC" ->
            Limits.own (AgentConfig.limits cfg2) !! other
            = Limits.own (AgentConfig.limits Example.config) !! other.
Proof.
  intros this.
  refine (setLimit_latest_wins this Example.config _ "USDC" (JStr "25")
            (JNum (Num.of_Z 100)) "24h" "7d" (Num.of_Z 86400) (Num.of_Z 604800)
            eq_refl eq_refl _ _); vm_compute; reflexivity.
Defined.

(** An agent that the state file does not know: loading its configuration
    throws inside the [try] block, and the verdict is false. *)
Lemma authorize_fault_not_allowed_witness :
  let this := Agent.mk Example.id Example.empty_file None (fun _ => Example.t0) 0 in
  fst (Agent.authorize "swap" (Example.swap "UniswapV3" "10") this) <> Ok true
  /\ fst (Agent.authorize "swap" (Example.swap "UniswapV3" "10") this) = Ok false.
Proof.
  intros this. split.
  - apply (authorize_fault_not_allowed this "swap" (Example.swap "UniswapV3" "10")
             ("Agent " +:+ Example.id +:+ " not found in storage")).
    vm_compute. reflexivity.
  - vm_compute. reflexivity.
Defined.

(** [main] of the usage example: the swaps of 10 and 5 USDC are allowed;
    the swap of 15 would bring the total to 30, the swap on SushiSwap
    matches no rule and staking is on no rule, so the three are denied; the
    log then holds five entries. *)
Example main_verdicts : Example.main = Ok ([true; true; false; false; false], 5%nat).
Proof. vm_compute. reflexivity. Qed.

(** Two swaps on UniswapV3 that differ in the amount: the rule of the usage
    example names the protocol only. *)
Lemma ruleMatches_params_agree_witness :
  Policies.ruleMatches Example.swap_rule (Example.swap "UniswapV3" "10")
  = Policies.ruleMatches Example.swap_rule (Example.swap "UniswapV3" "5").
Proof.
  apply ruleMatches_params_agree. intros key [expected Hk].
  change (AllowRule.constraints Example.swap_rule)
    with ({[ "protocol" := JStr "UniswapV3" ]} : gmap string JSValue) in Hk.
  apply lookup_singleton_Some in Hk as [<- _]. reflexivity.
Defined.

(** The two rules of the usage example allow what the first one allows. *)
Lemma isActionAllowedByRules_more_rules_witness :
  Policies.isActionAllowedByRules "swap" (Example.swap "UniswapV3" "10")
    [Example.transfer_rule; Example.swap_rule] = true.
Proof.
  apply (isActionAllowedByRules_more_rules "swap" _ [Example.swap_rule]).
  - intros rule [<- | []]. right. left. reflexivity.
  - reflexivity.
Defined.

(** An entry logged half a second after 2025-11-30T12:00:00Z. *)
Lemma log_entry_timestamp_witness :
  Date.parse_iso
    (LogEntry.timestamp
       (Agent.log_entry (Example.t0 + 500) Example.id "swap"
                        (Example.swap "UniswapV3" "10") true None))
  = Some Example.t0.
Proof.
  exact (proj1 (log_entry_timestamp (Example.t0 + 500) Example.id "swap"
                  (Example.swap "UniswapV3" "10") true None
                  ltac:(unfold Example.t0; lia))).
Defined.

(** A request for "abc" USDC. *)
Lemma isWithinLimits_not_a_number_witness :
  fst (Policies.isWithinLimits (JStr "USDC") "abc" Example.usdc_limit Example.id
                               (Some Example.t0) (Example.file []))
  <> Ok true
  /\ Num.parseFloat "abc" = Num.NaN.
Proof.
  split; [| vm_compute; reflexivity].
  apply isWithinLimits_not_a_number. left. vm_compute. reflexivity.
Defined.

(** The third swap of the session, which is allowed: the rule matches and
    the limit check has passed. *)
Lemma authorize_true_sound_witness :
  let this := Example.agent (Example.file Example.history) Example.config
                            (Example.t0 + 2 * Example.hour) in
  let params := Example.swap "UniswapV3" "10" in
  Policies.isActionAllowedByRules "swap" params (AgentConfig.allow_rules Example.config)
  = true
  /\ forall limitCfg,
      Agent.limit_to_check Example.config (JS.get params "amount")
        (JS.or (JS.get params "asset") (JS.get params "token")) = Some limitCfg ->
      fst (Policies.isWithinLimits
             (JS.or (JS.get params "asset") (JS.get params "token"))
             (JS.String (JS.get params "amount")) limitCfg (Agent.agentId this)
             (Some (Agent.clock this (Agent.ticks this))) (Agent.storage this))
      = Ok true.
Proof.
  intros this params.
  refine (authorize_true_sound this Example.config "swap" params eq_refl _).
  vm_compute. reflexivity.
Defined.

(** The agent of the usage example after a request. *)
Lemma agent_holds_config_witness :
  Frame.holds_config
    (snd (Agent.authorize "swap" (Example.swap "UniswapV3" "10")
                          (Example.agent (Example.file []) Example.config Example.t0))).
Proof.
  refine (proj1 (proj1 (proj2 (proj2 (proj2 agent_holds_config
                                        (Example.agent (Example.file []) Example.config
                                                       Example.t0)
                                        _)))
                       "swap" (Example.swap "UniswapV3" "10"))).
  exists Example.config. split; reflexivity.
Defined.

(** The limit of the usage example is stored under "USDC", and is the one
    found for a swap of USDC. *)
Lemma limits_keyed_by_asset_witness :
  let this := Example.agent (Example.file []) Example.config Example.t0 in
  Frame.limits_keyed (snd (Agent.setLimit "ETH" (JStr "0.01") "1h" this))
  /\ JS.strict_eq (JStr "USDC") (JStr (LimitConfig.asset Example.usdc_limit)) = true.
Proof.
  intros this.
  assert (Hholds : Frame.holds_config this) by (exists Example.config; split; reflexivity).
  assert (Hkeyed : Frame.limits_keyed this).
  { intros cfg [= <-]. split.
    - intros key limitCfg Hl.
      change (Limits.own (AgentConfig.limits Example.config))
        with ({[ "USDC" := Example.usdc_limit ]} : gmap string LimitConfig.t) in Hl.
      apply lookup_singleton_Some in Hl as [<- <-]. reflexivity.
    - intros limitCfg Hl. discriminate. }
  split.
  - exact (proj1 (proj2 limits_keyed_by_asset this Hholds Hkeyed)
             "ETH" (JStr "0.01") "1h").
  - exact (proj2 (proj2 (proj2 (proj2 limits_keyed_by_asset this Hholds Hkeyed)))
             Example.config (JStr "10") "USDC" Example.usdc_limit eq_refl eq_refl).
Defined.

(** The agent of the usage example, just registered, asks for a swap. *)
Lemma register_default_deny_witness :
  fst (Agent.register Example.id "0x742d35Cc6634C0532925a3b844Bc9e7595f0bEb"
                      (Some "payments_bot") ∅ Example.empty_file Example.clock 0)
  = Ok Example.registered
  /\ fst (Agent.authorize "swap" (Example.swap "UniswapV3" "10") Example.registered)
     <> Ok true.
Proof.
  split; [reflexivity |].
  apply (register_default_deny Example.id "0x742d35Cc6634C0532925a3b844Bc9e7595f0bEb"
           (Some "payments_bot") ∅ Example.empty_file Example.clock 0).
  reflexivity.
Defined.

(** A window of "24hours" over a readable file, and a window of "24h" over
    a file that cannot be read. *)
Lemma setLimit_failure_witness :
  let this := Example.agent (Example.file []) Example.config Example.t0 in
  let that := Example.agent Example.unreadable Example.config Example.t0 in
  Agent.setLimit "ETH" (JStr "0.01") "24hours" this
  = (Throw (Policies.invalid_window_message "24hours"), this)
  /\ fst (Agent.setLimit "ETH" (JStr "0.01") "24h" that)
     = Throw "ENOENT: no such file or directory, open 'state.json'"
  /\ Agent.config (snd (Agent.setLimit "ETH" (JStr "0.01") "24h" that))
     = Some (Frame.with_limit Example.config
               (LimitConfig.mk "ETH" "0.01" (Some (Num.of_Z 86400)))).
Proof.
  intros this that. split.
  - apply (proj1 (setLimit_failure this Example.config "ETH" (JStr "0.01") "24hours"
                    eq_refl)).
    reflexivity.
  - apply (proj2 (setLimit_failure that Example.config "ETH" (JStr "0.01") "24h" eq_refl)
             (Num.of_Z 86400)).
    + vm_compute. reflexivity.
    + reflexivity.
Defined.

(** The second rule of the usage example is added to the first. *)
Lemma allowAction_admits_witness :
  let this := Example.agent (Example.file []) Example.config Example.t0 in
  exists cfg' : AgentConfig.t,
    Agent.config (snd (Agent.allowAction "transfer" (Some {[ "token" := JStr "USDC" ]}) this))
    = Some cfg'
    /\ Policies.isActionAllowedByRules "swap" (Example.swap "UniswapV3" "10")
         (AgentConfig.allow_rules cfg') = true
    /\ Policies.isActionAllowedByRules "transfer"
         {[ "token" := JStr "USDC"; "amount" := JStr "5" ]}
         (AgentConfig.allow_rules cfg') = true.
Proof.
  intros this.
  destruct (allowAction_admits this Example.config "transfer"
              (Some {[ "token" := JStr "USDC" ]}) eq_refl)
    as (cfg' & Hcfg & _ & Hold & Hnew).
  exists cfg'. split; [exact Hcfg |]. split.
  - apply Hold. reflexivity.
  - apply Hnew. intros key expected Hk.
    change (default ∅ (Some ({[ "token" := JStr "USDC" ]} : gmap string JSValue)))
      with ({[ "token" := JStr "USDC" ]} : gmap string JSValue) in Hk.
    apply lookup_singleton_Some in Hk as [<- <-]. reflexivity.
Defined.

(** Another agent's entry is appended to the history of the usage example. *)
Lemma appendLog_getLogs_witness :
  let data := StorageData.mk {[ Example.id := Example.config ]} Example.history in
  let file' := snd (JsonFileStorage.appendLog Example.foreign_entry (Ok data)) in
  exists history,
    fst (JsonFileStorage.getLogs (Some Example.id) None (Ok data)) = Ok history
    /\ fst (JsonFileStorage.getLogs (Some Example.id) None file')
       = Ok (history ++ (if String.eqb (LogEntry.agent_id Example.foreign_entry) Example.id
                         then [JsonFileStorage.json_entry Example.foreign_entry]
                         else []))%list
    /\ fst (JsonFileStorage.getLogs None None file')
       = Ok (StorageData.logs data ++ [JsonFileStorage.json_entry Example.foreign_entry])%list
    /\ forall id, fst (JsonFileStorage.loadAgent id file')
                  = fst (JsonFileStorage.loadAgent id (Ok data)).
Proof.
  intros data file'.
  apply (appendLog_getLogs data Example.foreign_entry Example.id). discriminate.
Defined.

(** The last entry of the history of the usage example. *)
Lemma getLogs_limit_witness :
  let data := StorageData.mk {[ Example.id := Example.config ]} Example.history in
  exists all,
    fst (JsonFileStorage.getLogs (Some Example.id) None (Ok data)) = Ok all
    /\ fst (JsonFileStorage.getLogs (Some Example.id) (Some (Num.of_Z 1)) (Ok data))
       = Ok (if 0 <? 1 then drop (length all - Z.to_nat 1) all else all).
Proof.
  intros data. apply (getLogs_limit data (Some Example.id) 1). reflexivity.
Defined.

(** Staking, which no rule allows, after the two swaps of the usage example. *)
Lemma denied_spends_nothing_witness :
  let this := Example.agent (Example.file Example.history) Example.config
                            (Example.t0 + 2 * Example.hour) in
  exists history history',
    fst (Agent.getLogs None this) = Ok history
    /\ fst (Agent.getLogs None
              (snd (Agent.authorize "stake" (Example.swap "UniswapV3" "10") this)))
       = Ok history'
    /\ forall asset limitCfg now,
        Policies.totalSpent asset limitCfg now history'
        = Policies.totalSpent asset limitCfg now history.
Proof.
  intros this.
  refine (denied_spends_nothing this _ "stake" (Example.swap "UniswapV3" "10") eq_refl _).
  vm_compute. reflexivity.
Defined.

(** The third swap of the session: 10 USDC more are spent. *)
Lemma allowed_spends_amount_witness :
  let this := Example.agent (Example.file Example.history) Example.config
                            (Example.t0 + 2 * Example.hour) in
  exists history entry,
    fst (Agent.getLogs None this) = Ok history
    /\ fst (Agent.getLogs None
              (snd (Agent.authorize "swap" (Example.swap "UniswapV3" "10") this)))
       = Ok (history ++ [entry])%list
    /\ forall limitCfg now,
        Date.lt (Date_parse (LogEntry.timestamp entry)) (Policies.windowStart limitCfg now)
        = false ->
        Policies.totalSpent (JStr "USDC") limitCfg now (history ++ [entry])
        = Num.add (Policies.totalSpent (JStr "USDC") limitCfg now history)
                  (Num.parseFloat "10").
Proof.
  intros this.
  refine (allowed_spends_amount this _ "swap" (Example.swap "UniswapV3" "10") "USDC" "10"
            eq_refl _ eq_refl eq_refl).
  vm_compute. reflexivity.
Defined.

(** The history of the usage example stays dated. *)
Lemma authorize_keeps_dated_witness :
  let this := Example.agent (Example.file Example.history) Example.config
                            (Example.t0 + 2 * Example.hour) in
  exists data',
    Agent.storage (snd (Agent.authorize "swap" (Example.swap "UniswapV3" "10") this))
    = Ok data'
    /\ Forall Spec.dated (StorageData.logs data').
Proof.
  intros this.
  refine (authorize_keeps_dated this _ "swap" (Example.swap "UniswapV3" "10")
            _ eq_refl _ example_history_dated).
  - intros s time Hs. exact Hs.
  - intros k. unfold this, Example.agent, Example.t0, Example.hour. simpl. lia.
Defined.

(** The second limit of the usage example is set and saved. *)
Lemma config_saved_witness :
  let this := Example.agent (Example.file []) Example.config Example.t0 in
  fst (Agent.setLimit "ETH" (JStr "0.01") "1h" this) = Ok tt
  /\ Frame.saved (StorageData.mk {[ Example.id := Example.config ]} [])
       (snd (Agent.setLimit "ETH" (JStr "0.01") "1h" this)).
Proof.
  intros this.
  refine (proj1 (config_saved this _ _ eq_refl) "ETH" (JStr "0.01") "1h" (Num.of_Z 3600) _).
  - exists Example.config. split; reflexivity.
  - vm_compute. reflexivity.
Defined.

(** The third swap of the session passes the two checks, and is allowed. *)
Lemma authorize_true_complete_witness :
  fst (Agent.authorize "swap" (Example.swap "UniswapV3" "10")
         (Example.agent (Example.file Example.history) Example.config
                        (Example.t0 + 2 * Example.hour)))
  = Ok true.
Proof.
  refine (authorize_true_complete
            (Example.agent (Example.file Example.history) Example.config
                           (Example.t0 + 2 * Example.hour))
            _ Example.config "swap" (Example.swap "UniswapV3" "10")
            eq_refl eq_refl eq_refl _).
  intros limitCfg Hlimit. vm_compute in Hlimit. injection Hlimit as <-.
  vm_compute. reflexivity.
Defined.

(** The agent of the usage example asks for a swap; the entry of the other
    agent in the file is all that [getLogs] returns for that agent, as
    before. *)
Lemma authorize_other_agents_witness :
  let data := StorageData.mk {[ Example.id := Example.config ]}
                             (Example.foreign_entry :: Example.history) in
  let this := Agent.mk Example.id (Ok data : JsonFileStorage.t) (Some Example.config)
                       (fun _ => Example.t0 + 2 * Example.hour) 0 in
  exists data',
    Agent.storage (snd (Agent.authorize "swap" (Example.swap "UniswapV3" "10") this))
    = Ok data'
    /\ fst (JsonFileStorage.getLogs (Some "another-agent") None (Ok data'))
       = fst (JsonFileStorage.getLogs (Some "another-agent") None (Ok data))
    /\ StorageData.agents data' = StorageData.agents data.
Proof.
  intros data this.
  apply (authorize_other_agents this data "swap" (Example.swap "UniswapV3" "10")
           "another-agent" eq_refl); discriminate.
Defined.

(** C2 at an input on which it fails: the one entry of the history is an
    allowed spend of 20 USDC whose timestamp does not read as a date.  No
    spend lies in the window, so a request of 10 is within the limit of 25;
    the check counts the 20 and denies it. *)
Lemma isWithinLimits_undated_entry_witness :
  let log := Example.spend "yesterday" "20" true in
  let now := Some (Example.t0 + 2 * Example.hour) in
  Policies.isWithinLimits (JStr "USDC") "10" Example.usdc_limit Example.id now
                          (Example.file [log])
  = (Ok false, Example.file [log])
  /\ Spec.window_sum (JStr "USDC") (Policies.windowStart Example.usdc_limit now) [log]
     = Num.zero
  /\ Num.leb (Num.add Num.zero (Num.parseFloat "10")) (Num.parseFloat "25") = true.
Proof.
  intros log now.
  refine (match isWithinLimits_undated_entry "10" Example.usdc_limit Example.id now log
                  (Num.parseFloat "20") (Example.file [log]) (Example.file [log])
                  _ _ _ _ _
          with
          | conj Hcode Hspec => conj Hcode (conj Hspec _)
          end); vm_compute; reflexivity.
Defined.

(** C3 at an input on which it fails: against the limit of 25 USDC an hour,
    an allowed spend of 20 USDC whose timestamp does not read as a date is
    in the sum two hours later, and at every other time. *)
Lemma totalSpent_undated_entry_witness :
  let log := Example.spend "yesterday" "20" true in
  let now := Some (Example.t0 + 2 * Example.hour) in
  Policies.totalSpent (JStr "USDC") Example.hourly_limit now [log] = Num.parseFloat "20"
  /\ Spec.counted (JStr "USDC") (Policies.windowStart Example.hourly_limit now) log = false
  /\ Spec.window_sum (JStr "USDC") (Policies.windowStart Example.hourly_limit now) [log]
     = Num.zero.
Proof.
  intros log now.
  refine (totalSpent_undated_entry (JStr "USDC") Example.hourly_limit now [] log
            (Num.parseFloat "20") _ _ _ _); vm_compute; reflexivity.
Defined.

(** C9 as stated fails: the two objects are over the same state file, which
    holds the limit of 25 USDC a day and the spends of 10 and 5, their
    clocks show the same time and they get the same request.  The second
    object holds a limit of 5 USDC, from a call of [setLimit] whose save has
    failed: [setLimit] assigns [this.config] before it saves.  The first
    allows the swap of 10 USDC, the second denies it. *)
Lemma authorize_replay_stale_config :
  let now := Example.t0 + 2 * Example.hour in
  let request := Example.swap "UniswapV3" "10" in
  let a := Example.agent (Example.file Example.history) Example.config now in
  let b := Example.after_failed_setLimit (Example.file Example.history) now in
  fst (Agent.setLimit "USDC" (JStr "5") "24h"
         (Example.agent Example.unreadable Example.config now))
  = Throw "ENOENT: no such file or directory, open 'state.json'"
  /\ Agent.agentId a = Agent.agentId b
  /\ Agent.storage a = Agent.storage b
  /\ fst (JsonFileStorage.loadAgent Example.id (Agent.storage b))
     = Ok (Some (ConfigValue.Config Example.config))
  /\ Agent.clock a (Agent.ticks a) = Agent.clock b (Agent.ticks b)
  /\ fst (Agent.authorize "swap" request a) = Ok true
  /\ fst (Agent.authorize "swap" request b) = Ok false.
Proof.
  intros now request a b.
  repeat split; vm_compute; reflexivity.
Qed.

(** C10 as stated fails: the allowlist matches and the request names no
    amount, but the state file cannot be read, the entry cannot be appended,
    and [authorize] throws where the claim has it return true. *)
Lemma authorize_skips_limit_check_unreadable :
  let this := Example.agent Example.unreadable Example.config Example.t0 in
  Policies.isActionAllowedByRules "swap" Example.swap_no_amount
    (AgentConfig.allow_rules Example.config) = true
  /\ Spec.no_limit_trigger Example.swap_no_amount
  /\ fst (Agent.authorize "swap" Example.swap_no_amount this)
     = Throw "ENOENT: no such file or directory, open 'state.json'"
  /\ fst (Agent.authorize "swap" Example.swap_no_amount this) <> Ok true.
Proof.
  intros this. split; [reflexivity |]. split; [left; reflexivity |].
  split; [vm_compute; reflexivity | vm_compute; discriminate].
Qed.

(** A rule that asks for [toString: 'undefined'] does not match a request
    without that key, which inherits the method of [Object.prototype]; a
    rule that asks for the string form of the method does. *)
Example ruleMatches_inherited_member :
  Policies.ruleMatches (AllowRule.mk "swap" {[ "toString" := JStr "undefined" ]}) ∅ = false
  /\ Policies.ruleMatches
       (AllowRule.mk "swap" {[ "toString" := JStr "function toString() { [native code] }" ]})
       ∅ = true.
Proof. split; vm_compute; reflexivity. Qed.

(** A transfer of 10 units of a token called [constructor], which has no
    limit, by the agent of the usage example with a rule for transfers. *)
Lemma authorize_inherited_limit_witness :
  let cfg := Frame.with_rule Example.config (AllowRule.mk "transfer" ∅) in
  let this := Example.agent (Example.file []) cfg Example.t0 in
  let params : gmap string JSValue :=
    {[ "token" := JStr "constructor"; "amount" := JStr "10" ]} in
  Agent.limit_to_check cfg (JS.get params "amount") (JStr "constructor")
  = Some (LimitValue.NotLimit (Inherited ObjectPrototype.constructor))
  /\ fst (Agent.authorize "transfer" params this) = Ok false.
Proof.
  intros cfg this params.
  refine (authorize_inherited_limit this _ cfg "transfer" params "constructor"
            ObjectPrototype.constructor eq_refl eq_refl _ _ _ eq_refl _ eq_refl);
    vm_compute; reflexivity.
Defined.

End Concrete.
